(** * Skill-Enhancement-Platform: catalog statistics and resource trust

    A shallow embedding of
    - [backend/utils/urlVerifier.js]
      ([verifyUrl], [verifyUrls], [isKnownAuthenticPlatform]),
    - [backend/models/Resource.js] and [backend/models/Skill.js]
      (schemas, the slug, [updateStatistics], [addResource], [removeResource]),
    - the router of [backend/routes/admin.js]: its routes in the order
      of their registration, the validators in front of the handlers, and
      the handlers of the resource routes (create, update, verify,
      toggle-active, delete, restore, bulk-verify, bulk-delete), of the
      statistics refresh and of the deletion and restoration of a skill,
    followed by the properties the specification states about them.

    JavaScript numbers are IEEE-754 binary64 values; they are embedded as
    Rocq's primitive floats, which have the same arithmetic.  JavaScript
    strings are embedded as byte strings; the strings the modelled code
    inspects character by character are ASCII (URLs, host names) or
    treated bytewise with the same result (skill names, see [Slug]). *)

From Stdlib Require Import Bool Arith ZArith List Permutation Lia.
From Stdlib Require Import Ascii String DecimalString.
From Stdlib Require Import Floats.
Import ListNotations.

Local Open Scope string_scope.
Local Open Scope bool_scope.
Local Open Scope nat_scope.

(* ================================================================== *)
(** * JavaScript string primitives used by the sources *)
(* ================================================================== *)

Module Js.

Definition code (c : ascii) : nat := nat_of_ascii c.

Definition between (lo hi : nat) (c : ascii) : bool :=
  (lo <=? code c) && (code c <=? hi).

Definition isDigit (c : ascii) : bool := between 48 57 c.
Definition isLower (c : ascii) : bool := between 97 122 c.
Definition isUpper (c : ascii) : bool := between 65 90 c.
Definition isAlpha (c : ascii) : bool := isLower c || isUpper c.
Definition isAlnum (c : ascii) : bool := isAlpha c || isDigit c.

(** [\s] restricted to ASCII: TAB, LF, VT, FF, CR and SPACE. *)
Definition isSpace (c : ascii) : bool := between 9 13 c || (code c =? 32).

Definition isChar (c d : ascii) : bool := Ascii.eqb c d.

(** [s.startsWith(p)] *)
Definition startsWith (s p : string) : bool := String.prefix p s.

(** [s.includes(sub)] *)
Fixpoint includes (s sub : string) : bool :=
  String.prefix sub s ||
  match s with
  | EmptyString => false
  | String _ s' => includes s' sub
  end.

Definition lowerChar (c : ascii) : ascii :=
  if isUpper c then ascii_of_nat (code c + 32) else c.

(** [s.toLowerCase()] on ASCII text *)
Fixpoint toLowerCase (s : string) : string :=
  match s with
  | EmptyString => EmptyString
  | String c s' => String (lowerChar c) (toLowerCase s')
  end.

Fixpoint dropWhile (p : ascii -> bool) (s : string) : string :=
  match s with
  | EmptyString => EmptyString
  | String c s' => if p c then dropWhile p s' else s
  end.

Fixpoint takeWhile (p : ascii -> bool) (s : string) : string :=
  match s with
  | EmptyString => EmptyString
  | String c s' => if p c then String c (takeWhile p s') else EmptyString
  end.

Fixpoint forallb (p : ascii -> bool) (s : string) : bool :=
  match s with
  | EmptyString => true
  | String c s' => p c && forallb p s'
  end.

Fixpoint existsb (p : ascii -> bool) (s : string) : bool :=
  match s with
  | EmptyString => false
  | String c s' => p c || existsb p s'
  end.

Fixpoint filter (p : ascii -> bool) (s : string) : string :=
  match s with
  | EmptyString => EmptyString
  | String c s' => if p c then String c (filter p s') else filter p s'
  end.

Fixpoint rev_onto (s acc : string) : string :=
  match s with
  | EmptyString => acc
  | String c s' => rev_onto s' (String c acc)
  end.

Definition rev (s : string) : string := rev_onto s EmptyString.

Definition dropWhileEnd (p : ascii -> bool) (s : string) : string :=
  rev (dropWhile p (rev s)).

(** [s.trim()] *)
Definition trim (s : string) : string :=
  dropWhileEnd isSpace (dropWhile isSpace s).

Definition drop (n : nat) (s : string) : string :=
  String.substring n (String.length s - n) s.

(** [s.replace(/^www\./, '')] *)
Definition replace_leading_www (s : string) : string :=
  if startsWith s "www." then drop 4 s else s.

(** Truthiness of a string: only the empty string is falsy. *)
Definition truthy (s : string) : bool :=
  match s with EmptyString => false | _ => true end.

(** Template-literal rendering of an integer. *)
Definition showZ (z : Z) : string := NilZero.string_of_int (Z.to_int z).

End Js.

(* ================================================================== *)
(** * The URL class of the platform *)
(* ================================================================== *)

(** The components of a parsed URL the sources read. *)
Record URL : Type := mkURL {
  protocol : string;   (* with the trailing colon, as in "https:" *)
  hostname : string;
  port     : string;   (* empty when absent or the scheme's default *)
  pathname : string;
  search   : string
}.

(** [new URL(s)] either yields a URL or throws a [TypeError]; a parser is
    a function into [option URL], [None] standing for the exception. *)
Definition URLParser : Type := string -> option URL.

(** ** A model of the WHATWG parser on the fragment exercised below

    It follows the WHATWG URL standard for inputs without a base URL:
    an input with no scheme is a failure; for the special schemes http,
    https, ws, wss and ftp the authority is split into credentials, host
    and port, an empty host or a host with a forbidden code point is a
    failure, and the host is lower-cased.  IPv4/IPv6 literals,
    percent-escapes and non-ASCII hosts, dot-segment removal and the
    [file] scheme lie outside the fragment: the model answers [None]
    for such hosts and leaves paths as written.  The general theorems
    below quantify over every parser; this one only serves to evaluate
    the sources on concrete inputs inside the fragment. *)
Module Whatwg.
Import Js.

Definition isC0OrSpace (c : ascii) : bool := code c <=? 32.
Definition isTabOrNewline (c : ascii) : bool :=
  (code c =? 9) || (code c =? 10) || (code c =? 13).

Definition isSchemeChar (c : ascii) : bool :=
  isAlnum c || isChar c "+" || isChar c "-" || isChar c ".".

(** Splits ["scheme:rest"]; [None] when the input has no scheme. *)
Definition splitScheme (s : string) : option (string * string) :=
  match s with
  | String c _ =>
      if isAlpha c then
        let sch := takeWhile isSchemeChar s in
        match dropWhile isSchemeChar s with
        | String d rest => if isChar d ":" then Some (toLowerCase sch, rest) else None
        | EmptyString => None
        end
      else None
  | EmptyString => None
  end.

Definition isSpecial (scheme : string) : bool :=
  String.eqb scheme "http" || String.eqb scheme "https" ||
  String.eqb scheme "ws" || String.eqb scheme "wss" ||
  String.eqb scheme "ftp".

Definition defaultPort (scheme : string) : string :=
  if String.eqb scheme "http" || String.eqb scheme "ws" then "80"
  else if String.eqb scheme "https" || String.eqb scheme "wss" then "443"
  else if String.eqb scheme "ftp" then "21"
  else "".

Definition isSlash (c : ascii) : bool := isChar c "/" || isChar c "\".
Definition endsAuthority (c : ascii) : bool :=
  isSlash c || isChar c "?" || isChar c "#".

(** The part after the last ["@"], if any. *)
Fixpoint afterLastAt (s : string) : string :=
  match s with
  | EmptyString => EmptyString
  | String c s' =>
      if isChar c "@" && negb (existsb (fun d => isChar d "@") s')
      then s'
      else if existsb (fun d => isChar d "@") s' then afterLastAt s' else s
  end.

(** Code points a domain may not contain, together with what the
    fragment leaves out (["%"], ["["], non-ASCII bytes). *)
Definition forbiddenInHost (c : ascii) : bool :=
  (code c <=? 32) || (127 <=? code c) ||
  isChar c "#" || isChar c "%" || isChar c "/" || isChar c ":" || isChar c "<" || isChar c ">" ||
  isChar c "?" || isChar c "@" || isChar c "[" || isChar c "\" || isChar c "]" || isChar c "^" ||
  isChar c "|".

Fixpoint lastLabel (s acc : string) : string :=
  match s with
  | EmptyString => acc
  | String c s' => if isChar c "." then lastLabel s' EmptyString
                   else lastLabel s' (acc ++ String c EmptyString)
  end.

(** Hosts whose last label is a number go through the IPv4 parser. *)
Definition endsInNumber (host : string) : bool :=
  let h := dropWhileEnd (fun c => isChar c ".") host in
  let l := lastLabel h EmptyString in
  (truthy l && forallb isDigit l) ||
  startsWith l "0x" || startsWith l "0X".

Definition parseHost (h : string) : option string :=
  if negb (truthy h) then None
  else if existsb forbiddenInHost h then None
  else if endsInNumber h then None
  else Some (toLowerCase h).

Fixpoint digitsValue (s : string) (acc : N) : N :=
  match s with
  | EmptyString => acc
  | String c s' => digitsValue s' (10 * acc + N.of_nat (code c - 48))%N
  end.

Definition showN (n : N) : string := NilZero.string_of_uint (N.to_uint n).

Definition parsePort (scheme p : string) : option string :=
  if negb (truthy p) then Some ""
  else if negb (forallb isDigit p) then None
  else let v := digitsValue p 0%N in
       if (65535 <? v)%N then None
       else if String.eqb (showN v) (defaultPort scheme) then Some ""
       else Some (showN v).

Definition parse (input : string) : option URL :=
  let s := filter (fun c => negb (isTabOrNewline c))
             (dropWhileEnd isC0OrSpace (dropWhile isC0OrSpace input)) in
  match splitScheme s with
  | None => None
  | Some (scheme, rest) =>
      if isSpecial scheme then
        let r := dropWhile isSlash rest in
        let authority := takeWhile (fun c => negb (endsAuthority c)) r in
        let tail := dropWhile (fun c => negb (endsAuthority c)) r in
        let hostport := afterLastAt authority in
        let h := takeWhile (fun c => negb (isChar c ":")) hostport in
        let p := match dropWhile (fun c => negb (isChar c ":")) hostport with
                 | String _ p => p
                 | EmptyString => EmptyString
                 end in
        match parseHost h, parsePort scheme p with
        | Some host, Some prt =>
            let beforeFragment := takeWhile (fun c => negb (isChar c "#")) tail in
            let path := takeWhile (fun c => negb (isChar c "?")) beforeFragment in
            let query := dropWhile (fun c => negb (isChar c "?")) beforeFragment in
            Some {| protocol := scheme ++ ":";
                    hostname := host;
                    port := prt;
                    pathname := if truthy path then path else "/";
                    search := if String.eqb query "?" then "" else query |}
        | _, _ => None
        end
      else None
  end.

End Whatwg.

(* ================================================================== *)
(** * JavaScript numbers *)
(* ================================================================== *)

Module Num.
Local Open Scope float_scope.

(** An array length as a number. *)
Definition ofNat (n : nat) : float := PrimFloat.of_uint63 (Uint63.of_Z (Z.of_nat n)).

(** Falsy numbers: [0], [-0] and [NaN]. *)
Definition falsy (x : float) : bool := PrimFloat.is_zero x || PrimFloat.is_nan x.

(** [x || 0], where [None] is an absent ([undefined]) field. *)
Definition orZero (x : option float) : float :=
  match x with
  | None => 0
  | Some v => if falsy v then 0 else v
  end.

(** [min]/[max] validators of a Mongoose [Number] path. *)
Definition atLeast (lo x : float) : bool := lo <=? x.
Definition atMost (hi x : float) : bool := x <=? hi.
End Num.

(* ================================================================== *)
(** * Documents: backend/models/Resource.js, backend/models/Skill.js *)
(* ================================================================== *)

Definition ObjectId : Type := nat.
Definition Date : Type := nat.

Inductive LearningType : Type := free | premium | freemium.

Definition LearningType_eqb (a b : LearningType) : bool :=
  match a, b with
  | free, free | premium, premium | freemium, freemium => true
  | _, _ => false
  end.

(** The paths of [resourceSchema] that the modelled operations read or
    write.  The remaining paths (title, type, category, ...) are checked
    by the route validators before a handler runs and are never touched
    by the code below. *)
Module Resource.

Record t : Type := mk {
  _id             : ObjectId;
  url             : string;
  learningType    : LearningType;
  skill           : ObjectId;
  verified        : bool;            (* default: false *)
  rating          : float;           (* min 0, max 5, default 0 *)
  enrollmentCount : option float;    (* min 0, default 0 *)
  isActive        : bool;            (* default: true *)
  deletedAt       : option Date      (* default: null *)
}.

Definition set_verified (b : bool) (r : t) : t :=
  mk (_id r) (url r) (learningType r) (skill r) b
     (rating r) (enrollmentCount r) (isActive r) (deletedAt r).

Definition set_isActive (b : bool) (r : t) : t :=
  mk (_id r) (url r) (learningType r) (skill r) (verified r)
     (rating r) (enrollmentCount r) b (deletedAt r).

Definition set_deletedAt (d : option Date) (r : t) : t :=
  mk (_id r) (url r) (learningType r) (skill r) (verified r)
     (rating r) (enrollmentCount r) (isActive r) d.

(** The [url] validator is a regular expression anchored at both
    ends: an optional scheme "(https?:\/\/)?", a host "([\da-z\.-]+)",
    a literal dot, "([a-z\.]{2,6})", a starred group of starred
    "[\/\w \.-]", and an optional final slash. *)
Module UrlPattern.
Import Js.

Definition hostChar (c : ascii) : bool :=     (* "[\da-z\.-]" *)
  isDigit c || isLower c || isChar c "." || isChar c "-".
Definition tldChar (c : ascii) : bool :=      (* "[a-z\.]" *)
  isLower c || isChar c ".".
Definition pathChar (c : ascii) : bool :=     (* "[\/\w \.-]" *)
  isChar c "/" || isAlnum c || isChar c "_" || isChar c " " ||
  isChar c "." || isChar c "-".

(** Everything after the literal dot: two to six characters of
    "[a-z\.]", then only path characters up to the end (the optional
    final slash is itself a path character). *)
Definition tldThenPath (u : string) : bool :=
  List.existsb
    (fun k => (k <=? String.length u) &&
              forallb tldChar (String.substring 0 k u) &&
              forallb pathChar (drop k u))
    [2; 3; 4; 5; 6].

(** The head "([\da-z\.-]+)\." followed by the tail; [seen] records
    that the host group already holds a character. *)
Fixpoint hostThenRest (u : string) (seen : bool) : bool :=
  match u with
  | EmptyString => false
  | String c u' =>
      (seen && isChar c "." && tldThenPath u') ||
      (hostChar c && hostThenRest u' true)
  end.

Definition withoutScheme (v : string) : list string :=
  (if startsWith v "https://" then [drop 8 v] else []) ++
  (if startsWith v "http://" then [drop 7 v] else []) ++ [v].

Definition test (v : string) : bool :=
  List.existsb (fun u => hostThenRest u false) (withoutScheme v).
End UrlPattern.

(** Schema validation of the modelled paths, as run by [save()]. *)
Definition validate (r : t) : bool :=
  Js.truthy (url r) && UrlPattern.test (url r) &&
  Num.atLeast 0 (rating r) && Num.atMost 5 (rating r) &&
  match enrollmentCount r with
  | None => true
  | Some e => Num.atLeast 0 e
  end.

End Resource.

Record Statistics : Type := mkStatistics {
  totalResources   : float;
  freeResources    : float;
  premiumResources : float;
  averageRating    : float;
  totalLearners    : float;
  popularityScore  : float
}.

(** Schema defaults of [statistics]. *)
Definition Statistics_default : Statistics :=
  mkStatistics 0 0 0 0 0 0.

Module Skill.

Record t : Type := mk {
  _id        : ObjectId;
  resources  : list ObjectId;
  statistics : Statistics;
  isActive   : bool;
  deletedAt  : option Date
}.

Definition set_resources (l : list ObjectId) (s : t) : t :=
  mk (_id s) l (statistics s) (isActive s) (deletedAt s).

Definition set_statistics (st : Statistics) (s : t) : t :=
  mk (_id s) (resources s) st (isActive s) (deletedAt s).

(** Every [statistics] path has [min: 0]; [averageRating] has [max: 5]. *)
Definition validateStatistics (st : Statistics) : bool :=
  Num.atLeast 0 (totalResources st) &&
  Num.atLeast 0 (freeResources st) &&
  Num.atLeast 0 (premiumResources st) &&
  Num.atLeast 0 (averageRating st) && Num.atMost 5 (averageRating st) &&
  Num.atLeast 0 (totalLearners st) &&
  Num.atLeast 0 (popularityScore st).

Definition validate (s : t) : bool := validateStatistics (statistics s).

End Skill.

(* ================================================================== *)
(** * The world the server runs in *)
(* ================================================================== *)

(** The options object handed to [client.request]. *)
Record RequestOptions : Type := mkRequestOptions {
  opt_https              : bool;     (* the [https] module, else [http] *)
  opt_hostname           : string;
  opt_port               : string;
  opt_path               : string;
  opt_method             : string;
  opt_timeout            : Z;
  opt_rejectUnauthorized : bool
}.

(** What the request object emits first. *)
Inductive NetEvent : Type :=
| OnResponse (status : Z)                            (* the response callback *)
| OnError (code : option string) (message : string)  (* the ['error'] event *)
| OnTimeout.                                         (* the ['timeout'] event *)

(** The collaborators outside the repository: the URL class, the network
    (queried with the number of requests issued so far and the request
    options), and the deployment mode. *)
Record Platform : Type := mkPlatform {
  newURL   : URLParser;
  network  : nat -> RequestOptions -> NetEvent;
  NODE_ENV : string
}.

(** The document store, the requests issued so far, the lines written
    with [console.warn], the wall clock, and a trace of the arguments
    [verifyUrl] has been called with (kept only to state that a call did
    or did not happen). *)
Record World : Type := mkWorld {
  resourceDocs : list Resource.t;
  skillDocs    : list Skill.t;
  httpLog      : list RequestOptions;
  consoleWarn  : list string;
  clock        : Date;
  verifyCalls  : list (option string)
}.

(** ** Computations: state passing with exceptions *)

Inductive Outcome (A : Type) : Type :=
| Ok (a : A)
| Throw (e : string).
Arguments Ok {A} a.
Arguments Throw {A} e.

Definition M (A : Type) : Type := World -> Outcome A * World.

Definition ret {A} (a : A) : M A := fun w => (Ok a, w).

Definition throw {A} (e : string) : M A := fun w => (Throw e, w).

Definition bind {A B} (m : M A) (k : A -> M B) : M B :=
  fun w =>
    match m w with
    | (Ok a, w') => k a w'
    | (Throw e, w') => (Throw e, w')
    end.

(** [try { body } catch (error) { handler(error) }] *)
Definition tryCatch {A} (body : M A) (handler : string -> M A) : M A :=
  fun w =>
    match body w with
    | (Ok a, w') => (Ok a, w')
    | (Throw e, w') => handler e w'
    end.

Declare Scope monad_scope.
Delimit Scope monad_scope with monad.
Notation "x <- m ;; k" := (bind m (fun x => k))
  (at level 61, m at next level, right associativity) : monad_scope.
Notation "m ;;; k" := (bind m (fun _ => k))
  (at level 61, right associativity) : monad_scope.
Local Open Scope monad_scope.

Definition get : M World := fun w => (Ok w, w).

Definition modify (f : World -> World) : M unit := fun w => (Ok tt, f w).

Definition set_resourceDocs (l : list Resource.t) (w : World) : World :=
  mkWorld l (skillDocs w) (httpLog w) (consoleWarn w) (clock w) (verifyCalls w).

Definition set_skillDocs (l : list Skill.t) (w : World) : World :=
  mkWorld (resourceDocs w) l (httpLog w) (consoleWarn w) (clock w) (verifyCalls w).

Definition add_httpLog (q : RequestOptions) (w : World) : World :=
  mkWorld (resourceDocs w) (skillDocs w) (httpLog w ++ [q])%list
          (consoleWarn w) (clock w) (verifyCalls w).

Definition add_consoleWarn (line : string) (w : World) : World :=
  mkWorld (resourceDocs w) (skillDocs w) (httpLog w)
          (consoleWarn w ++ [line])%list (clock w) (verifyCalls w).

Definition add_verifyCall (arg : option string) (w : World) : World :=
  mkWorld (resourceDocs w) (skillDocs w) (httpLog w)
          (consoleWarn w) (clock w) (verifyCalls w ++ [arg])%list.

(** [console.warn(line)] *)
Definition console_warn (line : string) : M unit :=
  modify (add_consoleWarn line).

(** [new Date()] *)
Definition newDate : M Date := fun w => (Ok (clock w), w).

(* ================================================================== *)
(** * backend/utils/urlVerifier.js *)
(* ================================================================== *)

Record VerifyResult : Type := mkVerifyResult {
  isValid    : bool;
  statusCode : option Z;
  error      : option string
}.

Definition authenticDomains : list string :=
  [ "youtube.com"; "youtu.be"; "udemy.com"; "coursera.org"; "edx.org";
    "linkedin.com"; "pluralsight.com"; "skillshare.com"; "khanacademy.org";
    "freecodecamp.org"; "codecademy.com"; "udacity.com"; "medium.com";
    "github.com"; "stackoverflow.com"; "w3schools.com"; "mdn.io";
    "developer.mozilla.org"; "docs.python.org"; "nodejs.org"; "react.dev";
    "vuejs.org"; "angular.io"; "typescriptlang.org" ].

Section UrlVerifier.

Variable P : Platform.

(** [client.request(options, callback)] followed by [req.end()].  Node
    checks [options.timeout] when it builds the request object: with a
    negative duration the call throws a [RangeError] of code
    [ERR_OUT_OF_RANGE] and nothing is sent (a duration above [2^31 - 1]
    is only clamped, with a process warning the model does not record).
    Otherwise the request is recorded and the network decides what is
    emitted. *)
Definition client_request (options : RequestOptions) : M NetEvent :=
  fun w =>
    if (opt_timeout options <? 0)%Z then (Throw "ERR_OUT_OF_RANGE", w)
    else (Ok (network P (List.length (httpLog w)) options), add_httpLog options w).

(** The response callback and the two event listeners of [verifyUrl]. *)
Definition onEvent (ev : NetEvent) : VerifyResult :=
  match ev with
  | OnResponse status =>
      let isValid := (200 <=? status)%Z && (status <? 400)%Z in
      {| isValid := isValid;
         statusCode := Some status;
         error := if isValid then None else Some ("HTTP " ++ Js.showZ status) |}
  | OnError code message =>
      let codeIs c := match code with Some c' => String.eqb c' c | None => false end in
      let errorMessage :=
        if codeIs "ENOTFOUND" then "Domain not found"
        else if codeIs "ECONNREFUSED" then "Connection refused"
        else if codeIs "ETIMEDOUT" || codeIs "ESOCKETTIMEDOUT" then "Request timeout"
        else if codeIs "CERT_HAS_EXPIRED" then "SSL certificate expired"
        else if codeIs "UNABLE_TO_VERIFY_LEAF_SIGNATURE"
             then "SSL certificate verification failed"
        else if Js.truthy message then message else "Unknown error" in
      {| isValid := false; statusCode := None; error := Some errorMessage |}
  | OnTimeout =>
      {| isValid := false; statusCode := None; error := Some "Request timeout" |}
  end.

(** The URL handed to the parser: trimmed, with ["https://"] prepended
    when neither scheme prefix is present. *)
Definition urlToCheck (urlString : string) : string :=
  let t := Js.trim urlString in
  if negb (Js.startsWith t "http://") && negb (Js.startsWith t "https://")
  then "https://" ++ t
  else t.

Definition requestOptions (parsedUrl : URL) (timeout : Z) : RequestOptions :=
  let https := String.eqb (protocol parsedUrl) "https:" in
  {| opt_https := https;
     opt_hostname := hostname parsedUrl;
     opt_port := if Js.truthy (port parsedUrl) then port parsedUrl
                 else if https then "443" else "80";
     opt_path := pathname parsedUrl ++ search parsedUrl;
     opt_method := "HEAD";
     opt_timeout := timeout;
     opt_rejectUnauthorized := String.eqb (NODE_ENV P) "production" |}.

(** [verifyUrl(urlString, timeout)].  The argument is [None] when the
    caller passes a value that is not a string.  Only the parsing sits
    in a [try] block: an exception of [client.request] leaves the
    executor of the promise, which is then rejected. *)
Definition verifyUrl (urlString : option string) (timeout : Z) : M VerifyResult :=
  modify (add_verifyCall urlString) ;;;
  match urlString with
  | None =>
      ret {| isValid := false; statusCode := None;
             error := Some "Invalid URL string" |}
  | Some s =>
      if negb (Js.truthy s) then
        ret {| isValid := false; statusCode := None;
               error := Some "Invalid URL string" |}
      else
        match newURL P (urlToCheck s) with
        | None =>
            ret {| isValid := false; statusCode := None;
                   error := Some "Invalid URL format" |}
        | Some parsedUrl =>
            ev <- client_request (requestOptions parsedUrl timeout) ;;
            ret (onEvent ev)
        end
  end.

Definition defaultTimeout : Z := 10000.

(** [isKnownAuthenticPlatform(urlString)] *)
Definition isKnownAuthenticPlatform (urlString : string) : bool :=
  if negb (Js.truthy urlString) then false
  else
    match newURL P urlString with
    | Some url =>
        let hostname := Js.replace_leading_www (Js.toLowerCase (hostname url)) in
        List.existsb (fun domain => Js.includes hostname domain) authenticDomains
    | None => false
    end.

End UrlVerifier.

(* ================================================================== *)
(** * The document store (the Mongoose calls the sources make) *)
(* ================================================================== *)

Module Store.

Definition findResource (id : ObjectId) (docs : list Resource.t) : option Resource.t :=
  List.find (fun d => Resource._id d =? id) docs.

Definition findSkill (id : ObjectId) (docs : list Skill.t) : option Skill.t :=
  List.find (fun d => Skill._id d =? id) docs.

Definition replaceResource (doc : Resource.t) (docs : list Resource.t) : list Resource.t :=
  List.map (fun d => if Resource._id d =? Resource._id doc then doc else d) docs.

Definition replaceSkill (doc : Skill.t) (docs : list Skill.t) : list Skill.t :=
  List.map (fun d => if Skill._id d =? Skill._id doc then doc else d) docs.

(** A fresh [ObjectId] for a new document. *)
Definition freshId (docs : list Resource.t) : ObjectId :=
  S (List.list_max (List.map Resource._id docs)).

Definition isNull {A} (x : option A) : bool :=
  match x with None => true | Some _ => false end.

(** The first document matching [{ url, deletedAt: null }]. *)
Definition findByUrl (u : string) (docs : list Resource.t) : option Resource.t :=
  List.find (fun d => String.eqb (Resource.url d) u && isNull (Resource.deletedAt d))
            docs.

(** The documents matching
    [{ skill, isActive: true, verified: true, deletedAt: null }]. *)
Definition countable (skillId : ObjectId) (docs : list Resource.t) : list Resource.t :=
  List.filter (fun d => (Resource.skill d =? skillId) &&
                        Resource.isActive d && Resource.verified d &&
                        isNull (Resource.deletedAt d))
              docs.

End Store.

(** [Resource.findById(id)] *)
Definition Resource_findById (id : ObjectId) : M (option Resource.t) :=
  fun w => (Ok (Store.findResource id (resourceDocs w)), w).

(** [Resource.findOne({ url, deletedAt: null })] *)
Definition Resource_findOne_url (u : string) : M (option Resource.t) :=
  fun w => (Ok (Store.findByUrl u (resourceDocs w)), w).

(** [Resource.find({ skill, isActive: true, verified: true, deletedAt: null })] *)
Definition Resource_find_countable (skillId : ObjectId) : M (list Resource.t) :=
  fun w => (Ok (Store.countable skillId (resourceDocs w)), w).

(** [Resource.find({ _id: { $in: ids } })] *)
Definition Resource_find_in (ids : list ObjectId) : M (list Resource.t) :=
  fun w =>
    (Ok (List.filter (fun d => List.existsb (Nat.eqb (Resource._id d)) ids)
                     (resourceDocs w)), w).

(** [resource.save()]: validation, then insert or replace. *)
Definition Resource_save (doc : Resource.t) : M unit :=
  fun w =>
    if Resource.validate doc then
      match Store.findResource (Resource._id doc) (resourceDocs w) with
      | Some _ => (Ok tt, set_resourceDocs (Store.replaceResource doc (resourceDocs w)) w)
      | None => (Ok tt, set_resourceDocs (resourceDocs w ++ [doc])%list w)
      end
    else (Throw "ValidationError", w).

(** [Resource.updateMany({ _id: { $in: ids } }, update)], answering
    [modifiedCount].  The schema has [timestamps: true], so Mongoose adds
    [updatedAt: now] to the update and every matched document counts as
    modified, whatever [update] does to it. *)
Definition Resource_updateMany_in (ids : list ObjectId)
    (update : Resource.t -> Resource.t) : M nat :=
  fun w =>
    let hit d := List.existsb (Nat.eqb (Resource._id d)) ids in
    (Ok (List.length (List.filter hit (resourceDocs w))),
     set_resourceDocs
       (List.map (fun d => if hit d then update d else d) (resourceDocs w)) w).

(** [Skill.findById(id)] *)
Definition Skill_findById (id : ObjectId) : M (option Skill.t) :=
  fun w => (Ok (Store.findSkill id (skillDocs w)), w).

(** [skill.save()] of a document loaded from the store. *)
Definition Skill_save (doc : Skill.t) : M unit :=
  fun w =>
    if Skill.validate doc then
      (Ok tt, set_skillDocs (Store.replaceSkill doc (skillDocs w)) w)
    else (Throw "ValidationError", w).

(* ================================================================== *)
(** * Instance methods of [skillSchema] *)
(* ================================================================== *)

Section Statistics.
Local Open Scope float_scope.

Definition totalRating (resources : list Resource.t) : float :=
  List.fold_left (fun sum r => sum + Resource.rating r) resources 0.

Definition totalEnrollments (resources : list Resource.t) : float :=
  List.fold_left (fun sum r => sum + Num.orZero (Resource.enrollmentCount r))
                 resources 0.

Definition countWhere (p : Resource.t -> bool) (resources : list Resource.t) : float :=
  Num.ofNat (List.length (List.filter p resources)).

(** The assignments [updateStatistics] makes to [this.statistics],
    given the documents the query returned. *)
Definition assignStatistics (resources : list Resource.t) (st : Statistics) : Statistics :=
  let st :=
    {| totalResources := Num.ofNat (List.length resources);
       freeResources :=
         countWhere (fun r => LearningType_eqb (Resource.learningType r) free) resources;
       premiumResources :=
         countWhere (fun r => LearningType_eqb (Resource.learningType r) premium) resources;
       averageRating := averageRating st;
       totalLearners := totalLearners st;
       popularityScore := popularityScore st |} in
  if (0 <? List.length resources)%nat then
    let totalRating := totalRating resources in
    let averageRating := totalRating / Num.ofNat (List.length resources) in
    let totalEnrollments := totalEnrollments resources in
    {| totalResources := totalResources st;
       freeResources := freeResources st;
       premiumResources := premiumResources st;
       averageRating := averageRating;
       totalLearners := totalEnrollments;
       popularityScore :=
         (Num.ofNat (List.length resources) * 10) +
         (averageRating * 20) +
         (totalEnrollments / 100) |}
  else st.

End Statistics.

(** [skillSchema.methods.updateStatistics]; answers the saved document. *)
Definition updateStatistics (this : Skill.t) : M Skill.t :=
  resources <- Resource_find_countable (Skill._id this) ;;
  let this := Skill.set_statistics (assignStatistics resources (Skill.statistics this)) this in
  Skill_save this ;;;
  ret this.

(** [skillSchema.methods.addResource] *)
Definition addResource (this : Skill.t) (resourceId : ObjectId) : M Skill.t :=
  if negb (List.existsb (Nat.eqb resourceId) (Skill.resources this)) then
    let this := Skill.set_resources (Skill.resources this ++ [resourceId])%list this in
    Skill_save this ;;;
    updateStatistics this
  else ret this.

(** [skillSchema.methods.removeResource] *)
Definition removeResource (this : Skill.t) (resourceId : ObjectId) : M Skill.t :=
  let this :=
    Skill.set_resources
      (List.filter (fun id => negb (id =? resourceId)) (Skill.resources this)) this in
  Skill_save this ;;;
  updateStatistics this.

(* ================================================================== *)
(** * backend/routes/admin.js: the resource routes *)
(* ================================================================== *)

(** JSON body of [POST /api/admin/resources], after the route's
    validators: [url], [skill] and [learningType] are present. *)
Module CreateReq.
Record t : Type := mk {
  url             : string;
  skill           : ObjectId;
  learningType    : LearningType;
  rating          : option float;
  enrollmentCount : option float;
  verified        : option bool;
  isActive        : option bool
}.
End CreateReq.

(** JSON body of [PUT /api/admin/resources/:id]: every field optional. *)
Module UpdateReq.
Record t : Type := mk {
  url             : option string;
  skill           : option ObjectId;
  learningType    : option LearningType;
  rating          : option float;
  enrollmentCount : option float;
  verified        : option bool;
  isActive        : option bool
}.

Definition set_verified (v : option bool) (b : t) : t :=
  mk (url b) (skill b) (learningType b) (rating b) (enrollmentCount b) v (isActive b).

(** Update validators ([runValidators: true]) of the paths present. *)
Definition validate (b : t) : bool :=
  match url b with
  | Some u => Js.truthy u && Resource.UrlPattern.test u
  | None => true
  end &&
  match rating b with
  | Some x => Num.atLeast 0 x && Num.atMost 5 x
  | None => true
  end &&
  match enrollmentCount b with
  | Some e => Num.atLeast 0 e
  | None => true
  end.

Definition orElse {A} (x : option A) (d : A) : A :=
  match x with Some v => v | None => d end.

(** The document after [$set]-ting the fields of the body. *)
Definition apply (b : t) (r : Resource.t) : Resource.t :=
  Resource.mk (Resource._id r)
    (orElse (url b) (Resource.url r))
    (orElse (learningType b) (Resource.learningType r))
    (orElse (skill b) (Resource.skill r))
    (orElse (verified b) (Resource.verified r))
    (orElse (rating b) (Resource.rating r))
    (match enrollmentCount b with Some e => Some e | None => Resource.enrollmentCount r end)
    (orElse (isActive b) (Resource.isActive r))
    (Resource.deletedAt r).
End UpdateReq.

Inductive ResponseData : Type :=
| NoData
| DataResource (r : Resource.t)
| DataStatistics (s : Statistics)
| DataModifiedCount (n : nat)
| DataIsActive (b : bool).

Record Response : Type := mkResponse {
  status            : nat;
  success           : bool;
  message           : string;
  data              : ResponseData;
  verificationError : option string;
  errorDetail       : option string;
  errors            : list string    (* the messages of the failed validators *)
}.

Definition respond (status : nat) (success : bool) (message : string)
    (data : ResponseData) : Response :=
  mkResponse status success message data None None [].

(** [Resource.findByIdAndUpdate(id, body, { new: true, runValidators: true })] *)
Definition Resource_findByIdAndUpdate (id : ObjectId) (body : UpdateReq.t)
    : M (option Resource.t) :=
  fun w =>
    if UpdateReq.validate body then
      match Store.findResource id (resourceDocs w) with
      | Some d =>
          let d' := UpdateReq.apply body d in
          (Ok (Some d'), set_resourceDocs (Store.replaceResource d' (resourceDocs w)) w)
      | None => (Ok None, w)
      end
    else (Throw "ValidationError", w).

Fixpoint forEach {A} (l : list A) (f : A -> M unit) : M unit :=
  match l with
  | [] => ret tt
  | x :: l' => f x ;;; forEach l' f
  end.

(** [[...new Set(ids)]] *)
Fixpoint unique (ids : list ObjectId) : list ObjectId :=
  match ids with
  | [] => []
  | x :: l => x :: List.filter (fun y => negb (y =? x)) (unique l)
  end.

(** [x || d] for a string that may be [undefined]. *)
Definition orString (x : option string) (d : string) : string :=
  match x with
  | Some s => if Js.truthy s then s else d
  | None => d
  end.

(** A value that may be [undefined] inside a template literal. *)
Definition showOpt (x : option string) : string :=
  match x with Some s => s | None => "undefined" end.

Section AdminRoutes.

Variable P : Platform.

(** The [catch] block shared by the routes. *)
Definition serverError (message : string) (e : string) : M Response :=
  ret (mkResponse 500 false message NoData None
         (if String.eqb (NODE_ENV P) "development" then Some e else None) []).

(** The [validate] helper of the routes file, when [validationResult]
    holds errors: it answers 400 and does not call [next()]. *)
Definition validationFailed (errors : list string) : M Response :=
  ret (mkResponse 400 false "Validation failed" NoData None None errors).

(** The document [new Resource({ ...req.body, verified })] builds. *)
Definition newResource (id : ObjectId) (body : CreateReq.t) (verified : bool)
    : Resource.t :=
  Resource.mk id
    (CreateReq.url body)
    (CreateReq.learningType body)
    (CreateReq.skill body)
    verified
    (UpdateReq.orElse (CreateReq.rating body) 0%float)
    (match CreateReq.enrollmentCount body with
     | Some e => Some e
     | None => Some 0%float
     end)
    (UpdateReq.orElse (CreateReq.isActive body) true)
    None.

(** The block "Verify URL is accessible and working" of the create
    route; it answers the local [verified]. *)
Definition verifyNewUrl (u : string) : M bool :=
  if isKnownAuthenticPlatform P u then ret true
  else
    verificationResult <- verifyUrl P (Some u) defaultTimeout ;;
    if isValid verificationResult then ret true
    else
      let verificationError :=
        orString (error verificationResult) "URL verification failed" in
      console_warn ("Resource URL verification failed: " ++
                    u ++ " - " ++ verificationError) ;;;
      ret false.

(** [POST /api/admin/resources] *)
Definition createResource (body : CreateReq.t) : M Response :=
  tryCatch
    (skill <- Skill_findById (CreateReq.skill body) ;;
     match skill with
     | None => ret (respond 404 false "Skill not found" NoData)
     | Some skill =>
         existingResource <- Resource_findOne_url (CreateReq.url body) ;;
         match existingResource with
         | Some _ =>
             ret (respond 400 false "A resource with this URL already exists" NoData)
         | None =>
             verified <- verifyNewUrl (CreateReq.url body) ;;
             w <- get ;;
             let resource :=
               newResource (Store.freshId (resourceDocs w)) body
                 (verified || UpdateReq.orElse (CreateReq.verified body) false || false) in
             Resource_save resource ;;;
             addResource skill (Resource._id resource) ;;;
             ret (respond 201 true "Resource created successfully" (DataResource resource))
         end
     end)
    (serverError "Failed to create resource").

(** The block of the update route guarded by "the URL is being
    changed"; it answers the request body as the block leaves it. *)
Definition verifyChangedUrl (u : string) (body : UpdateReq.t) : M UpdateReq.t :=
  vb <-
    (if isKnownAuthenticPlatform P u then ret (true, body)
     else
       verificationResult <- verifyUrl P (Some u) defaultTimeout ;;
       if isValid verificationResult then ret (true, body)
       else
         console_warn ("Resource URL verification failed: " ++ u ++ " - " ++
                       showOpt (error verificationResult)) ;;;
         ret (false,
              match UpdateReq.verified body with
              | None => UpdateReq.set_verified (Some false) body
              | Some _ => body
              end)) ;;
  let '(verified, body) := vb in
  ret (match UpdateReq.verified body with
       | None => UpdateReq.set_verified (Some verified) body
       | Some _ => body
       end).

(** The block guarded by "the skill is being changed"; [Some] is an
    early response. *)
Definition moveToSkill (oldResource : Resource.t) (body : UpdateReq.t)
    : M (option Response) :=
  match UpdateReq.skill body with
  | Some s =>
      if negb (s =? Resource.skill oldResource) then
        newSkill <- Skill_findById s ;;
        match newSkill with
        | None => ret (Some (respond 404 false "New skill not found" NoData))
        | Some newSkill =>
            oldSkill <- Skill_findById (Resource.skill oldResource) ;;
            match oldSkill with
            | Some oldSkill => removeResource oldSkill (Resource._id oldResource) ;;; ret tt
            | None => ret tt
            end ;;;
            addResource newSkill (Resource._id oldResource) ;;;
            ret None
        end
      else ret None
  | None => ret None
  end.

(** [PUT /api/admin/resources/:id] *)
Definition updateResource (id : ObjectId) (body : UpdateReq.t) : M Response :=
  tryCatch
    (oldResource <- Resource_findById id ;;
     match oldResource with
     | None => ret (respond 404 false "Resource not found" NoData)
     | Some oldResource =>
         body <-
           match UpdateReq.url body with
           | Some u =>
               if Js.truthy u && negb (String.eqb u (Resource.url oldResource))
               then verifyChangedUrl u body
               else ret body
           | None => ret body
           end ;;
         early <- moveToSkill oldResource body ;;
         match early with
         | Some response => ret response
         | None =>
             resource <- Resource_findByIdAndUpdate id body ;;
             match resource with
             | None => throw "TypeError"
             | Some resource =>
                 skill <- Skill_findById (Resource.skill resource) ;;
                 match skill with
                 | Some skill => updateStatistics skill ;;; ret tt
                 | None => ret tt
                 end ;;;
                 ret (respond 200 true "Resource updated successfully"
                        (DataResource resource))
             end
         end
     end)
    (serverError "Failed to update resource").

(** The block "Verify URL is accessible" of the verify route; it
    answers the locals [verified] and [verificationError]. *)
Definition verifyStoredUrl (u : string) : M (bool * option string) :=
  if isKnownAuthenticPlatform P u then ret (true, None)
  else
    verificationResult <- verifyUrl P (Some u) defaultTimeout ;;
    if isValid verificationResult then ret (true, None)
    else ret (false,
              Some (orString (error verificationResult) "URL verification failed")).

(** [PATCH /api/admin/resources/:id/verify] *)
Definition verifyResource (id : ObjectId) : M Response :=
  tryCatch
    (resource <- Resource_findById id ;;
     match resource with
     | None => ret (respond 404 false "Resource not found" NoData)
     | Some resource =>
         ve <- verifyStoredUrl (Resource.url resource) ;;
         let '(verified, verificationError) := ve in
         let resource := Resource.set_verified verified resource in
         Resource_save resource ;;;
         if verified then
           ret (respond 200 true "Resource verified successfully" (DataResource resource))
         else
           ret (mkResponse 400 false
                  ("Resource URL verification failed: " ++ showOpt verificationError)
                  (DataResource resource) verificationError None [])
     end)
    (serverError "Failed to verify resource").

(** [PATCH /api/admin/resources/:id/toggle-active] *)
Definition toggleActive (id : ObjectId) : M Response :=
  tryCatch
    (resource <- Resource_findById id ;;
     match resource with
     | None => ret (respond 404 false "Resource not found" NoData)
     | Some resource =>
         let resource := Resource.set_isActive (negb (Resource.isActive resource)) resource in
         Resource_save resource ;;;
         skill <- Skill_findById (Resource.skill resource) ;;
         match skill with
         | Some skill => updateStatistics skill ;;; ret tt
         | None => ret tt
         end ;;;
         ret (respond 200 true
                ("Resource " ++
                 (if Resource.isActive resource then "activated" else "deactivated") ++
                 " successfully")
                (DataIsActive (Resource.isActive resource)))
     end)
    (serverError "Failed to toggle resource status").

(** [DELETE /api/admin/resources/:id] *)
Definition deleteResource (id : ObjectId) : M Response :=
  tryCatch
    (resource <- Resource_findById id ;;
     match resource with
     | None => ret (respond 404 false "Resource not found" NoData)
     | Some resource =>
         now <- newDate ;;
         let resource :=
           Resource.set_deletedAt (Some now) (Resource.set_isActive false resource) in
         Resource_save resource ;;;
         skill <- Skill_findById (Resource.skill resource) ;;
         match skill with
         | Some skill => removeResource skill (Resource._id resource) ;;; ret tt
         | None => ret tt
         end ;;;
         ret (respond 200 true "Resource deleted successfully" NoData)
     end)
    (serverError "Failed to delete resource").

(** [POST /api/admin/resources/:id/restore] *)
Definition restoreResource (id : ObjectId) : M Response :=
  tryCatch
    (resource <- Resource_findById id ;;
     match resource with
     | None => ret (respond 404 false "Resource not found" NoData)
     | Some resource =>
         let resource :=
           Resource.set_deletedAt None (Resource.set_isActive true resource) in
         Resource_save resource ;;;
         skill <- Skill_findById (Resource.skill resource) ;;
         match skill with
         | Some skill => addResource skill (Resource._id resource) ;;; ret tt
         | None => ret tt
         end ;;;
         ret (respond 200 true "Resource restored successfully" (DataResource resource))
     end)
    (serverError "Failed to restore resource").

(** The handler of [POST /api/admin/resources/bulk-verify] *)
Definition bulkVerify (resourceIds : list ObjectId) : M Response :=
  tryCatch
    (modifiedCount <-
       Resource_updateMany_in resourceIds (Resource.set_verified true) ;;
     ret (respond 200 true
            (Whatwg.showN (N.of_nat modifiedCount) ++ " resources verified successfully")
            (DataModifiedCount modifiedCount)))
    (serverError "Failed to verify resources").

(** The handler of [DELETE /api/admin/resources/bulk-delete] *)
Definition bulkDelete (resourceIds : list ObjectId) : M Response :=
  tryCatch
    (now <- newDate ;;
     modifiedCount <-
       Resource_updateMany_in resourceIds
         (fun d => Resource.set_deletedAt (Some now) (Resource.set_isActive false d)) ;;
     resources <- Resource_find_in resourceIds ;;
     let skillIds := unique (List.map Resource.skill resources) in
     forEach skillIds
       (fun skillId =>
          skill <- Skill_findById skillId ;;
          match skill with
          | Some skill => updateStatistics skill ;;; ret tt
          | None => ret tt
          end) ;;;
     ret (respond 200 true
            (Whatwg.showN (N.of_nat modifiedCount) ++ " resources deleted successfully")
            (DataModifiedCount modifiedCount)))
    (serverError "Failed to delete resources").

(** [POST /api/admin/skills/:id/update-statistics] *)
Definition postUpdateStatistics (id : ObjectId) : M Response :=
  tryCatch
    (skill <- Skill_findById id ;;
     match skill with
     | None => ret (respond 404 false "Skill not found" NoData)
     | Some skill =>
         skill <- updateStatistics skill ;;
         ret (respond 200 true "Statistics updated successfully"
                (DataStatistics (Skill.statistics skill)))
     end)
    (serverError "Failed to update statistics").

End AdminRoutes.

(* ================================================================== *)
(** * Concrete platforms and worlds used to evaluate the sources *)
(* ================================================================== *)

(** A Node process whose URL class is the modelled parser. *)
Definition nodePlatform (net : nat -> RequestOptions -> NetEvent) (env : string)
    : Platform :=
  mkPlatform Whatwg.parse net env.

(** A network on which every probe is answered with the given event. *)
Definition always (ev : NetEvent) : nat -> RequestOptions -> NetEvent :=
  fun _ _ => ev.

Definition emptyWorld : World := mkWorld [] [] [] [] 0 [].

Definition course (id : ObjectId) (skillId : ObjectId) (path : string)
    (rating : float) (learners : option float) : Resource.t :=
  Resource.mk id ("https://www.example.org/" ++ path) free skillId true
              rating learners true None.

(** A skill whose single resource is active and verified, with the
    statistics [updateStatistics] computes for it. *)
Definition oneCourseWorld : World :=
  mkWorld [course 1 7 "intro" 4.5%float (Some 300%float)]
          [Skill.mk 7 [1] (mkStatistics 1 1 0 4.5 300 103) true None]
          [] [] 5 [].

(** Five active, verified resources of skill 7: ratings 3, 4, 5, 4, 4 and
    enrollment counters 100, 200, 300, 400 and one absent. *)
Definition fiveCourses : list Resource.t :=
  [ course 1 7 "a" 3%float (Some 100%float);
    course 2 7 "b" 4%float (Some 200%float);
    course 3 7 "c" 5%float (Some 300%float);
    course 4 7 "d" 4%float (Some 400%float);
    course 5 7 "e" 4%float None ].

Definition freshSkill (id : ObjectId) (resources : list ObjectId) : Skill.t :=
  Skill.mk id resources Statistics_default true None.

Definition fiveCoursesWorld : World :=
  mkWorld fiveCourses [freshSkill 7 [1; 2; 3; 4; 5]] [] [] 5 [].

(** The status of the response a route answered, if it answered. *)
Definition status_of (o : Outcome Response) : option nat :=
  match o with Ok r => Some (status r) | Throw _ => None end.

(** A network on which no host name resolves. *)
Definition offline : Platform :=
  nodePlatform (always (OnError (Some "ENOTFOUND") "getaddrinfo ENOTFOUND")) "production".

(** A creation request for an unknown, unreachable URL. *)
Definition unreachableCourse (verified : option bool) : CreateReq.t :=
  CreateReq.mk "http://not-a-real-domain-xyz123.test" 7 free None None verified None.

(** A creation request for a URL of an allow-listed platform. *)
Definition youtubeCourse : CreateReq.t :=
  CreateReq.mk "https://www.youtube.com/watch" 7 free None None None None.

(** An update that only changes the URL, to an unknown, unreachable one. *)
Definition moveToUnreachable : UpdateReq.t :=
  UpdateReq.mk (Some "http://not-a-real-domain-xyz123.test") None None None None None None.

(** [isKnownAuthenticPlatform] as the specification words it: parse,
    lower-case the host name, strip a leading ["www."], look for an
    allow-list entry inside it; [false] when parsing fails. *)
Definition isKnownAuthenticPlatform_spec (P : Platform) (urlString : string) : bool :=
  match newURL P urlString with
  | None => false
  | Some url =>
      List.existsb
        (Js.includes (Js.replace_leading_www (Js.toLowerCase (hostname url))))
        authenticDomains
  end.

(** The statistics as the specification words them: the arithmetic mean
    of the ratings, the sum of the enrollment counters, and the score
    [10 * totalResources + 20 * averageRating + totalLearners / 100].
    Numbers are added in list order, starting from 0. *)
Module Spec.
Local Open Scope float_scope.

Fixpoint sumFrom (start : float) (xs : list float) : float :=
  match xs with
  | [] => start
  | x :: rest => sumFrom (start + x) rest
  end.

Definition sum (xs : list float) : float := sumFrom 0 xs.

Definition mean (xs : list float) : float :=
  sum xs / PrimFloat.of_uint63 (Uint63.of_Z (Z.of_nat (List.length xs))).

(** The enrollment counter of a resource; an absent counter counts as
    0, and so does one that is zero or not a number. *)
Definition enrollment (r : Resource.t) : float :=
  match Resource.enrollmentCount r with
  | None => 0
  | Some e => if PrimFloat.is_zero e || PrimFloat.is_nan e then 0 else e
  end.

Definition popularity (totalResources averageRating totalLearners : float) : float :=
  10 * totalResources + 20 * averageRating + totalLearners / 100.

End Spec.



(* ================================================================== *)
(** * backend/routes/admin.js: the router as mounted *)
(* ================================================================== *)

(** Express tries the routes of a router in the order of their
    registration and runs the handlers of the first one whose method and
    path match; a later route is only reached when a handler calls
    [next()], which the [validate] helper does not do after a failed
    validation. *)
Module Router.

Inductive Method : Type := GET | POST | PUT | PATCH | DELETE.

Definition Method_eqb (a b : Method) : bool :=
  match a, b with
  | GET, GET | POST, POST | PUT, PUT | PATCH, PATCH | DELETE, DELETE => true
  | _, _ => false
  end.

Definition isHexDigit (c : ascii) : bool :=
  Js.isDigit c || Js.between 97 102 c || Js.between 65 70 c.

(** [isMongoId] on a string: 24 hexadecimal digits. *)
Definition isMongoIdString (s : string) : bool :=
  (String.length s =? 24) && Js.forallb isHexDigit s.

(** A segment of a request path: [Hex id] is the 24 hexadecimal digits
    that render the [ObjectId] [id]; [Word s] is any other segment, one
    that [isMongoIdString] refuses. *)
Inductive Segment : Type :=
| Hex (id : ObjectId)
| Word (s : string).

(** A segment of a route path: a literal, or the parameter [:id]. *)
Inductive Pattern : Type :=
| Lit (s : string)
| Param.

Inductive Route : Type :=
| GetSkills | GetSkill | PostSkill | PutSkill | ToggleSkill | DeleteSkill
| RestoreSkill | UpdateSkillStatistics
| GetResources | GetResource | PostResource | PutResource | VerifyResource
| ToggleResource | DeleteResource | RestoreResource
| BulkVerifyResources | BulkDeleteResources
| DashboardStats | GetUsers | UserRole | UserBan.

(** The calls [router.METHOD(path, ...)] of the file, top to bottom. *)
Definition table : list (Method * list Pattern * Route) :=
  [ (GET,    [Lit "skills"],                               GetSkills);
    (GET,    [Lit "skills"; Param],                        GetSkill);
    (POST,   [Lit "skills"],                               PostSkill);
    (PUT,    [Lit "skills"; Param],                        PutSkill);
    (PATCH,  [Lit "skills"; Param; Lit "toggle-active"],   ToggleSkill);
    (DELETE, [Lit "skills"; Param],                        DeleteSkill);
    (POST,   [Lit "skills"; Param; Lit "restore"],         RestoreSkill);
    (POST,   [Lit "skills"; Param; Lit "update-statistics"], UpdateSkillStatistics);
    (GET,    [Lit "resources"],                            GetResources);
    (GET,    [Lit "resources"; Param],                     GetResource);
    (POST,   [Lit "resources"],                            PostResource);
    (PUT,    [Lit "resources"; Param],                     PutResource);
    (PATCH,  [Lit "resources"; Param; Lit "verify"],       VerifyResource);
    (PATCH,  [Lit "resources"; Param; Lit "toggle-active"], ToggleResource);
    (DELETE, [Lit "resources"; Param],                     DeleteResource);
    (POST,   [Lit "resources"; Param; Lit "restore"],      RestoreResource);
    (POST,   [Lit "resources"; Lit "bulk-verify"],         BulkVerifyResources);
    (DELETE, [Lit "resources"; Lit "bulk-delete"],         BulkDeleteResources);
    (GET,    [Lit "dashboard"; Lit "stats"],               DashboardStats);
    (GET,    [Lit "users"],                                GetUsers);
    (PATCH,  [Lit "users"; Param; Lit "role"],             UserRole);
    (PATCH,  [Lit "users"; Param; Lit "ban"],              UserBan) ].

(** A literal is compared without regard to letter case (the router is
    not case sensitive), and no literal of the table is made of 24
    hexadecimal digits; [:id] takes any one non-empty segment. *)
Definition segmentMatches (p : Pattern) (s : Segment) : bool :=
  match p, s with
  | Lit l, Word w => String.eqb (Js.toLowerCase w) (Js.toLowerCase l)
  | Lit _, Hex _ => false
  | Param, Word w => Js.truthy w
  | Param, Hex _ => true
  end.

Fixpoint pathMatches (pattern : list Pattern) (path : list Segment) : bool :=
  match pattern, path with
  | [], [] => true
  | p :: pattern, s :: path => segmentMatches p s && pathMatches pattern path
  | _, _ => false
  end.

(** [req.params.id] *)
Fixpoint paramOf (pattern : list Pattern) (path : list Segment) : option Segment :=
  match pattern, path with
  | Param :: _, s :: _ => Some s
  | Lit _ :: pattern, _ :: path => paramOf pattern path
  | _, _ => None
  end.

Fixpoint firstMatch (rows : list (Method * list Pattern * Route))
    (method : Method) (path : list Segment) : option (Route * option Segment) :=
  match rows with
  | [] => None
  | (m, pattern, route) :: rows =>
      if Method_eqb m method && pathMatches pattern path
      then Some (route, paramOf pattern path)
      else firstMatch rows method path
  end.

(** The route that answers a request, with its [:id]. *)
Definition dispatch (method : Method) (path : list Segment)
    : option (Route * option Segment) :=
  firstMatch table method path.

(** What [param('id').isMongoId()] accepts: the segments that render
    an [ObjectId]. *)
Definition mongoId (s : option Segment) : option ObjectId :=
  match s with
  | Some (Hex id) => Some id
  | _ => None
  end.

(** The literals of the route paths. *)
Definition literals : list string :=
  List.flat_map
    (fun row => List.flat_map (fun p => match p with Lit l => [l] | Param => [] end)
                              (snd (fst row)))
    table.

End Router.

(* ================================================================== *)
(** * The admin routes as a transition system *)
(* ================================================================== *)

Inductive Action : Type :=
| Create (body : CreateReq.t)
| Update (id : ObjectId) (body : UpdateReq.t)
| Verify (id : ObjectId)
| ToggleActive (id : ObjectId)
| Delete (id : ObjectId)
| Restore (id : ObjectId)
| BulkVerify (resourceIds : list ObjectId)
| BulkDelete (resourceIds : list ObjectId)
| UpdateStatistics (skillId : ObjectId).

(** What a request carries besides its method and path. *)
Inductive Body : Type :=
| NoBody
| CreateBody (body : CreateReq.t)
| UpdateBody (body : UpdateReq.t)
| ResourceIds (resourceIds : list ObjectId).

Record Request : Type := mkRequest {
  req_method : Router.Method;
  req_path   : list Router.Segment;    (* below [/api/admin] *)
  req_body   : Body
}.

(** The request a client sends for an action, as an authenticated
    administrator. *)
Definition request (a : Action) : Request :=
  let resources := Router.Word "resources" in
  match a with
  | Create body => mkRequest Router.POST [resources] (CreateBody body)
  | Update id body => mkRequest Router.PUT [resources; Router.Hex id] (UpdateBody body)
  | Verify id =>
      mkRequest Router.PATCH [resources; Router.Hex id; Router.Word "verify"] NoBody
  | ToggleActive id =>
      mkRequest Router.PATCH [resources; Router.Hex id; Router.Word "toggle-active"] NoBody
  | Delete id => mkRequest Router.DELETE [resources; Router.Hex id] NoBody
  | Restore id =>
      mkRequest Router.POST [resources; Router.Hex id; Router.Word "restore"] NoBody
  | BulkVerify ids =>
      mkRequest Router.POST [resources; Router.Word "bulk-verify"] (ResourceIds ids)
  | BulkDelete ids =>
      mkRequest Router.DELETE [resources; Router.Word "bulk-delete"] (ResourceIds ids)
  | UpdateStatistics id =>
      mkRequest Router.POST
        [Router.Word "skills"; Router.Hex id; Router.Word "update-statistics"] NoBody
  end.

(** The validators of [POST /resources/bulk-verify] on
    [req.body.resourceIds]: [isArray({ min: 1 })], then a custom
    validator whose callback names [mongoose], a binding the routes file
    never declares.  The first call of the callback throws a
    [ReferenceError], and a validator that throws has failed; on an empty
    array [every] calls nothing. *)
Definition bulkVerifyErrors (resourceIds : list ObjectId) : list string :=
  ((if 1 <=? List.length resourceIds then []
    else ["resourceIds must be a non-empty array"]) ++
   match resourceIds with
   | [] => []
   | _ :: _ => ["All resourceIds must be valid MongoDB ObjectIds"]
   end)%list.

(** The validator of [DELETE /resources/bulk-delete]. *)
Definition bulkDeleteErrors (resourceIds : list ObjectId) : list string :=
  if 1 <=? List.length resourceIds then []
  else ["resourceIds must be a non-empty array"].

Section Mounted.

Variable P : Platform.

(** The chain [param('id').isMongoId(), validate, handler]. *)
Definition withId (message : string) (param : option Router.Segment)
    (handler : ObjectId -> M Response) : M Response :=
  match Router.mongoId param with
  | Some id => handler id
  | None => validationFailed [message]
  end.

(** Requests the model does not follow: the routes it has no handler
    for, a body the validators of a route would refuse, and the 404 of
    server.js for a path no route matches.  No request of an [Action]
    gets here. *)
Definition outsideModel : M Response := throw "outside the model".

(** The validators and the handler of a route. *)
Definition serve (route : Router.Route) (param : option Router.Segment)
    (body : Body) : M Response :=
  match route, body with
  | Router.PostResource, CreateBody body => createResource P body
  | Router.PutResource, UpdateBody body =>
      withId "Invalid resource ID" param (fun id => updateResource P id body)
  | Router.VerifyResource, _ => withId "Invalid resource ID" param (verifyResource P)
  | Router.ToggleResource, _ => withId "Invalid resource ID" param (toggleActive P)
  | Router.DeleteResource, _ => withId "Invalid resource ID" param (deleteResource P)
  | Router.RestoreResource, _ => withId "Invalid resource ID" param (restoreResource P)
  | Router.BulkVerifyResources, ResourceIds resourceIds =>
      match bulkVerifyErrors resourceIds with
      | [] => bulkVerify P resourceIds
      | errors => validationFailed errors
      end
  | Router.BulkDeleteResources, ResourceIds resourceIds =>
      match bulkDeleteErrors resourceIds with
      | [] => bulkDelete P resourceIds
      | errors => validationFailed errors
      end
  | Router.UpdateSkillStatistics, _ =>
      withId "Invalid skill ID" param (postUpdateStatistics P)
  | _, _ => outsideModel
  end.

(** The answer of the mounted router to a request. *)
Definition answer (r : Request) : M Response :=
  match Router.dispatch (req_method r) (req_path r) with
  | Some (route, param) => serve route param (req_body r)
  | None => outsideModel
  end.

End Mounted.

Definition run (P : Platform) (a : Action) : M Response := answer P (request a).

(** The [verified] flag of the stored resource [id], if there is one. *)
Definition verifiedAt (id : ObjectId) (w : World) : option bool :=
  option_map Resource.verified (Store.findResource id (resourceDocs w)).

(** The verification decision for [u] fails in world [w]: the URL is not
    on the allow-list and the probe answers an invalid result. *)
Definition decisionFails (P : Platform) (u : string) (w : World) : Prop :=
  isKnownAuthenticPlatform P u = false /\
  exists r w1, verifyUrl P (Some u) defaultTimeout w = (Ok r, w1) /\ isValid r = false.

(** No resource that was verified is unverified afterwards. *)
Definition keepsVerified (w w' : World) : Prop :=
  forall id, verifiedAt id w = Some true -> verifiedAt id w' = Some true.

(* ================================================================== *)
(** * Vocabulary of the proofs *)
(* ================================================================== *)

(** [wp m Q w]: running [m] from [w] ends in an outcome and a world
    related by [Q]. *)
Definition wp {A} (m : M A) (Q : Outcome A -> World -> Prop) (w : World) : Prop :=
  Q (fst (m w)) (snd (m w)).

(** Worlds that differ in the skill collection only. *)
Definition sameButSkills (w w' : World) : Prop :=
  resourceDocs w' = resourceDocs w /\ httpLog w' = httpLog w /\
  consoleWarn w' = consoleWarn w /\ clock w' = clock w /\
  verifyCalls w' = verifyCalls w.

(** Worlds with the same two collections. *)
Definition sameStore (w w' : World) : Prop :=
  resourceDocs w' = resourceDocs w /\ skillDocs w' = skillDocs w.

Definition skillOnly {A} (m : M A) : Prop :=
  forall w, sameButSkills w (snd (m w)).

Definition storeFree {A} (m : M A) : Prop :=
  forall w, sameStore w (snd (m w)).

Section RouteOutcomes.

Variable P : Platform.

(** The answer of [POST /api/admin/resources] once the resource is
    saved: 201, or the 500 of the [catch] block when
    [skill.addResource] throws. *)
Definition createAnswer (resource : Resource.t) (added : Outcome Skill.t) : Response :=
  match added with
  | Ok _ => respond 201 true "Resource created successfully" (DataResource resource)
  | Throw e =>
      mkResponse 500 false "Failed to create resource" NoData None
        (if String.eqb (NODE_ENV P) "development" then Some e else None) []
  end.

(** Every way [POST /api/admin/resources] can go. *)
Definition createOutcome (body : CreateReq.t) (w : World)
    (o : Outcome Response) (w' : World) : Prop :=
  match Store.findSkill (CreateReq.skill body) (skillDocs w) with
  | None => o = Ok (respond 404 false "Skill not found" NoData) /\ w' = w
  | Some sk =>
      match Store.findByUrl (CreateReq.url body) (resourceDocs w) with
      | Some _ =>
          o = Ok (respond 400 false "A resource with this URL already exists" NoData)
          /\ w' = w
      | None =>
          exists v w1,
            verifyNewUrl P (CreateReq.url body) w = (Ok v, w1) /\
            let resource :=
              newResource (Store.freshId (resourceDocs w)) body
                (v || UpdateReq.orElse (CreateReq.verified body) false || false) in
            if Resource.validate resource then
              resourceDocs w' = (resourceDocs w ++ [resource])%list /\
              httpLog w' = httpLog w1 /\
              consoleWarn w' = consoleWarn w1 /\
              verifyCalls w' = verifyCalls w1 /\
              o = Ok (createAnswer resource
                        (fst (addResource sk (Resource._id resource)
                                (set_resourceDocs (resourceDocs w ++ [resource])%list
                                                  w1))))
            else
              w' = w1 /\ exists resp, o = Ok resp /\ status resp = 500
      end
  end.

(** The only flag [PATCH /resources/:id/verify] can drop is that of
    [id], and only when the decision for its URL fails. *)
Definition verifyDemotes (id : ObjectId) (w w' : World) : Prop :=
  forall id',
    verifiedAt id' w = Some true -> verifiedAt id' w' = Some false ->
    id' = id /\
    exists r, Store.findResource id (resourceDocs w) = Some r /\
              decisionFails P (Resource.url r) w.

(** Why an update may drop the flag of [id]: the body says
    [verified: false], or it is silent about [verified], changes the
    URL, and the decision for the new URL fails. *)
Definition updateCause (id : ObjectId) (body : UpdateReq.t) (w : World) : Prop :=
  UpdateReq.verified body = Some false \/
  (UpdateReq.verified body = None /\
   exists u r, UpdateReq.url body = Some u /\
               Store.findResource id (resourceDocs w) = Some r /\
               u <> Resource.url r /\
               decisionFails P u w).

Definition updateDemotes (id : ObjectId) (body : UpdateReq.t) (w w' : World) : Prop :=
  forall id',
    verifiedAt id' w = Some true -> verifiedAt id' w' = Some false ->
    id' = id /\ updateCause id body w.

End RouteOutcomes.

(** The ids of the stored resources, in store order. *)
Definition storedIds (w : World) : list ObjectId :=
  List.map Resource._id (resourceDocs w).

(** The stored ids of [w'] are those of [w], in the same order, followed
    by ids that are new and pairwise distinct. *)
Definition idsExtend (w w' : World) : Prop :=
  exists extra,
    storedIds w' = (storedIds w ++ extra)%list /\
    List.NoDup extra /\
    forall id, List.In id extra -> ~ List.In id (storedIds w).

(** The world after a sequence of requests to the routes. *)
Fixpoint runAll (P : Platform) (actions : list Action) (w : World) : World :=
  match actions with
  | [] => w
  | a :: rest => runAll P rest (snd (run P a w))
  end.

(** The membership list of the stored skill [skillId], if there is one. *)
Definition membershipOf (skillId : ObjectId) (w : World) : option (list ObjectId) :=
  option_map Skill.resources (Store.findSkill skillId (skillDocs w)).

(** Worlds with the same request log, call trace and console. *)
Definition sameTraces (w w' : World) : Prop :=
  httpLog w' = httpLog w /\ verifyCalls w' = verifyCalls w /\
  consoleWarn w' = consoleWarn w.

(** A catalog with a second, empty skill. *)
Definition twoSkillsWorld : World :=
  mkWorld [course 1 7 "intro" 4.5%float (Some 300%float)]
          [Skill.mk 7 [1] (mkStatistics 1 1 0 4.5 300 103) true None;
           freshSkill 8 []]
          [] [] 5 [].

(** An update that only moves the resource to skill 8. *)
Definition moveToSkill8 : UpdateReq.t :=
  UpdateReq.mk None (Some 8) None None None None None.

(** An update to an unknown, unreachable URL that insists on
    [verified: true]. *)
Definition insistVerified : UpdateReq.t :=
  UpdateReq.mk (Some "http://not-a-real-domain-xyz123.test") None None None None
               (Some true) None.

(* ================================================================== *)
(** * backend/routes/admin.js: deleting and restoring a skill *)
(* ================================================================== *)

(** [Resource.countDocuments({ skill, isActive: true, deletedAt: null })] *)
Definition Resource_countDocuments_active (skillId : ObjectId) : M nat :=
  fun w =>
    (Ok (List.length
           (List.filter (fun d => (Resource.skill d =? skillId) &&
                                  Resource.isActive d &&
                                  Store.isNull (Resource.deletedAt d))
                        (resourceDocs w))), w).

Module SkillRoute.

(** The [data] member of the answers of the skill routes. *)
Inductive Data : Type :=
| NoData
| ActiveResourcesCount (activeResourcesCount : nat)
| DataSkill (skill : Skill.t).

Record Response : Type := mkResponse {
  status      : nat;
  success     : bool;
  message     : string;
  data        : Data;
  errorDetail : option string
}.

Definition respond (status : nat) (success : bool) (message : string) (data : Data)
    : Response :=
  mkResponse status success message data None.

Definition set_isActive (b : bool) (s : Skill.t) : Skill.t :=
  Skill.mk (Skill._id s) (Skill.resources s) (Skill.statistics s) b (Skill.deletedAt s).

Definition set_deletedAt (d : option Date) (s : Skill.t) : Skill.t :=
  Skill.mk (Skill._id s) (Skill.resources s) (Skill.statistics s) (Skill.isActive s) d.

Section Routes.

Variable P : Platform.

Definition serverError (message : string) (e : string) : M Response :=
  ret (mkResponse 500 false message NoData
         (if String.eqb (NODE_ENV P) "development" then Some e else None)).

(** [DELETE /api/admin/skills/:id] *)
Definition deleteSkill (id : ObjectId) : M Response :=
  tryCatch
    (skill <- Skill_findById id ;;
     match skill with
     | None => ret (respond 404 false "Skill not found" NoData)
     | Some skill =>
         activeResourcesCount <- Resource_countDocuments_active (Skill._id skill) ;;
         if 0 <? activeResourcesCount then
           ret (respond 400 false
                  ("Cannot delete skill with " ++
                   Js.showZ (Z.of_nat activeResourcesCount) ++
                   " active resources. Please deactivate or delete the resources first.")
                  (ActiveResourcesCount activeResourcesCount))
         else
           now <- newDate ;;
           let skill := set_deletedAt (Some now) (set_isActive false skill) in
           Skill_save skill ;;;
           ret (respond 200 true "Skill deleted successfully" NoData)
     end)
    (serverError "Failed to delete skill").

(** [POST /api/admin/skills/:id/restore] *)
Definition restoreSkill (id : ObjectId) : M Response :=
  tryCatch
    (skill <- Skill_findById id ;;
     match skill with
     | None => ret (respond 404 false "Skill not found" NoData)
     | Some skill =>
         let skill := set_deletedAt None (set_isActive true skill) in
         Skill_save skill ;;;
         ret (respond 200 true "Skill restored successfully" (DataSkill skill))
     end)
    (serverError "Failed to restore skill").

End Routes.

Definition status_of (o : Outcome Response) : option nat :=
  match o with Ok r => Some (status r) | Throw _ => None end.

End SkillRoute.

(** Skill 9 has no resource at all. *)
Definition idleSkillWorld : World :=
  mkWorld [course 1 7 "intro" 4.5%float (Some 300%float)]
          [Skill.mk 7 [1] (mkStatistics 1 1 0 4.5 300 103) true None;
           freshSkill 9 []]
          [] [] 5 [].

(* ================================================================== *)
(** * backend/models/Skill.js: the slug of a skill *)
(* ================================================================== *)

(** The first [pre('save')] hook of [skillSchema] derives [slug] from
    [name].  Strings are byte strings here: a byte above 127 is outside
    [[a-z0-9]] and [toLowerCase] leaves it alone, as the code point it
    belongs to stays outside [[a-z0-9]] (U+0130 and U+212A, whose lower
    case is ASCII, apart). *)
Module Slug.

(** The class [[a-z0-9]]. *)
Definition wordChar (c : ascii) : bool := Js.isLower c || Js.isDigit c.

Definition isDash (c : ascii) : bool := Js.isChar c "-".

(** [s.replace(/[^a-z0-9]+/g, '-')]: every maximal run of characters
    outside the class becomes one dash; [inRun] tells that the run the
    next character would belong to has been replaced already. *)
Fixpoint replaceRuns (inRun : bool) (s : string) : string :=
  match s with
  | EmptyString => EmptyString
  | String c rest =>
      if wordChar c then String c (replaceRuns false rest)
      else if inRun then replaceRuns true rest
      else String "-" (replaceRuns true rest)
  end.

(** The alternative [-$]: a dash that is the last character. *)
Fixpoint dropFinalDash (s : string) : string :=
  match s with
  | EmptyString => EmptyString
  | String c EmptyString => if isDash c then EmptyString else s
  | String c rest => String c (dropFinalDash rest)
  end.

(** [s.replace(/(^-|-$)/g, '')]: the alternative [^-] can only match at
    index 0, and the scan goes on behind it. *)
Definition dropEdgeDashes (s : string) : string :=
  match s with
  | String c rest => if isDash c then dropFinalDash rest else dropFinalDash s
  | EmptyString => EmptyString
  end.

(** [name.toLowerCase().replace(/[^a-z0-9]+/g, '-').replace(/(^-|-$)/g, '')] *)
Definition ofName (name : string) : string :=
  dropEdgeDashes (replaceRuns false (Js.toLowerCase name)).

(** Words of [[a-z0-9]] separated by single dashes: [afterDash] tells
    that a dash may not come next. *)
Fixpoint dashSeparated (afterDash : bool) (s : string) : bool :=
  match s with
  | EmptyString => true
  | String c rest =>
      if isDash c then negb afterDash && dashSeparated true rest
      else wordChar c && dashSeparated false rest
  end.

(** [s.endsWith('-')] *)
Fixpoint endsWithDash (s : string) : bool :=
  match s with
  | EmptyString => false
  | String c EmptyString => isDash c
  | String _ rest => endsWithDash rest
  end.

End Slug.

(* ================================================================== *)
(** * backend/utils/urlVerifier.js: [verifyUrls] *)
(* ================================================================== *)

Module Math.
Local Open Scope float_scope.

(** [Math.min(a, b)]: [NaN] when an argument is, and [-0] below [+0]. *)
Definition min (a b : float) : float :=
  if PrimFloat.is_nan a || PrimFloat.is_nan b then nan
  else if a <? b then a
  else if b <? a then b
  else if PrimFloat.get_sign a then a else b.

End Math.

(** The workers of [verifyUrls] share [queue] and [results].  A worker
    is an activation of [processQueue]; it only gives up control at an
    [await]. *)
Module Pool.

Inductive Worker : Type :=
| Awaiting (url : option string) (result : VerifyResult)
    (* at [await verifyUrl(url)]; the request is out, [result] is what
       the promise settles to *)
| Sleeping      (* at the 100 ms delay *)
| Returned.     (* the loop test failed *)

Record t : Type := mk {
  queue   : list (option string);
  results : list (option string * VerifyResult);
  workers : list Worker
}.

(** The worker at index [j] moves on. *)
Fixpoint setWorker (j : nat) (worker : Worker) (workers : list Worker) : list Worker :=
  match workers, j with
  | [], _ => []
  | _ :: rest, 0 => worker :: rest
  | first :: rest, S j => first :: setWorker j worker rest
  end.

Definition isReturned (worker : Worker) : bool :=
  match worker with Returned => true | _ => false end.

(** The indices, from [i] on, of the workers that have not returned. *)
Fixpoint suspendedFrom (i : nat) (workers : list Worker) : list nat :=
  match workers with
  | [] => []
  | worker :: rest =>
      if isReturned worker then suspendedFrom (S i) rest
      else i :: suspendedFrom (S i) rest
  end.

Definition suspended (workers : list Worker) : list nat := suspendedFrom 0 workers.

(** The results the awaiting workers are about to push. *)
Fixpoint pending (workers : list Worker) : list (option string * VerifyResult) :=
  match workers with
  | [] => []
  | Awaiting url result :: rest => (url, result) :: pending rest
  | _ :: rest => pending rest
  end.

(** The number of times the workers can still be resumed, the queue
    left aside. *)
Fixpoint resumptions (workers : list Worker) : nat :=
  match workers with
  | [] => 0
  | Awaiting _ _ :: rest => 2 + resumptions rest
  | Sleeping :: rest => 1 + resumptions rest
  | Returned :: rest => resumptions rest
  end.

(** The steps the event loop has left: a queued URL costs its worker two
    resumptions. *)
Definition stepsLeft (pool : t) : nat :=
  2 * List.length (queue pool) + resumptions (workers pool).

Definition allAwaiting (workers : list Worker) : Prop :=
  forall worker, List.In worker workers ->
                 exists url result, worker = Awaiting url result.

End Pool.

Section VerifyUrls.

Variable P : Platform.

(** [processQueue] from its loop test to the next [await]: the call
    [verifyUrl(url)] issues the request before the worker is suspended. *)
Definition processQueue (pool : Pool.t) : M (Pool.Worker * Pool.t) :=
  match Pool.queue pool with
  | [] => ret (Pool.Returned, pool)
  | url :: rest =>
      result <- verifyUrl P url defaultTimeout ;;
      ret (Pool.Awaiting url result,
           Pool.mk rest (Pool.results pool) (Pool.workers pool))
  end.

(** The [for] loop [workers.push(processQueue())]; [None] when [fuel]
    does not cover its iterations. *)
Fixpoint startWorkers (fuel i : nat) (limit : float) (pool : Pool.t) {struct fuel}
    : M (option Pool.t) :=
  if PrimFloat.ltb (Num.ofNat i) limit then
    match fuel with
    | 0 => ret None
    | S fuel =>
        started <- processQueue pool ;;
        startWorkers fuel (S i) limit
          (Pool.mk (Pool.queue (snd started)) (Pool.results (snd started))
                   (Pool.workers (snd started) ++ [fst started])%list)
    end
  else ret (Some pool).

(** The worker at index [j] is resumed and runs to its next [await], or
    to its end. *)
Definition resume (j : nat) (pool : Pool.t) : M Pool.t :=
  match List.nth_error (Pool.workers pool) j with
  | Some (Pool.Awaiting url result) =>
      ret (Pool.mk (Pool.queue pool)
                   (Pool.results pool ++ [(url, result)])%list
                   (Pool.setWorker j Pool.Sleeping (Pool.workers pool)))
  | Some Pool.Sleeping =>
      resumed <- processQueue pool ;;
      ret (Pool.mk (Pool.queue (snd resumed)) (Pool.results (snd resumed))
                   (Pool.setWorker j (fst resumed) (Pool.workers (snd resumed))))
  | _ => ret pool
  end.

(** [await Promise.all(workers)]: the event loop resumes suspended
    workers until all have returned.  Which one comes next depends on the
    network and the timers; each entry of [schedule] picks one among the
    suspended workers.  [None] when the schedule ends before the workers
    do. *)
Fixpoint eventLoop (schedule : list nat) (pool : Pool.t) : M (option Pool.t) :=
  match Pool.suspended (Pool.workers pool) with
  | [] => ret (Some pool)
  | j :: js =>
      match schedule with
      | [] => ret None
      | choice :: schedule =>
          pool <- resume (List.nth (choice mod List.length (j :: js)) (j :: js) j) pool ;;
          eventLoop schedule pool
      end
  end.

(** [verifyUrls(urls, concurrency)]; an element of [urls] is [None] when
    it is not a string. *)
Definition verifyUrls (urls : list (option string)) (concurrency : float)
    (schedule : list nat) : M (option (list (option string * VerifyResult))) :=
  started <- startWorkers (List.length urls) 0
               (Math.min concurrency (Num.ofNat (List.length urls)))
               (Pool.mk urls [] []) ;;
  match started with
  | None => ret None
  | Some pool =>
      finished <- eventLoop schedule pool ;;
      ret (option_map Pool.results finished)
  end.

(** The reference: the URLs verified one after the other, in order. *)
Fixpoint verifyEach (urls : list (option string))
    : M (list (option string * VerifyResult)) :=
  match urls with
  | [] => ret []
  | url :: rest =>
      result <- verifyUrl P url defaultTimeout ;;
      more <- verifyEach rest ;;
      ret ((url, result) :: more)
  end.

(** What holds of the pool between two steps of [verifyUrls urls]
    started in [w0]: the URLs taken off the queue are a prefix of [urls],
    they have been verified in order, and their results are pushed or
    awaited. *)
Definition poolInvariant (urls : list (option string)) (w0 : World)
    (pool : Pool.t) (w : World) : Prop :=
  exists issued outs,
    urls = (issued ++ Pool.queue pool)%list /\
    verifyEach issued w0 = (Ok outs, w) /\
    Permutation outs (Pool.results pool ++ Pool.pending (Pool.workers pool))%list.

(** Once the workers are started, a URL is only left in the queue while
    a worker is there to take it. *)
Definition poolReady (urls : list (option string)) (w0 : World)
    (pool : Pool.t) (w : World) : Prop :=
  poolInvariant urls w0 pool w /\
  (Pool.queue pool <> [] -> Pool.suspended (Pool.workers pool) <> []).

End VerifyUrls.

(** A network that answers every request with 200. *)
Definition online : Platform := nodePlatform (always (OnResponse 200)) "production".

Definition threeUrls : list (option string) :=
  [Some "https://a.example.org/"; Some "not a url"; Some "https://b.example.org/x"].

(* ================================================================== *)
(** * Properties of the URL verifier *)
(* ================================================================== *)

Section VerifierFacts.

Variable P : Platform.

Lemma truthy_nonempty (s : string) : Js.truthy s = true <-> s <> "".
Proof. destruct s; simpl; split; congruence. Qed.

Lemma defaultTimeout_accepted : (0 <= defaultTimeout)%Z.
Proof. discriminate. Qed.

(** With a timeout that [client.request] accepts, [verifyUrl] does not
    throw, issues at most one request, and touches nothing but the
    request log and the call trace. *)
Lemma verifyUrl_total (input : option string) (timeout : Z) (w : World) :
  (0 <= timeout)%Z ->
  exists r w', verifyUrl P input timeout w = (Ok r, w') /\
               (w' = add_verifyCall input w \/
                exists q, w' = add_httpLog q (add_verifyCall input w)).
Proof.
  intros Ht. apply Z.ltb_ge in Ht.
  unfold verifyUrl, bind, modify.
  destruct input as [s|]; [|eexists _, _; split; [reflexivity | now left]].
  destruct (Js.truthy s); simpl; [|eexists _, _; split; [reflexivity | now left]].
  destruct (newURL P (urlToCheck s)) as [u|];
    [|eexists _, _; split; [reflexivity | now left]].
  unfold client_request, ret; simpl. rewrite Ht.
  eexists _, _; split; [reflexivity | right; now eexists].
Qed.


Lemma verifyUrl_parsed (s : string) (timeout : Z) (w : World) (u : URL) :
  (0 <= timeout)%Z ->
  Js.truthy s = true ->
  newURL P (urlToCheck s) = Some u ->
  verifyUrl P (Some s) timeout w =
    (Ok (onEvent (network P (List.length (httpLog w)) (requestOptions P u timeout))),
     add_httpLog (requestOptions P u timeout) (add_verifyCall (Some s) w)).
Proof.
  intros Ht Hs Hp. apply Z.ltb_ge in Ht.
  unfold verifyUrl, bind, modify, client_request. rewrite Hs, Hp.
  cbn [negb fst snd opt_timeout requestOptions]. now rewrite Ht.
Qed.

(** A negative timeout with an input that parses: [client.request]
    throws, nothing is sent, and the promise is rejected. *)
Lemma verifyUrl_rejects (s : string) (timeout : Z) (w : World) (u : URL) :
  (timeout < 0)%Z ->
  Js.truthy s = true ->
  newURL P (urlToCheck s) = Some u ->
  verifyUrl P (Some s) timeout w
  = (Throw "ERR_OUT_OF_RANGE", add_verifyCall (Some s) w).
Proof.
  intros Ht Hs Hp. apply Z.ltb_lt in Ht.
  unfold verifyUrl, bind, modify, client_request. rewrite Hs, Hp.
  cbn [negb fst snd opt_timeout requestOptions]. now rewrite Ht.
Qed.

(** Whatever the timeout, the world only grows by the call trace and at
    most one request. *)
Lemma verifyUrl_world (input : option string) (timeout : Z) (w : World) :
  snd (verifyUrl P input timeout w) = add_verifyCall input w \/
  exists q, snd (verifyUrl P input timeout w) = add_httpLog q (add_verifyCall input w).
Proof.
  unfold verifyUrl, bind, modify.
  destruct input as [s|]; [|now left].
  destruct (Js.truthy s); simpl; [|now left].
  destruct (newURL P (urlToCheck s)) as [u|]; [|now left].
  unfold client_request, ret; simpl.
  destruct (timeout <? 0)%Z; [now left | right; now eexists].
Qed.

End VerifierFacts.




(** C8.  When the probe of [verifyUrl] is answered with a response of
    status [status], the result carries that status, is valid exactly
    when [200 <= status < 400], has no error when valid, and for a 4xx or
    5xx status is invalid with error ["HTTP <status>"].  A probe is only
    sent, and so only answered, with a timeout [client.request] accepts;
    with a negative one the call throws instead. *)
Theorem verifyUrl_classifies_status
    (P : Platform) (s : string) (timeout : Z) (w : World) (u : URL) (status : Z) :
  s <> "" ->
  newURL P (urlToCheck s) = Some u ->
  network P (List.length (httpLog w)) (requestOptions P u timeout) = OnResponse status ->
  ((0 <= timeout)%Z ->
   exists r w',
     verifyUrl P (Some s) timeout w = (Ok r, w') /\
     statusCode r = Some status /\
     (isValid r = true <-> (200 <= status < 400)%Z) /\
     (isValid r = true -> error r = None) /\
     ((400 <= status < 600)%Z ->
        isValid r = false /\ error r = Some ("HTTP " ++ Js.showZ status))) /\
  ((timeout < 0)%Z ->
   verifyUrl P (Some s) timeout w
   = (Throw "ERR_OUT_OF_RANGE", add_verifyCall (Some s) w)).
Proof.
  intros Hs Hp Hn. apply truthy_nonempty in Hs.
  split; [|intros Ht; now apply verifyUrl_rejects with u].
  intros Ht. rewrite (verifyUrl_parsed P s timeout w u Ht Hs Hp), Hn.
  eexists _, _; split; [reflexivity|]. simpl.
  split; [reflexivity|].
  destruct (200 <=? status)%Z eqn:Hlo, (status <? 400)%Z eqn:Hhi; simpl;
    repeat split; intros; try lia; try discriminate; try reflexivity.
Qed.

Lemma verifyUrl_classifies_status_witness :
  exists r w',
    verifyUrl (nodePlatform (always (OnResponse 404)) "production")
              (Some "http://not-a-real-domain-xyz123.test") defaultTimeout emptyWorld
    = (Ok r, w') /\
    statusCode r = Some 404%Z /\
    (isValid r = true <-> (200 <= 404 < 400)%Z) /\
    (isValid r = true -> error r = None) /\
    ((400 <= 404 < 600)%Z ->
       isValid r = false /\ error r = Some ("HTTP " ++ Js.showZ 404)).
Proof.
  apply (proj1 (verifyUrl_classifies_status
                  (nodePlatform (always (OnResponse 404)) "production")
                  "http://not-a-real-domain-xyz123.test" defaultTimeout emptyWorld
                  (mkURL "http:" "not-a-real-domain-xyz123.test" "" "/" "") 404%Z
                  ltac:(discriminate) ltac:(vm_compute; reflexivity) eq_refl)).
  discriminate.
Defined.

(** The call sits outside the [try] block: a negative timeout rejects
    the promise, and no request is recorded. *)
Example verifyUrl_negative_timeout :
  verifyUrl (nodePlatform (always (OnResponse 200)) "production")
            (Some "example.org/course") (-1) emptyWorld
  = (Throw "ERR_OUT_OF_RANGE", add_verifyCall (Some "example.org/course") emptyWorld).
Proof. vm_compute. reflexivity. Qed.

Example verifyUrl_status_200 :
  fst (verifyUrl (nodePlatform (always (OnResponse 200)) "production")
                 (Some "example.org/course") defaultTimeout emptyWorld)
  = Ok {| isValid := true; statusCode := Some 200%Z; error := None |}.
Proof. vm_compute. reflexivity. Qed.

Example verifyUrl_status_404 :
  fst (verifyUrl (nodePlatform (always (OnResponse 404)) "production")
                 (Some "example.org/course") defaultTimeout emptyWorld)
  = Ok {| isValid := false; statusCode := Some 404%Z; error := Some "HTTP 404" |}.
Proof. vm_compute. reflexivity. Qed.

Example verifyUrl_unroutable_host :
  fst (verifyUrl (nodePlatform (always (OnError (Some "ENOTFOUND") "getaddrinfo ENOTFOUND"))
                               "production")
                 (Some "http://not-a-real-domain-xyz123.test") defaultTimeout emptyWorld)
  = Ok {| isValid := false; statusCode := None; error := Some "Domain not found" |}.
Proof. vm_compute. reflexivity. Qed.

(** C9.  [isKnownAuthenticPlatform] answers [true] on the YouTube URL and
    [false] on the unknown domain and on the text that is no URL; it is
    [false] whenever parsing fails; and, for a parser that rejects the
    empty string, it is the function the specification describes. *)
Theorem isKnownAuthenticPlatform_behaviour :
  let node := nodePlatform (always OnTimeout) "production" in
  isKnownAuthenticPlatform node "https://www.youtube.com/watch?v=x" = true /\
  isKnownAuthenticPlatform node "http://not-a-real-domain-xyz123.test" = false /\
  isKnownAuthenticPlatform node "not a url" = false /\
  (forall P s, newURL P s = None -> isKnownAuthenticPlatform P s = false) /\
  (forall P, newURL P "" = None ->
             forall s, isKnownAuthenticPlatform P s = isKnownAuthenticPlatform_spec P s).
Proof.
  repeat split; try (vm_compute; reflexivity).
  - intros P s Hp. unfold isKnownAuthenticPlatform. rewrite Hp.
    now destruct (Js.truthy s).
  - intros P Hp s. unfold isKnownAuthenticPlatform, isKnownAuthenticPlatform_spec.
    destruct s as [|c s]; simpl; [now rewrite Hp | reflexivity].
Qed.

Lemma isKnownAuthenticPlatform_behaviour_witness :
  isKnownAuthenticPlatform (nodePlatform (always OnTimeout) "production")
                           "https://github.com/rocq-prover"
  = isKnownAuthenticPlatform_spec (nodePlatform (always OnTimeout) "production")
                                  "https://github.com/rocq-prover".
Proof.
  apply (proj2 (proj2 (proj2 (proj2 isKnownAuthenticPlatform_behaviour)))
           (nodePlatform (always OnTimeout) "production")).
  vm_compute. reflexivity.
Defined.

(* ================================================================== *)
(** * Properties of the statistics engine *)
(* ================================================================== *)

Section FloatFacts.
Local Open Scope float_scope.

Lemma SFmul_comm (prec emax : Z) (x y : spec_float) :
  SFmul prec emax x y = SFmul prec emax y x.
Proof.
  destruct x as [sx|sx| |sx mx ex], y as [sy|sy| |sy my ey]; simpl;
    try reflexivity; try (now rewrite xorb_comm).
  now rewrite xorb_comm, Pos.mul_comm, Z.add_comm.
Qed.

(** Multiplication of binary64 numbers commutes. *)
Lemma float_mul_comm (x y : float) : x * y = y * x.
Proof. apply Prim2SF_inj. rewrite !mul_spec. apply SFmul_comm. Qed.

End FloatFacts.

Section StoreFacts.

Lemma findSkill_id (id : ObjectId) (docs : list Skill.t) (s : Skill.t) :
  Store.findSkill id docs = Some s -> Skill._id s = id.
Proof.
  unfold Store.findSkill. intros H. apply List.find_some in H.
  now apply Nat.eqb_eq.
Qed.

Lemma findSkill_replace (doc : Skill.t) (docs : list Skill.t) :
  Store.findSkill (Skill._id doc) docs <> None ->
  Store.findSkill (Skill._id doc) (Store.replaceSkill doc docs) = Some doc.
Proof.
  unfold Store.findSkill, Store.replaceSkill.
  induction docs as [|d docs IH]; simpl; [congruence|].
  destruct (Skill._id d =? Skill._id doc) eqn:E; simpl.
  - now rewrite Nat.eqb_refl.
  - rewrite E. exact IH.
Qed.

Lemma replaceSkill_idem (doc : Skill.t) (docs : list Skill.t) :
  Store.replaceSkill doc (Store.replaceSkill doc docs) = Store.replaceSkill doc docs.
Proof.
  unfold Store.replaceSkill. rewrite List.map_map. apply List.map_ext.
  intros d. destruct (Skill._id d =? Skill._id doc) eqn:E.
  - now rewrite Nat.eqb_refl.
  - now rewrite E.
Qed.

Lemma set_statistics_same (s : Skill.t) :
  Skill.set_statistics (Skill.statistics s) s = s.
Proof. now destruct s. Qed.

End StoreFacts.

Section StatisticsFacts.
Local Open Scope float_scope.

(** On an empty result only the three counters are written. *)
Lemma assignStatistics_nil (st : Statistics) :
  assignStatistics [] st =
    {| totalResources := 0; freeResources := 0; premiumResources := 0;
       averageRating := averageRating st;
       totalLearners := totalLearners st;
       popularityScore := popularityScore st |}.
Proof. reflexivity. Qed.

Lemma assignStatistics_cons (r : Resource.t) (l : list Resource.t) (st : Statistics) :
  let resources := r :: l in
  let n := Num.ofNat (List.length resources) in
  let avg := totalRating resources / n in
  assignStatistics resources st =
    {| totalResources := n;
       freeResources :=
         countWhere (fun r => LearningType_eqb (Resource.learningType r) free) resources;
       premiumResources :=
         countWhere (fun r => LearningType_eqb (Resource.learningType r) premium) resources;
       averageRating := avg;
       totalLearners := totalEnrollments resources;
       popularityScore := n * 10 + avg * 20 + totalEnrollments resources / 100 |}.
Proof. reflexivity. Qed.

Lemma assignStatistics_nonempty (resources : list Resource.t) (st : Statistics) :
  resources <> [] ->
  let n := Num.ofNat (List.length resources) in
  let st' := assignStatistics resources st in
  totalResources st' = n /\
  averageRating st' = totalRating resources / n /\
  totalLearners st' = totalEnrollments resources /\
  popularityScore st'
    = n * 10 + (totalRating resources / n) * 20 + totalEnrollments resources / 100.
Proof.
  intros Hne. destruct resources as [|r l]; [congruence|].
  repeat split; reflexivity.
Qed.

Lemma assignStatistics_idem (resources : list Resource.t) (st : Statistics) :
  assignStatistics resources (assignStatistics resources st)
  = assignStatistics resources st.
Proof. destruct resources; reflexivity. Qed.

Lemma updateStatistics_saves (this : Skill.t) (w : World) :
  let saved :=
    Skill.set_statistics
      (assignStatistics (Store.countable (Skill._id this) (resourceDocs w))
                        (Skill.statistics this)) this in
  Skill.validate saved = true ->
  updateStatistics this w =
    (Ok saved, set_skillDocs (Store.replaceSkill saved (skillDocs w)) w).
Proof.
  intros saved Hv. unfold updateStatistics, bind, Resource_find_countable, Skill_save.
  fold saved. now rewrite Hv.
Qed.

Lemma updateStatistics_rejects (this : Skill.t) (w : World) :
  Skill.validate
    (Skill.set_statistics
       (assignStatistics (Store.countable (Skill._id this) (resourceDocs w))
                         (Skill.statistics this)) this) = false ->
  updateStatistics this w = (Throw "ValidationError", w).
Proof.
  intros Hv. unfold updateStatistics, bind, Resource_find_countable, Skill_save.
  now rewrite Hv.
Qed.

(** Running the method again on the document it answered changes
    neither the document nor the store. *)
Lemma updateStatistics_again (this saved : Skill.t) (w w' : World) :
  updateStatistics this w = (Ok saved, w') ->
  updateStatistics saved w' = (Ok saved, w').
Proof.
  intros H.
  destruct (Skill.validate
              (Skill.set_statistics
                 (assignStatistics (Store.countable (Skill._id this) (resourceDocs w))
                                   (Skill.statistics this)) this)) eqn:Hv.
  - rewrite (updateStatistics_saves this w Hv) in H.
    injection H as Hs Hw. subst saved w'.
    set (rs := Store.countable (Skill._id this) (resourceDocs w)) in *.
    set (saved := Skill.set_statistics (assignStatistics rs (Skill.statistics this)) this) in *.
    assert (Hfix : Skill.set_statistics
                     (assignStatistics
                        (Store.countable (Skill._id saved)
                           (resourceDocs (set_skillDocs (Store.replaceSkill saved (skillDocs w)) w)))
                        (Skill.statistics saved)) saved = saved).
    { simpl. fold rs. rewrite assignStatistics_idem. reflexivity. }
    pose proof (updateStatistics_saves saved
                  (set_skillDocs (Store.replaceSkill saved (skillDocs w)) w)) as Hrun.
    cbv zeta in Hrun. rewrite Hfix in Hrun. rewrite (Hrun Hv).
    unfold set_skillDocs; simpl. now rewrite replaceSkill_idem.
  - rewrite (updateStatistics_rejects this w Hv) in H. discriminate H.
Qed.

End StatisticsFacts.

Section StatisticsClaims.
Local Open Scope float_scope.

Lemma updateStatistics_empty (this : Skill.t) (w : World) :
  Store.countable (Skill._id this) (resourceDocs w) = [] ->
  Skill.validateStatistics
    (mkStatistics 0 0 0 (averageRating (Skill.statistics this))
                  (totalLearners (Skill.statistics this))
                  (popularityScore (Skill.statistics this))) = true ->
  exists saved w',
    updateStatistics this w = (Ok saved, w') /\
    Skill.statistics saved =
      mkStatistics 0 0 0 (averageRating (Skill.statistics this))
                   (totalLearners (Skill.statistics this))
                   (popularityScore (Skill.statistics this)).
Proof.
  intros He Hv.
  pose proof (updateStatistics_saves this w) as Hrun. cbv zeta in Hrun.
  rewrite He, assignStatistics_nil in Hrun.
  eexists _, _. split; [apply Hrun; exact Hv | reflexivity].
Qed.

End StatisticsClaims.

(** C1 (the code departs from it).  Deleting the only resource of a skill
    leaves no countable resource; the statistics then persisted, by the
    deletion itself and by a further refresh, have [totalResources = 0]
    but still carry the average rating 4.5, the 300 learners and the
    score 103 of the deleted resource. *)
Theorem updateStatistics_empty_set_keeps_stale_average :
  let node := nodePlatform (always OnTimeout) "production" in
  let afterDelete := snd (deleteResource node 1 oneCourseWorld) in
  let afterRefresh := snd (postUpdateStatistics node 7 afterDelete) in
  Store.countable 7 (resourceDocs afterDelete) = [] /\
  option_map Skill.statistics (Store.findSkill 7 (skillDocs afterDelete))
    = Some (mkStatistics 0 0 0 4.5 300 103) /\
  option_map Skill.statistics (Store.findSkill 7 (skillDocs afterRefresh))
    = Some (mkStatistics 0 0 0 4.5 300 103).
Proof. vm_compute. repeat split. Qed.

Section SpecStatistics.
Local Open Scope float_scope.

Lemma fold_left_sumFrom {A} (f : A -> float) (l : list A) (start : float) :
  List.fold_left (fun sum r => sum + f r) l start = Spec.sumFrom start (List.map f l).
Proof. induction l as [|r l IH] in start |- *; [reflexivity | apply IH]. Qed.

(** The two [reduce] calls compute the sums of the specification. *)
Lemma totalRating_sum (resources : list Resource.t) :
  totalRating resources = Spec.sum (List.map Resource.rating resources).
Proof. apply fold_left_sumFrom. Qed.

Lemma totalEnrollments_sum (resources : list Resource.t) :
  totalEnrollments resources = Spec.sum (List.map Spec.enrollment resources).
Proof.
  unfold totalEnrollments, Spec.sum.
  rewrite <- (fold_left_sumFrom Spec.enrollment). reflexivity.
Qed.

End SpecStatistics.

(** C5.  When the countable set is not empty and the computed statistics
    pass the schema's range validators, [updateStatistics] persists a
    document in which [totalResources] is the size of the set,
    [averageRating] is the arithmetic mean of the ratings of its
    resources, [totalLearners] is the sum of their enrollment counters
    (0 for an absent one), and [popularityScore] is
    [10 * totalResources + 20 * averageRating + totalLearners / 100];
    with 5 resources, average 4 and 1000 learners the score is 140.  The
    mean, the sum and the score are those of [Spec], written from the
    specification. *)
Theorem updateStatistics_popularityScore (this : Skill.t) (w : World) :
  let resources := Store.countable (Skill._id this) (resourceDocs w) in
  resources <> [] ->
  Skill.validateStatistics (assignStatistics resources (Skill.statistics this)) = true ->
  Store.findSkill (Skill._id this) (skillDocs w) <> None ->
  exists saved w',
    updateStatistics this w = (Ok saved, w') /\
    Store.findSkill (Skill._id this) (skillDocs w') = Some saved /\
    let st := Skill.statistics saved in
    (totalResources st
     = PrimFloat.of_uint63 (Uint63.of_Z (Z.of_nat (List.length resources))) /\
     averageRating st = Spec.mean (List.map Resource.rating resources) /\
     totalLearners st = Spec.sum (List.map Spec.enrollment resources) /\
     popularityScore st
     = Spec.popularity (totalResources st) (averageRating st) (totalLearners st) /\
     (totalResources st = 5 -> averageRating st = 4 -> totalLearners st = 1000 ->
      popularityScore st = 140))%float.
Proof.
  intros resources Hne Hv Hin.
  pose proof (updateStatistics_saves this w) as Hrun. cbv zeta in Hrun.
  fold resources in Hrun.
  assert (Hvalid : Skill.validate
            (Skill.set_statistics
               (assignStatistics resources (Skill.statistics this)) this) = true)
    by exact Hv.
  specialize (Hrun Hvalid).
  eexists _, _. split; [exact Hrun|].
  split.
  { simpl. apply (findSkill_replace
                    (Skill.set_statistics
                       (assignStatistics resources (Skill.statistics this)) this)).
    exact Hin. }
  destruct (assignStatistics_nonempty resources (Skill.statistics this) Hne)
    as (Htotal & Havg & Hlearners & Hscore).
  cbv zeta in Htotal, Havg, Hlearners, Hscore.
  rewrite totalRating_sum in Havg, Hscore.
  rewrite totalEnrollments_sum in Hlearners, Hscore.
  cbn [Skill.statistics Skill.set_statistics].
  assert (Hformula :
            popularityScore (assignStatistics resources (Skill.statistics this))
            = Spec.popularity
                (totalResources (assignStatistics resources (Skill.statistics this)))
                (averageRating (assignStatistics resources (Skill.statistics this)))
                (totalLearners (assignStatistics resources (Skill.statistics this)))).
  { unfold Spec.popularity. rewrite Hscore, Htotal, Havg, Hlearners.
    now rewrite (float_mul_comm 10), (float_mul_comm 20). }
  split; [exact Htotal|].
  split; [unfold Spec.mean; rewrite List.length_map; exact Havg|].
  split; [exact Hlearners|].
  split; [exact Hformula|].
  intros Hn Ha Hl. rewrite Hformula, Hn, Ha, Hl. reflexivity.
Qed.

Lemma updateStatistics_popularityScore_witness :
  exists saved w',
    updateStatistics (freshSkill 7 [1; 2; 3; 4; 5]) fiveCoursesWorld = (Ok saved, w') /\
    Store.findSkill 7 (skillDocs w') = Some saved /\
    let st := Skill.statistics saved in
    (totalResources st
     = PrimFloat.of_uint63 (Uint63.of_Z (Z.of_nat (List.length fiveCourses))) /\
     averageRating st = Spec.mean (List.map Resource.rating fiveCourses) /\
     totalLearners st = Spec.sum (List.map Spec.enrollment fiveCourses) /\
     popularityScore st
     = Spec.popularity (totalResources st) (averageRating st) (totalLearners st) /\
     (totalResources st = 5 -> averageRating st = 4 -> totalLearners st = 1000 ->
      popularityScore st = 140))%float.
Proof.
  apply (updateStatistics_popularityScore (freshSkill 7 [1; 2; 3; 4; 5]) fiveCoursesWorld).
  - discriminate.
  - vm_compute. reflexivity.
  - discriminate.
Defined.

(** The regression example of the specification: ratings 3, 4, 5, 4, 4
    have mean 4, the counters 100, 200, 300, 400 and an absent one sum
    to 1000, and the score is 140. *)
Example fiveCourses_mean_and_sum :
  (Spec.mean (List.map Resource.rating fiveCourses) = 4 /\
   Spec.sum (List.map Spec.enrollment fiveCourses) = 1000 /\
   Spec.popularity 5 4 1000 = 140)%float.
Proof. vm_compute. repeat split. Qed.

Example fiveCourses_score_140 :
  option_map Skill.statistics
    (Store.findSkill 7
       (skillDocs (snd (updateStatistics (freshSkill 7 [1; 2; 3; 4; 5]) fiveCoursesWorld))))
  = Some (mkStatistics 5 5 0 4 1000 140).
Proof. vm_compute. reflexivity. Qed.

(** C10.  Refreshing the statistics of a skill a second time, with no
    change to the resources in between, answers the same response (the
    same statistics, or the same failure) and leaves the store exactly as
    the first refresh left it. *)
Theorem postUpdateStatistics_idempotent (P : Platform) (id : ObjectId) (w : World) :
  let first := postUpdateStatistics P id w in
  postUpdateStatistics P id (snd first) = first.
Proof.
  cbv zeta. unfold postUpdateStatistics, tryCatch, bind, Skill_findById.
  destruct (Store.findSkill id (skillDocs w)) as [sk|] eqn:F.
  - pose proof (findSkill_id _ _ _ F) as Hid.
    destruct (Skill.validate
                (Skill.set_statistics
                   (assignStatistics (Store.countable (Skill._id sk) (resourceDocs w))
                                     (Skill.statistics sk)) sk)) eqn:Hv.
    + pose proof (updateStatistics_saves sk w Hv) as Hrun.
      pose proof (updateStatistics_again _ _ _ _ Hrun) as Hrun2.
      rewrite Hrun. simpl.
      replace id with
        (Skill._id (Skill.set_statistics
                      (assignStatistics (Store.countable (Skill._id sk) (resourceDocs w))
                                        (Skill.statistics sk)) sk))
        by (simpl; exact Hid).
      rewrite findSkill_replace by (simpl; rewrite Hid, F; discriminate).
      rewrite Hrun2. reflexivity.
    + rewrite (updateStatistics_rejects sk w Hv). simpl.
      rewrite F, (updateStatistics_rejects sk w Hv). reflexivity.
  - simpl. rewrite F. reflexivity.
Qed.

(* ================================================================== *)
(** * Reasoning about computations *)
(* ================================================================== *)

Section Logic.

Context {A B : Type}.

Lemma wp_ret (a : A) (Q : Outcome A -> World -> Prop) (w : World) :
  Q (Ok a) w -> wp (ret a) Q w.
Proof. exact (fun H => H). Qed.

Lemma wp_throw (e : string) (Q : Outcome A -> World -> Prop) (w : World) :
  Q (Throw e) w -> wp (throw e) Q w.
Proof. exact (fun H => H). Qed.

Lemma wp_bind (m : M A) (k : A -> M B) (Q : Outcome B -> World -> Prop) (w : World) :
  wp m (fun o w1 => match o with
                    | Ok a => wp (k a) Q w1
                    | Throw e => Q (Throw e) w1
                    end) w ->
  wp (bind m k) Q w.
Proof.
  unfold wp, bind. destruct (m w) as [[a|e] w1]; simpl; auto.
Qed.

Lemma wp_tryCatch (body : M A) (h : string -> M A)
    (Q : Outcome A -> World -> Prop) (w : World) :
  wp body (fun o w1 => match o with
                       | Ok a => Q (Ok a) w1
                       | Throw e => wp (h e) Q w1
                       end) w ->
  wp (tryCatch body h) Q w.
Proof.
  unfold wp, tryCatch. destruct (body w) as [[a|e] w1]; simpl; auto.
Qed.

Lemma wp_conseq (m : M A) (Q Q' : Outcome A -> World -> Prop) (w : World) :
  (forall o w1, Q o w1 -> Q' o w1) -> wp m Q w -> wp m Q' w.
Proof. unfold wp. auto. Qed.

Lemma wp_skillOnly (m : M A) (Q : Outcome A -> World -> Prop) (w : World) :
  skillOnly m -> (forall o w1, sameButSkills w w1 -> Q o w1) -> wp m Q w.
Proof. unfold wp. intros Hm HQ. apply HQ, Hm. Qed.

Lemma wp_storeFree (m : M A) (Q : Outcome A -> World -> Prop) (w : World) :
  storeFree m -> (forall o w1, sameStore w w1 -> Q o w1) -> wp m Q w.
Proof. unfold wp. intros Hm HQ. apply HQ, Hm. Qed.

End Logic.

Lemma sameButSkills_refl (w : World) : sameButSkills w w.
Proof. repeat split. Qed.

Lemma sameButSkills_trans (w1 w2 w3 : World) :
  sameButSkills w1 w2 -> sameButSkills w2 w3 -> sameButSkills w1 w3.
Proof.
  unfold sameButSkills. intros (a1 & a2 & a3 & a4 & a5) (b1 & b2 & b3 & b4 & b5).
  repeat split; congruence.
Qed.

Lemma sameStore_refl (w : World) : sameStore w w.
Proof. split; reflexivity. Qed.

Lemma sameStore_trans (w1 w2 w3 : World) :
  sameStore w1 w2 -> sameStore w2 w3 -> sameStore w1 w3.
Proof. unfold sameStore. intros (a1 & a2) (b1 & b2). split; congruence. Qed.

Section SkillOnly.

Lemma skillOnly_ret {A} (a : A) : skillOnly (ret a).
Proof. intros w. apply sameButSkills_refl. Qed.

Lemma skillOnly_bind {A B} (m : M A) (k : A -> M B) :
  skillOnly m -> (forall a, skillOnly (k a)) -> skillOnly (bind m k).
Proof.
  intros Hm Hk w. unfold bind. specialize (Hm w).
  destruct (m w) as [[a|e] w1]; simpl in *; [|exact Hm].
  eapply sameButSkills_trans; [exact Hm | apply Hk].
Qed.

Lemma skillOnly_Skill_findById (id : ObjectId) : skillOnly (Skill_findById id).
Proof. intros w. apply sameButSkills_refl. Qed.

Lemma skillOnly_Skill_save (doc : Skill.t) : skillOnly (Skill_save doc).
Proof.
  intros w. unfold Skill_save. destruct (Skill.validate doc); simpl;
    repeat split.
Qed.

Lemma skillOnly_find_countable (id : ObjectId) : skillOnly (Resource_find_countable id).
Proof. intros w. apply sameButSkills_refl. Qed.

Lemma skillOnly_updateStatistics (this : Skill.t) : skillOnly (updateStatistics this).
Proof.
  unfold updateStatistics.
  apply skillOnly_bind; [apply skillOnly_find_countable | intros rs].
  apply skillOnly_bind; [apply skillOnly_Skill_save | intros _].
  apply skillOnly_ret.
Qed.

Lemma skillOnly_addResource (this : Skill.t) (id : ObjectId) :
  skillOnly (addResource this id).
Proof.
  unfold addResource.
  destruct (negb (List.existsb (Nat.eqb id) (Skill.resources this)));
    [|apply skillOnly_ret].
  apply skillOnly_bind; [apply skillOnly_Skill_save | intros _].
  apply skillOnly_updateStatistics.
Qed.

Lemma skillOnly_removeResource (this : Skill.t) (id : ObjectId) :
  skillOnly (removeResource this id).
Proof.
  unfold removeResource.
  apply skillOnly_bind; [apply skillOnly_Skill_save | intros _].
  apply skillOnly_updateStatistics.
Qed.

Lemma skillOnly_forEach {A} (l : list A) (f : A -> M unit) :
  (forall x, skillOnly (f x)) -> skillOnly (forEach l f).
Proof.
  intros Hf. induction l as [|x l IH]; simpl; [apply skillOnly_ret|].
  apply skillOnly_bind; [apply Hf | intros _; exact IH].
Qed.

End SkillOnly.

Create HintDb skill_only.
#[export] Hint Resolve skillOnly_ret skillOnly_Skill_findById skillOnly_Skill_save
  skillOnly_find_countable skillOnly_updateStatistics skillOnly_addResource
  skillOnly_removeResource : skill_only.

(** Discharges [skillOnly] goals over binds and matches on options. *)
Ltac skill_only :=
  repeat first
    [ progress auto with skill_only
    | apply skillOnly_bind; [|intros ?]
    | apply skillOnly_forEach; intros ?
    | match goal with
      | |- skillOnly (match ?x with Some _ => _ | None => _ end) => destruct x
      | |- skillOnly (if ?b then _ else _) => destruct b
      end ].

Section ResourceStoreFacts.

Lemma findResource_id (id : ObjectId) (docs : list Resource.t) (d : Resource.t) :
  Store.findResource id docs = Some d -> Resource._id d = id.
Proof.
  unfold Store.findResource. intros H. apply List.find_some in H.
  now apply Nat.eqb_eq.
Qed.

Lemma findResource_replace (id : ObjectId) (doc : Resource.t) (docs : list Resource.t) :
  Store.findResource id (Store.replaceResource doc docs) =
    if id =? Resource._id doc
    then match Store.findResource id docs with
         | Some _ => Some doc
         | None => None
         end
    else Store.findResource id docs.
Proof.
  unfold Store.findResource, Store.replaceResource.
  destruct (id =? Resource._id doc) eqn:Ei.
  - apply Nat.eqb_eq in Ei. subst id.
    induction docs as [|d docs IH]; simpl; [reflexivity|].
    destruct (Resource._id d =? Resource._id doc) eqn:Ed.
    + now rewrite Nat.eqb_refl.
    + rewrite Ed. exact IH.
  - induction docs as [|d docs IH]; simpl; [reflexivity|].
    destruct (Resource._id d =? Resource._id doc) eqn:Ed.
    + apply Nat.eqb_eq in Ed. rewrite Ed.
      rewrite (Nat.eqb_sym (Resource._id doc) id), Ei. exact IH.
    + destruct (Resource._id d =? id); [reflexivity | exact IH].
Qed.

Lemma findResource_app (id : ObjectId) (docs : list Resource.t) (d : Resource.t) :
  Store.findResource id (docs ++ [d]) =
    match Store.findResource id docs with
    | Some x => Some x
    | None => if Resource._id d =? id then Some d else None
    end.
Proof.
  unfold Store.findResource.
  induction docs as [|x docs IH]; simpl; [reflexivity|].
  destruct (Resource._id x =? id); [reflexivity | exact IH].
Qed.

Lemma findResource_map (f : Resource.t -> Resource.t) (id : ObjectId)
    (docs : list Resource.t) :
  (forall d, Resource._id (f d) = Resource._id d) ->
  Store.findResource id (List.map f docs) = option_map f (Store.findResource id docs).
Proof.
  intros Hf. unfold Store.findResource.
  induction docs as [|x docs IH]; simpl; [reflexivity|].
  rewrite Hf. destruct (Resource._id x =? id); [reflexivity | exact IH].
Qed.

Lemma freshId_not_found (docs : list Resource.t) :
  Store.findResource (Store.freshId docs) docs = None.
Proof.
  destruct (Store.findResource (Store.freshId docs) docs) as [d|] eqn:F;
    [|reflexivity].
  exfalso. unfold Store.findResource in F. apply List.find_some in F.
  destruct F as [Hin Heq]. apply Nat.eqb_eq in Heq.
  assert (Hle : Resource._id d <= List.list_max (List.map Resource._id docs)).
  { pose proof (proj1 (List.list_max_le (List.map Resource._id docs)
                         (List.list_max (List.map Resource._id docs)))
                      (Nat.le_refl _)) as Hall.
    rewrite List.Forall_forall in Hall. apply Hall.
    apply List.in_map_iff. now exists d. }
  unfold Store.freshId in Heq. lia.
Qed.

Lemma keepsVerified_refl (w : World) : keepsVerified w w.
Proof. intros id H. exact H. Qed.

Lemma keepsVerified_trans (w1 w2 w3 : World) :
  keepsVerified w1 w2 -> keepsVerified w2 w3 -> keepsVerified w1 w3.
Proof. intros H12 H23 id H. now apply H23, H12. Qed.

Lemma keepsVerified_docs (w w1 w2 : World) :
  resourceDocs w2 = resourceDocs w1 -> keepsVerified w w1 -> keepsVerified w w2.
Proof.
  intros He H id Hv. unfold verifiedAt. rewrite He. now apply H.
Qed.

(** Saving a document that keeps the stored [verified] flag. *)
Lemma keepsVerified_replace (w : World) (old doc : Resource.t) :
  Store.findResource (Resource._id doc) (resourceDocs w) = Some old ->
  (Resource.verified old = true -> Resource.verified doc = true) ->
  keepsVerified w (set_resourceDocs (Store.replaceResource doc (resourceDocs w)) w).
Proof.
  intros Hold Hv id H. unfold verifiedAt in *. simpl.
  rewrite findResource_replace.
  destruct (id =? Resource._id doc) eqn:E; [|exact H].
  apply Nat.eqb_eq in E. subst id. rewrite Hold in *. simpl in *.
  injection H as H. now rewrite (Hv H).
Qed.

Lemma keepsVerified_append (w : World) (doc : Resource.t) :
  keepsVerified w (set_resourceDocs (resourceDocs w ++ [doc])%list w).
Proof.
  intros id H. unfold verifiedAt in *. simpl. rewrite findResource_app.
  destruct (Store.findResource id (resourceDocs w)); [exact H | discriminate H].
Qed.

Lemma keepsVerified_map (w : World) (f : Resource.t -> Resource.t) :
  (forall d, Resource._id (f d) = Resource._id d) ->
  (forall d, Resource.verified d = true -> Resource.verified (f d) = true) ->
  keepsVerified w (set_resourceDocs (List.map f (resourceDocs w)) w).
Proof.
  intros Hid Hv id H. unfold verifiedAt in *. simpl.
  rewrite findResource_map by exact Hid.
  destruct (Store.findResource id (resourceDocs w)) as [d|]; [|discriminate H].
  simpl in *. injection H as H. now rewrite (Hv d H).
Qed.

End ResourceStoreFacts.

Section RoutesKeepVerified.

Variable P : Platform.

Lemma wp_serverError (message e : string) (Q : Outcome Response -> World -> Prop)
    (w : World) :
  (forall r, Q (Ok r) w) -> wp (serverError P message e) Q w.
Proof. intros H. apply H. Qed.

(** [save()] of a document loaded from the store. *)
Lemma wp_save_loaded (old doc : Resource.t) (w : World)
    (Q : Outcome unit -> World -> Prop) :
  Store.findResource (Resource._id doc) (resourceDocs w) = Some old ->
  Q (Ok tt) (set_resourceDocs (Store.replaceResource doc (resourceDocs w)) w) ->
  (forall e, Q (Throw e) w) ->
  wp (Resource_save doc) Q w.
Proof.
  intros Hold Hok Hthrow. unfold wp, Resource_save.
  destruct (Resource.validate doc); [|apply Hthrow].
  rewrite Hold. exact Hok.
Qed.

(** [save()] of a new document. *)
Lemma wp_save_new (doc : Resource.t) (w : World)
    (Q : Outcome unit -> World -> Prop) :
  Store.findResource (Resource._id doc) (resourceDocs w) = None ->
  (Resource.validate doc = true ->
   Q (Ok tt) (set_resourceDocs (resourceDocs w ++ [doc])%list w)) ->
  (forall e, Resource.validate doc = false -> Q (Throw e) w) ->
  wp (Resource_save doc) Q w.
Proof.
  intros Hnew Hok Hthrow. unfold wp, Resource_save.
  destruct (Resource.validate doc); [|now apply Hthrow].
  rewrite Hnew. now apply Hok.
Qed.

(** A computation that only touches skills, run inside a route's
    [try] block. *)
Lemma wp_skill_tail (tail : M Response) (message : string) (R : World -> Prop)
    (w : World) :
  skillOnly tail ->
  (forall w1, resourceDocs w1 = resourceDocs w -> R w1) ->
  wp tail (fun o w1 => match o with
                       | Ok _ => R w1
                       | Throw e => wp (serverError P message e) (fun _ w2 => R w2) w1
                       end) w.
Proof.
  intros Ht HR. apply wp_skillOnly; [exact Ht|].
  intros o w1 (Hd & _). destruct o as [resp|e].
  - now apply HR.
  - apply wp_serverError. intros _. now apply HR.
Qed.

(** Saving a loaded document that keeps its [verified] flag, then
    only touching skills. *)
Lemma wp_save_tail_keeps (w0 w : World) (old doc : Resource.t)
    (tail : M Response) (message : string) :
  keepsVerified w0 w ->
  Store.findResource (Resource._id doc) (resourceDocs w) = Some old ->
  (Resource.verified old = true -> Resource.verified doc = true) ->
  skillOnly tail ->
  wp (bind (Resource_save doc) (fun _ => tail))
     (fun o w1 => match o with
                  | Ok _ => keepsVerified w0 w1
                  | Throw e =>
                      wp (serverError P message e) (fun _ w2 => keepsVerified w0 w2) w1
                  end) w.
Proof.
  intros K Hold Hv Ht. apply wp_bind.
  apply (wp_save_loaded old); [exact Hold | |].
  - apply (wp_skill_tail tail message (keepsVerified w0)); [exact Ht|].
    intros w1 Hd. apply (keepsVerified_trans w0 w); [exact K|].
    apply (keepsVerified_docs w _ w1 Hd).
    now apply (keepsVerified_replace w old).
  - intros e. apply wp_serverError. intros _. exact K.
Qed.

Lemma toggleActive_keepsVerified (id : ObjectId) (w : World) :
  wp (toggleActive P id) (fun _ w1 => keepsVerified w w1) w.
Proof.
  unfold toggleActive. apply wp_tryCatch, wp_bind.
  unfold wp at 1, Resource_findById; simpl.
  destruct (Store.findResource id (resourceDocs w)) as [r|] eqn:F;
    [|apply keepsVerified_refl].
  pose proof (findResource_id _ _ _ F) as Hid.
  apply (wp_save_tail_keeps w w r);
    [apply keepsVerified_refl | simpl; now rewrite Hid | auto | skill_only].
Qed.

Lemma deleteResource_keepsVerified (id : ObjectId) (w : World) :
  wp (deleteResource P id) (fun _ w1 => keepsVerified w w1) w.
Proof.
  unfold deleteResource. apply wp_tryCatch, wp_bind.
  unfold wp at 1, Resource_findById; simpl.
  destruct (Store.findResource id (resourceDocs w)) as [r|] eqn:F;
    [|apply keepsVerified_refl].
  pose proof (findResource_id _ _ _ F) as Hid.
  apply wp_bind. unfold wp at 1, newDate; simpl.
  apply (wp_save_tail_keeps w w r);
    [apply keepsVerified_refl | simpl; now rewrite Hid | auto | skill_only].
Qed.

Lemma restoreResource_keepsVerified (id : ObjectId) (w : World) :
  wp (restoreResource P id) (fun _ w1 => keepsVerified w w1) w.
Proof.
  unfold restoreResource. apply wp_tryCatch, wp_bind.
  unfold wp at 1, Resource_findById; simpl.
  destruct (Store.findResource id (resourceDocs w)) as [r|] eqn:F;
    [|apply keepsVerified_refl].
  pose proof (findResource_id _ _ _ F) as Hid.
  apply (wp_save_tail_keeps w w r);
    [apply keepsVerified_refl | simpl; now rewrite Hid | auto | skill_only].
Qed.

Lemma bulkVerify_keepsVerified (ids : list ObjectId) (w : World) :
  wp (bulkVerify P ids) (fun _ w1 => keepsVerified w w1) w.
Proof.
  unfold bulkVerify. apply wp_tryCatch, wp_bind.
  unfold wp at 1, Resource_updateMany_in; simpl. apply wp_ret.
  apply keepsVerified_map; intros d;
    destruct (List.existsb (Nat.eqb (Resource._id d)) ids); auto.
Qed.

Lemma bulkDelete_keepsVerified (ids : list ObjectId) (w : World) :
  wp (bulkDelete P ids) (fun _ w1 => keepsVerified w w1) w.
Proof.
  unfold bulkDelete. apply wp_tryCatch, wp_bind.
  unfold wp at 1, newDate; simpl. apply wp_bind.
  unfold wp at 1, Resource_updateMany_in; simpl. apply wp_bind.
  unfold wp at 1, Resource_find_in; simpl.
  match goal with
  | |- wp _ _ ?w1 => assert (K : keepsVerified w w1)
  end.
  { apply keepsVerified_map; intros d;
      destruct (List.existsb (Nat.eqb (Resource._id d)) ids); auto. }
  apply (wp_skill_tail _ _ (keepsVerified w)); [skill_only|].
  intros w2 Hd. exact (keepsVerified_docs w _ w2 Hd K).
Qed.

Lemma postUpdateStatistics_keepsVerified (id : ObjectId) (w : World) :
  wp (postUpdateStatistics P id) (fun _ w1 => keepsVerified w w1) w.
Proof.
  unfold postUpdateStatistics. apply wp_tryCatch.
  apply (wp_skill_tail _ _ (keepsVerified w)); [skill_only|].
  intros w1 Hd. exact (keepsVerified_docs w w w1 Hd (keepsVerified_refl w)).
Qed.

End RoutesKeepVerified.

Section DecisionBlocks.

Variable P : Platform.

Lemma storeFree_verifyUrl (input : option string) (timeout : Z) :
  storeFree (verifyUrl P input timeout).
Proof.
  intros w. destruct (verifyUrl_world P input timeout w) as [-> | (q & ->)];
    split; reflexivity.
Qed.

Lemma verifyNewUrl_known (u : string) (w : World) :
  isKnownAuthenticPlatform P u = true ->
  verifyNewUrl P u w = (Ok true, w).
Proof. intros H. unfold verifyNewUrl. now rewrite H. Qed.

Lemma verifyNewUrl_probed (u : string) (w w1 : World) (r : VerifyResult) :
  isKnownAuthenticPlatform P u = false ->
  verifyUrl P (Some u) defaultTimeout w = (Ok r, w1) ->
  verifyNewUrl P u w =
    if isValid r then (Ok true, w1)
    else (Ok false,
          add_consoleWarn
            ("Resource URL verification failed: " ++ u ++ " - " ++
             orString (error r) "URL verification failed") w1).
Proof.
  intros Hk Hv. unfold verifyNewUrl, bind. rewrite Hk, Hv.
  destruct (isValid r); reflexivity.
Qed.

Lemma verifyNewUrl_total (u : string) (w : World) :
  exists v w1, verifyNewUrl P u w = (Ok v, w1) /\ sameStore w w1.
Proof.
  destruct (isKnownAuthenticPlatform P u) eqn:Hk.
  - exists true, w. split; [now apply verifyNewUrl_known | apply sameStore_refl].
  - destruct (verifyUrl_total P (Some u) defaultTimeout w defaultTimeout_accepted)
      as (r & w1 & Hv & _).
    pose proof (storeFree_verifyUrl (Some u) defaultTimeout w) as Hs.
    rewrite Hv in Hs. simpl in Hs.
    rewrite (verifyNewUrl_probed u w w1 r Hk Hv).
    destruct (isValid r); eexists _, _; (split; [reflexivity|]);
      [exact Hs | destruct Hs as (H1 & H2); split; simpl; assumption].
Qed.

Lemma verifyStoredUrl_cases (u : string) (w : World) :
  (isKnownAuthenticPlatform P u = true /\
   verifyStoredUrl P u w = (Ok (true, None), w)) \/
  (isKnownAuthenticPlatform P u = false /\
   exists r w1,
     verifyUrl P (Some u) defaultTimeout w = (Ok r, w1) /\ sameStore w w1 /\
     verifyStoredUrl P u w =
       (Ok (if isValid r then (true, None)
            else (false, Some (orString (error r) "URL verification failed"))),
        w1)).
Proof.
  unfold verifyStoredUrl.
  destruct (isKnownAuthenticPlatform P u) eqn:Hk; [left; now split | right].
  split; [reflexivity|].
  destruct (verifyUrl_total P (Some u) defaultTimeout w defaultTimeout_accepted)
      as (r & w1 & Hv & _).
  pose proof (storeFree_verifyUrl (Some u) defaultTimeout w) as Hs.
  rewrite Hv in Hs. simpl in Hs.
  exists r, w1. repeat split; try apply Hs; try exact Hv.
  unfold bind. rewrite Hv. now destruct (isValid r).
Qed.

(** What the "URL is being changed" block does to [req.body.verified]. *)
Lemma verifyChangedUrl_cases (u : string) (body : UpdateReq.t) (w : World) :
  exists body' w1,
    verifyChangedUrl P u body w = (Ok body', w1) /\ sameStore w w1 /\
    (UpdateReq.verified body' = Some false ->
     UpdateReq.verified body = Some false \/
     (UpdateReq.verified body = None /\ decisionFails P u w)).
Proof.
  unfold verifyChangedUrl, bind.
  destruct (isKnownAuthenticPlatform P u) eqn:Hk.
  - simpl. eexists _, _. split; [reflexivity|]. split; [apply sameStore_refl|].
    destruct (UpdateReq.verified body) as [[|]|] eqn:Hb; simpl;
      rewrite ?Hb; intros H; try discriminate H; now left.
  - destruct (verifyUrl_total P (Some u) defaultTimeout w defaultTimeout_accepted)
      as (r & w1 & Hv & _).
    pose proof (storeFree_verifyUrl (Some u) defaultTimeout w) as Hs.
    rewrite Hv in Hs. simpl in Hs. rewrite Hv.
    destruct (isValid r) eqn:Hr; simpl.
    + eexists _, _. split; [reflexivity|]. split; [exact Hs|].
      destruct (UpdateReq.verified body) as [[|]|] eqn:Hb; simpl;
        rewrite ?Hb; intros H; try discriminate H; now left.
    + eexists _, _. split; [reflexivity|].
      split; [destruct Hs; split; simpl; assumption|].
      destruct (UpdateReq.verified body) as [[|]|] eqn:Hb; simpl;
        rewrite ?Hb; simpl; intros H; try discriminate H; [now left|].
      right. split; [reflexivity|]. split; [exact Hk|]. now exists r, w1.
Qed.

End DecisionBlocks.

Section CreateRoute.

Variable P : Platform.

Lemma createResource_cases (body : CreateReq.t) (w : World) :
  wp (createResource P body) (createOutcome P body w) w.
Proof.
  unfold createResource, createOutcome. apply wp_tryCatch, wp_bind.
  unfold wp at 1, Skill_findById; simpl.
  destruct (Store.findSkill (CreateReq.skill body) (skillDocs w)) as [sk|];
    [|now split].
  apply wp_bind. unfold wp at 1, Resource_findOne_url; simpl.
  destruct (Store.findByUrl (CreateReq.url body) (resourceDocs w)); [now split|].
  destruct (verifyNewUrl_total P (CreateReq.url body) w) as (v & w1 & Hv & Hd & Hs).
  apply wp_bind. unfold wp at 1. rewrite Hv. simpl.
  apply wp_bind. unfold wp at 1, get; simpl. rewrite Hd.
  set (resource := newResource (Store.freshId (resourceDocs w)) body
                     (v || UpdateReq.orElse (CreateReq.verified body) false || false)).
  apply wp_bind. apply wp_save_new.
  - rewrite Hd. apply freshId_not_found.
  - intros Hval. apply wp_bind. unfold wp at 1. rewrite Hd.
    pose proof (skillOnly_addResource sk (Store.freshId (resourceDocs w))
                  (set_resourceDocs (resourceDocs w ++ [resource])%list w1))
      as (K1 & K2 & K3 & K4 & K5).
    change (Resource._id resource) with (Store.freshId (resourceDocs w)).
    destruct (addResource sk (Store.freshId (resourceDocs w))
                (set_resourceDocs (resourceDocs w ++ [resource])%list w1))
      as [[sk'|e] w3] eqn:Ea; cbn [fst snd] in *; simpl in K1, K2, K3, K5.
    + apply wp_ret. exists v, w1. split; [reflexivity|]. fold resource.
      change (Resource._id resource) with (Store.freshId (resourceDocs w)).
      rewrite Hval, K1, K2, K3, K5, Ea. repeat split.
    + unfold wp; simpl. exists v, w1. split; [reflexivity|]. fold resource.
      change (Resource._id resource) with (Store.freshId (resourceDocs w)).
      rewrite Hval, K1, K2, K3, K5, Ea. repeat split.
  - intros e Hval. unfold wp; simpl. exists v, w1. split; [reflexivity|]. fold resource.
    rewrite Hval. split; [reflexivity | now eexists].
Qed.

Lemma createResource_keepsVerified (body : CreateReq.t) (w : World) :
  wp (createResource P body) (fun _ w1 => keepsVerified w w1) w.
Proof.
  apply (wp_conseq _ (createOutcome P body w)); [|apply createResource_cases].
  intros o w'. unfold createOutcome.
  destruct (Store.findSkill (CreateReq.skill body) (skillDocs w));
    [|intros (_ & ->); apply keepsVerified_refl].
  destruct (Store.findByUrl (CreateReq.url body) (resourceDocs w));
    [intros (_ & ->); apply keepsVerified_refl|].
  intros (v & w1 & Hv & H). cbv zeta in H.
  destruct (verifyNewUrl_total P (CreateReq.url body) w) as (v' & w1' & Hv' & Hd & _).
  rewrite Hv in Hv'. injection Hv' as <- <-.
  destruct (Resource.validate _).
  - destruct H as (Hdocs & _).
    eapply (keepsVerified_docs w (set_resourceDocs _ w));
      [exact Hdocs | apply keepsVerified_append].
  - destruct H as (-> & _).
    apply (keepsVerified_docs w w); [exact Hd | apply keepsVerified_refl].
Qed.

End CreateRoute.

Section DemotingRoutes.

Variable P : Platform.

Lemma keepsVerified_no_demotion (w w' : World) (id : ObjectId) :
  keepsVerified w w' ->
  verifiedAt id w = Some true -> verifiedAt id w' = Some false -> False.
Proof. intros K H1 H2. rewrite (K id H1) in H2. discriminate H2. Qed.

(** A flag that drops when a loaded document is saved back is the flag
    of that document. *)
Lemma demoted_by_replace (w w' : World) (old doc : Resource.t) (id : ObjectId) :
  Store.findResource (Resource._id doc) (resourceDocs w) = Some old ->
  resourceDocs w' = Store.replaceResource doc (resourceDocs w) ->
  verifiedAt id w = Some true ->
  verifiedAt id w' = Some false ->
  id = Resource._id doc /\ Resource.verified old = true /\ Resource.verified doc = false.
Proof.
  unfold verifiedAt. intros Hold Hd H1 H2. rewrite Hd, findResource_replace in H2.
  destruct (id =? Resource._id doc) eqn:E.
  - apply Nat.eqb_eq in E. subst id. rewrite Hold in *. simpl in *.
    injection H1 as H1. injection H2 as H2. auto.
  - rewrite H1 in H2. discriminate H2.
Qed.

Lemma verifyDemotes_docs (id : ObjectId) (w w1 w2 : World) :
  resourceDocs w2 = resourceDocs w1 -> verifyDemotes P id w w1 -> verifyDemotes P id w w2.
Proof.
  intros He H id' H1 H2. apply H; [exact H1|]. unfold verifiedAt in *.
  now rewrite <- He.
Qed.

Lemma verifyDemotes_keeps (id : ObjectId) (w w1 : World) :
  keepsVerified w w1 -> verifyDemotes P id w w1.
Proof.
  intros K id' H1 H2. exfalso. exact (keepsVerified_no_demotion w w1 id' K H1 H2).
Qed.

Lemma verifyResource_demotes (id : ObjectId) (w : World) :
  wp (verifyResource P id) (fun _ w' => verifyDemotes P id w w') w.
Proof.
  unfold verifyResource. apply wp_tryCatch, wp_bind.
  unfold wp at 1, Resource_findById; simpl.
  destruct (Store.findResource id (resourceDocs w)) as [r|] eqn:F;
    [|apply verifyDemotes_keeps, keepsVerified_refl].
  pose proof (findResource_id _ _ _ F) as Hid.
  apply wp_bind. unfold wp at 1.
  destruct (verifyStoredUrl_cases P (Resource.url r) w)
    as [(Hk & E) | (Hk & vr & w1 & Hv & (Hd & Hs) & E)]; rewrite E; simpl.
  - apply wp_bind. apply (wp_save_loaded r); [simpl; now rewrite Hid | |].
    + apply wp_ret. apply verifyDemotes_keeps.
      apply (keepsVerified_replace w r); [simpl; now rewrite Hid | auto].
    + intros e. apply wp_serverError. intros _.
      apply verifyDemotes_keeps, keepsVerified_refl.
  - assert (K1 : keepsVerified w w1)
      by (apply (keepsVerified_docs w w w1 Hd), keepsVerified_refl).
    destruct (isValid vr) eqn:Hvalid; simpl.
    + apply wp_bind.
      apply (wp_save_loaded r); [simpl; now rewrite Hd, Hid | |].
      * apply wp_ret. apply verifyDemotes_keeps.
        apply (keepsVerified_trans w w1); [exact K1|].
        apply (keepsVerified_replace w1 r); [simpl; now rewrite Hd, Hid | auto].
      * intros e. apply wp_serverError. intros _. now apply verifyDemotes_keeps.
    + apply wp_bind.
      apply (wp_save_loaded r); [simpl; now rewrite Hd, Hid | |].
      * apply wp_ret. intros id' H1 H2.
        assert (H1' : verifiedAt id' w1 = Some true)
          by (unfold verifiedAt in *; now rewrite Hd).
        destruct (demoted_by_replace w1
                    (set_resourceDocs
                       (Store.replaceResource (Resource.set_verified false r)
                          (resourceDocs w1)) w1)
                    r (Resource.set_verified false r) id')
          as (Ei & _ & _); [simpl; now rewrite Hd, Hid | reflexivity | exact H1' | exact H2 |].
        simpl in Ei. split; [congruence|].
        exists r. split; [exact F|]. split; [exact Hk|]. now exists vr, w1.
      * intros e. apply wp_serverError. intros _. now apply verifyDemotes_keeps.
Qed.

End DemotingRoutes.

Section UpdateRoute.

Variable P : Platform.

Lemma updateDemotes_docs (id : ObjectId) (body : UpdateReq.t) (w w1 w2 : World) :
  resourceDocs w2 = resourceDocs w1 ->
  updateDemotes P id body w w1 -> updateDemotes P id body w w2.
Proof.
  intros He H id' H1 H2. apply H; [exact H1|]. unfold verifiedAt in *.
  now rewrite <- He.
Qed.

Lemma updateDemotes_keeps (id : ObjectId) (body : UpdateReq.t) (w w1 : World) :
  keepsVerified w w1 -> updateDemotes P id body w w1.
Proof.
  intros K id' H1 H2. exfalso. exact (keepsVerified_no_demotion w w1 id' K H1 H2).
Qed.

Lemma skillOnly_moveToSkill (oldResource : Resource.t) (body : UpdateReq.t) :
  skillOnly (moveToSkill oldResource body).
Proof. unfold moveToSkill. skill_only. Qed.

(** The request body as the route hands it to [findByIdAndUpdate]. *)
Lemma update_body_cases (old : Resource.t) (body : UpdateReq.t) (w : World) :
  exists body' w1,
    match UpdateReq.url body with
    | Some u =>
        if Js.truthy u && negb (String.eqb u (Resource.url old))
        then verifyChangedUrl P u body
        else ret body
    | None => ret body
    end w = (Ok body', w1) /\
    sameStore w w1 /\
    (UpdateReq.verified body' = Some false ->
     UpdateReq.verified body = Some false \/
     (UpdateReq.verified body = None /\
      exists u, UpdateReq.url body = Some u /\ u <> Resource.url old /\
                decisionFails P u w)).
Proof.
  destruct (UpdateReq.url body) as [u|] eqn:Hu.
  - destruct (Js.truthy u && negb (String.eqb u (Resource.url old))) eqn:Hc.
    + destruct (verifyChangedUrl_cases P u body w) as (body' & w1 & E & Hs & Hv).
      exists body', w1. repeat split; try apply Hs; [exact E|].
      intros Hf. destruct (Hv Hf) as [Hb | (Hb & Hfail)]; [now left | right].
      split; [exact Hb|]. exists u. repeat split; try apply Hfail.
      apply andb_prop in Hc. destruct Hc as (_ & Hne).
      apply negb_true_iff, String.eqb_neq in Hne. exact Hne.
    + exists body, w. repeat split. now left.
  - exists body, w. repeat split. now left.
Qed.

Lemma updateResource_demotes (id : ObjectId) (body : UpdateReq.t) (w : World) :
  wp (updateResource P id body) (fun _ w' => updateDemotes P id body w w') w.
Proof.
  unfold updateResource. apply wp_tryCatch, wp_bind.
  unfold wp at 1, Resource_findById; simpl.
  destruct (Store.findResource id (resourceDocs w)) as [old|] eqn:F;
    [|apply updateDemotes_keeps, keepsVerified_refl].
  pose proof (findResource_id _ _ _ F) as Hid.
  destruct (update_body_cases old body w) as (body' & w1 & E & (Hd & Hs) & Hcause).
  apply wp_bind. unfold wp at 1. rewrite E. simpl.
  assert (K1 : keepsVerified w w1)
    by (apply (keepsVerified_docs w w w1 Hd), keepsVerified_refl).
  apply wp_bind. apply wp_skillOnly; [apply skillOnly_moveToSkill|].
  intros o w2 (Hd2 & _).
  assert (K2 : keepsVerified w w2) by (apply (keepsVerified_docs w w1 w2 Hd2), K1).
  destruct o as [[response|]|e].
  - apply wp_ret. now apply updateDemotes_keeps.
  - apply wp_bind. unfold wp at 1, Resource_findByIdAndUpdate.
    destruct (UpdateReq.validate body'); simpl.
    + rewrite Hd2, Hd, F. simpl.
      apply (wp_skill_tail P _ _ (updateDemotes P id body w)); [skill_only|].
      intros w3 Hd3 id' H1 H2. simpl in Hd3.
      destruct (demoted_by_replace w w3 old (UpdateReq.apply body' old) id')
        as (Ei & Ho & Hn);
        [simpl; now rewrite Hid | exact Hd3 | exact H1 | exact H2 |].
      simpl in Ei, Hn. split; [congruence|].
      assert (Hb' : UpdateReq.verified body' = Some false).
      { destruct (UpdateReq.verified body') as [[|]|]; simpl in Hn;
          congruence. }
      destruct (Hcause Hb') as [Hb | (Hb & u & Hu & Hne & Hfail)]; [now left | right].
      split; [exact Hb|]. exists u, old. auto.
    + apply wp_serverError. intros _. now apply updateDemotes_keeps.
  - apply wp_serverError. intros _. now apply updateDemotes_keeps.
Qed.

End UpdateRoute.

(* ================================================================== *)
(** * Which handler answers a request *)
(* ================================================================== *)

Section MountedFacts.

Variable P : Platform.

Lemma run_Create (body : CreateReq.t) : run P (Create body) = createResource P body.
Proof. reflexivity. Qed.

Lemma run_Update (id : ObjectId) (body : UpdateReq.t) :
  run P (Update id body) = updateResource P id body.
Proof. reflexivity. Qed.

Lemma run_Verify (id : ObjectId) : run P (Verify id) = verifyResource P id.
Proof. reflexivity. Qed.

Lemma run_ToggleActive (id : ObjectId) : run P (ToggleActive id) = toggleActive P id.
Proof. reflexivity. Qed.

Lemma run_Delete (id : ObjectId) : run P (Delete id) = deleteResource P id.
Proof. reflexivity. Qed.

Lemma run_Restore (id : ObjectId) : run P (Restore id) = restoreResource P id.
Proof. reflexivity. Qed.

Lemma run_UpdateStatistics (id : ObjectId) :
  run P (UpdateStatistics id) = postUpdateStatistics P id.
Proof. reflexivity. Qed.

(** The path of the bulk deletion is taken by [DELETE /resources/:id],
    registered before it. *)
Lemma dispatch_bulk_delete :
  Router.dispatch Router.DELETE [Router.Word "resources"; Router.Word "bulk-delete"]
  = Some (Router.DeleteResource, Some (Router.Word "bulk-delete")).
Proof. reflexivity. Qed.

Lemma dispatch_bulk_verify :
  Router.dispatch Router.POST [Router.Word "resources"; Router.Word "bulk-verify"]
  = Some (Router.BulkVerifyResources, None).
Proof. reflexivity. Qed.

(** No literal of a route path could be taken for an id, and the words
    of the requests are no ids. *)
Lemma literals_are_no_ids :
  List.forallb (fun l => negb (Router.isMongoIdString l)) Router.literals = true.
Proof. reflexivity. Qed.

Lemma request_words_are_no_ids (a : Action) (s : string) :
  List.In (Router.Word s) (req_path (request a)) -> Router.isMongoIdString s = false.
Proof.
  destruct a; simpl; intros H;
    repeat (destruct H as [H | H]; [try discriminate H; injection H as <-; reflexivity|]);
    destruct H.
Qed.

Lemma bulkVerifyErrors_nonempty (ids : list ObjectId) : bulkVerifyErrors ids <> [].
Proof. destruct ids; discriminate. Qed.

Lemma run_BulkVerify (ids : list ObjectId) :
  run P (BulkVerify ids) = validationFailed (bulkVerifyErrors ids).
Proof. destruct ids; reflexivity. Qed.

Lemma run_BulkDelete (ids : list ObjectId) :
  run P (BulkDelete ids) = validationFailed ["Invalid resource ID"].
Proof. reflexivity. Qed.

End MountedFacts.

Ltac to_handler :=
  first [ rewrite run_Create | rewrite run_Update | rewrite run_Verify
        | rewrite run_ToggleActive | rewrite run_Delete | rewrite run_Restore
        | rewrite run_UpdateStatistics ].

Ltac to_handler_in H :=
  first [ rewrite run_Create in H | rewrite run_Update in H | rewrite run_Verify in H
        | rewrite run_ToggleActive in H | rewrite run_Delete in H
        | rewrite run_Restore in H | rewrite run_UpdateStatistics in H ].

(* ================================================================== *)
(** * Properties of the verified flag *)
(* ================================================================== *)

Lemma verifyUrl_keeps_console (P : Platform) (input : option string) (timeout : Z)
    (w w1 : World) (r : VerifyResult) :
  verifyUrl P input timeout w = (Ok r, w1) -> consoleWarn w1 = consoleWarn w.
Proof.
  intros H. pose proof (verifyUrl_world P input timeout w) as Hw.
  rewrite H in Hw. cbn [snd] in Hw.
  destruct Hw as [-> | (q & ->)]; reflexivity.
Qed.

(** C2 (as amended).  Whenever a route moves the [verified] flag of a
    stored resource from [true] to [false], the route is either the
    explicit re-verification of that resource, with a URL that is not
    allow-listed and a probe that fails, or an update of that resource
    whose body says [verified: false] or, being silent about [verified],
    changes the URL to one for which the decision fails.  Create,
    toggle-active, delete, restore, the bulk routes and the statistics
    refresh never do it. *)
Theorem verified_dropped_only_by_verify_or_update
    (P : Platform) (a : Action) (w : World) (id : ObjectId) :
  verifiedAt id w = Some true ->
  verifiedAt id (snd (run P a w)) = Some false ->
  (a = Verify id /\
   exists r, Store.findResource id (resourceDocs w) = Some r /\
             decisionFails P (Resource.url r) w) \/
  (exists body, a = Update id body /\ updateCause P id body w).
Proof.
  intros H1 H2. destruct a as [body|id0 body|id0|id0|id0|id0|ids|ids|id0].
  7: { rewrite run_BulkVerify in H2. cbn in H2. congruence. }
  7: { rewrite run_BulkDelete in H2. cbn in H2. congruence. }
  all: change (run P ?a) with (answer P (request a)) in H2; cbn in H2.
  - exfalso. exact (keepsVerified_no_demotion _ _ _ (createResource_keepsVerified P body w) H1 H2).
  - destruct (updateResource_demotes P id0 body w id H1 H2) as (-> & Hc).
    right. now exists body.
  - destruct (verifyResource_demotes P id0 w id H1 H2) as (-> & Hc).
    left. now split.
  - exfalso. exact (keepsVerified_no_demotion _ _ _ (toggleActive_keepsVerified P id0 w) H1 H2).
  - exfalso. exact (keepsVerified_no_demotion _ _ _ (deleteResource_keepsVerified P id0 w) H1 H2).
  - exfalso. exact (keepsVerified_no_demotion _ _ _ (restoreResource_keepsVerified P id0 w) H1 H2).
  - exfalso. exact (keepsVerified_no_demotion _ _ _ (postUpdateStatistics_keepsVerified P id0 w) H1 H2).
Qed.

Lemma verified_dropped_only_by_verify_or_update_witness :
  (Verify 1 = Verify 1 /\
   exists r, Store.findResource 1 (resourceDocs oneCourseWorld) = Some r /\
             decisionFails offline (Resource.url r) oneCourseWorld) \/
  (exists body, Verify 1 = Update 1 body /\ updateCause offline 1 body oneCourseWorld).
Proof.
  apply (verified_dropped_only_by_verify_or_update offline (Verify 1) oneCourseWorld 1).
  - vm_compute. reflexivity.
  - vm_compute. reflexivity.
Defined.

(** C2 as stated fails: an update that only changes the URL of a
    verified resource to an unknown, unreachable one leaves it
    unverified. *)
Lemma update_drops_verified_counterexample :
  verifiedAt 1 oneCourseWorld = Some true /\
  UpdateReq.verified moveToUnreachable = None /\
  verifiedAt 1 (snd (run offline (Update 1 moveToUnreachable) oneCourseWorld))
  = Some false.
Proof. vm_compute. repeat split. Qed.

(** C3 (as amended).  A creation request whose URL is not allow-listed,
    whose probe fails and whose body does not carry [verified: true],
    for an existing skill, a URL not yet in the catalog and a document
    the schema accepts: the route does not throw; it stores the new
    resource with [verified = false] and writes the verification error
    with [console.warn].  The response is 201 when [skill.addResource],
    run on the store that holds the new resource, returns; it is the 500
    of the [catch] block exactly when that update of the skill document
    throws. *)
Theorem createResource_unreachable_url
    (P : Platform) (body : CreateReq.t) (w w1 : World) (sk : Skill.t) (vr : VerifyResult) :
  let resource := newResource (Store.freshId (resourceDocs w)) body false in
  let line :=
    ("Resource URL verification failed: " ++ CreateReq.url body ++ " - " ++
     orString (error vr) "URL verification failed")%string in
  let saved :=
    set_resourceDocs (resourceDocs w ++ [resource])%list (add_consoleWarn line w1) in
  isKnownAuthenticPlatform P (CreateReq.url body) = false ->
  verifyUrl P (Some (CreateReq.url body)) defaultTimeout w = (Ok vr, w1) ->
  isValid vr = false ->
  CreateReq.verified body <> Some true ->
  Store.findSkill (CreateReq.skill body) (skillDocs w) = Some sk ->
  Store.findByUrl (CreateReq.url body) (resourceDocs w) = None ->
  Resource.validate resource = true ->
  exists resp w',
    createResource P body w = (Ok resp, w') /\
    resourceDocs w' = (resourceDocs w ++ [resource])%list /\
    Resource.verified resource = false /\
    consoleWarn w' = (consoleWarn w ++ [line])%list /\
    (forall added w2,
        addResource sk (Resource._id resource) saved = (Ok added, w2) ->
        resp = respond 201 true "Resource created successfully"
                 (DataResource resource)) /\
    (forall e w2,
        addResource sk (Resource._id resource) saved = (Throw e, w2) ->
        status resp = 500 /\ message resp = "Failed to create resource").
Proof.
  intros resource line saved Hk Hv Hvalid Hbody Hskill Hurl Hval.
  pose proof (createResource_cases P body w) as H. unfold wp, createOutcome in H.
  rewrite Hskill, Hurl in H. destruct H as (v & w2 & Hn & H).
  rewrite (verifyNewUrl_probed P _ w w1 vr Hk Hv), Hvalid in Hn.
  injection Hn as <- <-. cbv zeta in H.
  assert (Hflag : false || UpdateReq.orElse (CreateReq.verified body) false || false = false)
    by (destruct (CreateReq.verified body) as [[|]|]; simpl; congruence).
  rewrite Hflag in H. fold resource in H. rewrite Hval in H.
  destruct H as (Hdocs & _ & Hwarn & _ & Hresp).
  destruct (createResource P body w) as [o w'] eqn:E. cbn [fst snd] in *. subst o.
  eexists _, w'. split; [reflexivity|]. split; [exact Hdocs|]. split; [reflexivity|].
  split.
  - rewrite Hwarn. simpl. now rewrite (verifyUrl_keeps_console P _ _ w w1 vr Hv).
  - split.
    + intros added w3 Ea.
      change (createAnswer P resource
                (fst (addResource sk (Resource._id resource) saved))
              = respond 201 true "Resource created successfully" (DataResource resource)).
      now rewrite Ea.
    + intros e w3 Ea.
      change (status (createAnswer P resource
                        (fst (addResource sk (Resource._id resource) saved))) = 500 /\
              message (createAnswer P resource
                         (fst (addResource sk (Resource._id resource) saved)))
              = "Failed to create resource").
      rewrite Ea. split; reflexivity.
Qed.

Lemma createResource_unreachable_url_witness :
  let resource :=
    newResource (Store.freshId (resourceDocs oneCourseWorld)) (unreachableCourse None)
                false in
  let vr := {| isValid := false; statusCode := None; error := Some "Domain not found" |} in
  let line :=
    ("Resource URL verification failed: " ++ CreateReq.url (unreachableCourse None) ++
     " - " ++ orString (error vr) "URL verification failed")%string in
  let w1 :=
    snd (verifyUrl offline (Some (CreateReq.url (unreachableCourse None)))
                   defaultTimeout oneCourseWorld) in
  let saved :=
    set_resourceDocs (resourceDocs oneCourseWorld ++ [resource])%list
                     (add_consoleWarn line w1) in
  exists resp w',
    createResource offline (unreachableCourse None) oneCourseWorld = (Ok resp, w') /\
    resourceDocs w' = (resourceDocs oneCourseWorld ++ [resource])%list /\
    Resource.verified resource = false /\
    consoleWarn w' = (consoleWarn oneCourseWorld ++ [line])%list /\
    (forall added w2,
        addResource (Skill.mk 7 [1] (mkStatistics 1 1 0 4.5 300 103) true None)
                    (Resource._id resource) saved = (Ok added, w2) ->
        resp = respond 201 true "Resource created successfully"
                 (DataResource resource)) /\
    (forall e w2,
        addResource (Skill.mk 7 [1] (mkStatistics 1 1 0 4.5 300 103) true None)
                    (Resource._id resource) saved = (Throw e, w2) ->
        status resp = 500 /\ message resp = "Failed to create resource").
Proof.
  apply (createResource_unreachable_url offline (unreachableCourse None) oneCourseWorld
           (snd (verifyUrl offline (Some (CreateReq.url (unreachableCourse None)))
                           defaultTimeout oneCourseWorld))
           (Skill.mk 7 [1] (mkStatistics 1 1 0 4.5 300 103) true None)
           {| isValid := false; statusCode := None; error := Some "Domain not found" |}).
  - vm_compute. reflexivity.
  - vm_compute. reflexivity.
  - reflexivity.
  - discriminate.
  - vm_compute. reflexivity.
  - vm_compute. reflexivity.
  - vm_compute. reflexivity.
Defined.

Example unreachable_course_answers_201 :
  status_of (fst (createResource offline (unreachableCourse None) oneCourseWorld))
  = Some 201.
Proof. vm_compute. reflexivity. Qed.

(** C3 as stated fails: with [verified: true] in the body, the resource
    for the unknown, unreachable URL is stored as verified. *)
Lemma create_with_verified_true_counterexample :
  isKnownAuthenticPlatform offline (CreateReq.url (unreachableCourse (Some true))) = false /\
  option_map isValid
    (match fst (verifyUrl offline (Some (CreateReq.url (unreachableCourse (Some true))))
                          defaultTimeout oneCourseWorld) with
     | Ok r => Some r
     | Throw _ => None
     end) = Some false /\
  status_of (fst (createResource offline (unreachableCourse (Some true)) oneCourseWorld))
  = Some 201 /\
  option_map Resource.verified
    (Store.findByUrl "http://not-a-real-domain-xyz123.test"
       (resourceDocs
          (snd (createResource offline (unreachableCourse (Some true)) oneCourseWorld))))
  = Some true.
Proof. vm_compute. repeat split. Qed.

(** C4.  When the create route stores a resource, its [verified] flag is
    the disjunction of the verification decision (the local [verified]
    the decision block answers) and the [verified] field of the body,
    absent counting as [false]; and there is a request with
    [verified: true], a URL that is not allow-listed and a failing probe
    whose resource is stored as verified. *)
Theorem createResource_verified_is_disjunction :
  (forall (P : Platform) (body : CreateReq.t) (w w1 : World) (sk : Skill.t) (v : bool),
      let flag := v || UpdateReq.orElse (CreateReq.verified body) false in
      Store.findSkill (CreateReq.skill body) (skillDocs w) = Some sk ->
      Store.findByUrl (CreateReq.url body) (resourceDocs w) = None ->
      verifyNewUrl P (CreateReq.url body) w = (Ok v, w1) ->
      Resource.validate (newResource (Store.freshId (resourceDocs w)) body flag) = true ->
      exists resource,
        Store.findResource (Store.freshId (resourceDocs w))
          (resourceDocs (snd (createResource P body w))) = Some resource /\
        Resource.url resource = CreateReq.url body /\
        Resource.verified resource = flag) /\
  (exists (P : Platform) (body : CreateReq.t) (w : World) (resource : Resource.t),
      CreateReq.verified body = Some true /\
      decisionFails P (CreateReq.url body) w /\
      Store.findResource (Store.freshId (resourceDocs w))
        (resourceDocs (snd (createResource P body w))) = Some resource /\
      Resource.url resource = CreateReq.url body /\
      Resource.verified resource = true).
Proof.
  split.
  - intros P body w w1 sk v flag Hskill Hurl Hv Hval.
    pose proof (createResource_cases P body w) as H. unfold wp, createOutcome in H.
    rewrite Hskill, Hurl in H. destruct H as (v' & w2 & Hn & H).
    rewrite Hv in Hn. injection Hn as <- <-. cbv zeta in H.
    rewrite orb_false_r in H. fold flag in H. rewrite Hval in H.
    destruct H as (Hdocs & _).
    exists (newResource (Store.freshId (resourceDocs w)) body flag).
    rewrite Hdocs, findResource_app, freshId_not_found. simpl.
    rewrite Nat.eqb_refl. repeat split.
  - exists offline, (unreachableCourse (Some true)), oneCourseWorld.
    eexists. split; [reflexivity|]. split.
    + split; [vm_compute; reflexivity|]. eexists _, _. split; vm_compute; reflexivity.
    + vm_compute. repeat split.
Qed.

Lemma createResource_verified_is_disjunction_witness :
  exists resource,
    Store.findResource (Store.freshId (resourceDocs oneCourseWorld))
      (resourceDocs (snd (createResource offline (unreachableCourse (Some true))
                                         oneCourseWorld))) = Some resource /\
    Resource.url resource = CreateReq.url (unreachableCourse (Some true)) /\
    Resource.verified resource
    = false || UpdateReq.orElse (CreateReq.verified (unreachableCourse (Some true))) false.
Proof.
  eapply (proj1 createResource_verified_is_disjunction
            offline (unreachableCourse (Some true)) oneCourseWorld).
  - vm_compute. reflexivity.
  - vm_compute. reflexivity.
  - vm_compute. reflexivity.
  - vm_compute. reflexivity.
Defined.

(** C6 (as amended).  A creation request whose URL is on the allow-list
    never calls [verifyUrl] and issues no request.  When the skill
    exists, the URL is not yet in the catalog and the schema accepts the
    document, the resource is stored with [verified = true]; the response
    is 201 when [skill.addResource] returns and the 500 of the [catch]
    block when it throws.  In every other case nothing is stored: the
    answer is 404 for an unknown skill, 400 for a URL already in the
    catalog, and 500 for a document the schema refuses. *)
Theorem createResource_known_platform (P : Platform) (body : CreateReq.t) (w : World) :
  isKnownAuthenticPlatform P (CreateReq.url body) = true ->
  let answer := fst (createResource P body w) in
  let w' := snd (createResource P body w) in
  let resource := newResource (Store.freshId (resourceDocs w)) body true in
  let saved := set_resourceDocs (resourceDocs w ++ [resource])%list w in
  verifyCalls w' = verifyCalls w /\
  httpLog w' = httpLog w /\
  (forall sk,
      Store.findSkill (CreateReq.skill body) (skillDocs w) = Some sk ->
      Store.findByUrl (CreateReq.url body) (resourceDocs w) = None ->
      Resource.validate resource = true ->
      resourceDocs w' = (resourceDocs w ++ [resource])%list /\
      Store.findResource (Resource._id resource) (resourceDocs w') = Some resource /\
      Resource.url resource = CreateReq.url body /\
      Resource.verified resource = true /\
      (forall added w2,
          addResource sk (Resource._id resource) saved = (Ok added, w2) ->
          answer = Ok (respond 201 true "Resource created successfully"
                         (DataResource resource))) /\
      (forall e w2,
          addResource sk (Resource._id resource) saved = (Throw e, w2) ->
          status_of answer = Some 500)) /\
  (Store.findSkill (CreateReq.skill body) (skillDocs w) = None ->
   status_of answer = Some 404 /\ w' = w) /\
  (forall sk existing,
      Store.findSkill (CreateReq.skill body) (skillDocs w) = Some sk ->
      Store.findByUrl (CreateReq.url body) (resourceDocs w) = Some existing ->
      status_of answer = Some 400 /\ w' = w) /\
  (forall sk,
      Store.findSkill (CreateReq.skill body) (skillDocs w) = Some sk ->
      Store.findByUrl (CreateReq.url body) (resourceDocs w) = None ->
      Resource.validate resource = false ->
      status_of answer = Some 500 /\ w' = w).
Proof.
  intros Hk answer w' resource saved.
  pose proof (createResource_cases P body w) as H. unfold wp, createOutcome in H.
  fold w' answer in H.
  destruct (Store.findSkill (CreateReq.skill body) (skillDocs w)) as [sk|].
  2: { destruct H as (Ho & Hw). rewrite Hw, Ho.
       split; [reflexivity|]. split; [reflexivity|].
       split; [intros sk' Hs; discriminate Hs|].
       split; [intros _; now split|].
       split; [intros sk' existing Hs; discriminate Hs | intros sk' Hs; discriminate Hs]. }
  destruct (Store.findByUrl (CreateReq.url body) (resourceDocs w)) as [existing|].
  { destruct H as (Ho & Hw). rewrite Hw, Ho.
    split; [reflexivity|]. split; [reflexivity|].
    split; [intros sk' _ Hu; discriminate Hu|].
    split; [intros Hs; discriminate Hs|].
    split; [intros sk' existing' _ _; now split|].
    intros sk' _ Hu. discriminate Hu. }
  destruct H as (v & w1 & Hn & H).
  rewrite (verifyNewUrl_known P _ w Hk) in Hn. injection Hn as <- <-.
  cbv zeta in H. simpl orb in H. fold resource saved in H.
  destruct (Resource.validate resource).
  - destruct H as (Hdocs & Hlog & _ & Hcalls & Hresp).
    split; [exact Hcalls|]. split; [exact Hlog|].
    split.
    + intros sk' Hsk _ _. injection Hsk as <-.
      split; [exact Hdocs|]. split; [|split; [reflexivity|split; [reflexivity|]]].
      * rewrite Hdocs, findResource_app.
        unfold resource at 1. simpl. rewrite freshId_not_found.
        now rewrite Nat.eqb_refl.
      * split.
        -- intros added w2 Ea. rewrite Hresp, Ea. reflexivity.
        -- intros e w2 Ea. rewrite Hresp, Ea. reflexivity.
    + split; [intros Hs; discriminate Hs|].
      split; [intros sk' existing' _ Hu; discriminate Hu|].
      intros sk' _ _ Hv. discriminate Hv.
  - destruct H as (Hw & resp & Ho & Hst). rewrite Hw, Ho.
    split; [reflexivity|]. split; [reflexivity|].
    split; [intros sk' _ _ Hv; discriminate Hv|].
    split; [intros Hs; discriminate Hs|].
    split; [intros sk' existing' _ Hu; discriminate Hu|].
    intros sk' _ _ _. split; [cbn; now rewrite Hst | reflexivity].
Qed.

Lemma createResource_known_platform_witness :
  let answer := fst (createResource offline youtubeCourse oneCourseWorld) in
  let w' := snd (createResource offline youtubeCourse oneCourseWorld) in
  let resource := newResource (Store.freshId (resourceDocs oneCourseWorld)) youtubeCourse true in
  let saved :=
    set_resourceDocs (resourceDocs oneCourseWorld ++ [resource])%list oneCourseWorld in
  verifyCalls w' = verifyCalls oneCourseWorld /\
  httpLog w' = httpLog oneCourseWorld /\
  (forall sk,
      Store.findSkill (CreateReq.skill youtubeCourse) (skillDocs oneCourseWorld) = Some sk ->
      Store.findByUrl (CreateReq.url youtubeCourse) (resourceDocs oneCourseWorld) = None ->
      Resource.validate resource = true ->
      resourceDocs w' = (resourceDocs oneCourseWorld ++ [resource])%list /\
      Store.findResource (Resource._id resource) (resourceDocs w') = Some resource /\
      Resource.url resource = CreateReq.url youtubeCourse /\
      Resource.verified resource = true /\
      (forall added w2,
          addResource sk (Resource._id resource) saved = (Ok added, w2) ->
          answer = Ok (respond 201 true "Resource created successfully"
                         (DataResource resource))) /\
      (forall e w2,
          addResource sk (Resource._id resource) saved = (Throw e, w2) ->
          status_of answer = Some 500)) /\
  (Store.findSkill (CreateReq.skill youtubeCourse) (skillDocs oneCourseWorld) = None ->
   status_of answer = Some 404 /\ w' = oneCourseWorld) /\
  (forall sk existing,
      Store.findSkill (CreateReq.skill youtubeCourse) (skillDocs oneCourseWorld) = Some sk ->
      Store.findByUrl (CreateReq.url youtubeCourse) (resourceDocs oneCourseWorld)
      = Some existing ->
      status_of answer = Some 400 /\ w' = oneCourseWorld) /\
  (forall sk,
      Store.findSkill (CreateReq.skill youtubeCourse) (skillDocs oneCourseWorld) = Some sk ->
      Store.findByUrl (CreateReq.url youtubeCourse) (resourceDocs oneCourseWorld) = None ->
      Resource.validate resource = false ->
      status_of answer = Some 500 /\ w' = oneCourseWorld).
Proof.
  apply (createResource_known_platform offline youtubeCourse oneCourseWorld).
  vm_compute. reflexivity.
Defined.

Example youtube_course_stored_verified :
  let w' := snd (createResource offline youtubeCourse oneCourseWorld) in
  status_of (fst (createResource offline youtubeCourse oneCourseWorld)) = Some 201 /\
  option_map Resource.verified
    (Store.findByUrl "https://www.youtube.com/watch" (resourceDocs w')) = Some true /\
  verifyCalls w' = [] /\ httpLog w' = [].
Proof. vm_compute. repeat split. Qed.

(** C6 as stated fails: the watch URL of the specification's example is
    on the allow-list, the skill exists and the URL is new, but the query
    string does not pass the [url] validator of the schema; [save()]
    rejects the document, the route answers 500 and nothing is
    persisted. *)
Lemma known_platform_url_refused_by_schema_counterexample :
  let body := CreateReq.mk "https://www.youtube.com/watch?v=x" 7 free None None None None in
  isKnownAuthenticPlatform offline (CreateReq.url body) = true /\
  Store.findSkill (CreateReq.skill body) (skillDocs oneCourseWorld) <> None /\
  Store.findByUrl (CreateReq.url body) (resourceDocs oneCourseWorld) = None /\
  Resource.UrlPattern.test (CreateReq.url body) = false /\
  status_of (fst (createResource offline body oneCourseWorld)) = Some 500 /\
  resourceDocs (snd (createResource offline body oneCourseWorld))
  = resourceDocs oneCourseWorld.
Proof. vm_compute. repeat split. discriminate. Qed.

(* ================================================================== *)
(** * Further properties of the URL verifier *)
(* ================================================================== *)

(** A valid result is only ever produced by a response: when [verifyUrl]
    answers [isValid = true], its argument was a non-empty string that
    parsed, exactly one request was issued, and the network answered it
    with a status in the 2xx or 3xx range, which the result carries.
    Errors, timeouts and malformed input never count as valid. *)
Theorem verifyUrl_valid_only_after_response
    (P : Platform) (input : option string) (timeout : Z) (w w' : World)
    (r : VerifyResult) :
  verifyUrl P input timeout w = (Ok r, w') ->
  isValid r = true ->
  exists s u status,
    input = Some s /\ s <> "" /\
    newURL P (urlToCheck s) = Some u /\
    network P (List.length (httpLog w)) (requestOptions P u timeout) = OnResponse status /\
    (200 <= status < 400)%Z /\
    statusCode r = Some status /\
    httpLog w' = (httpLog w ++ [requestOptions P u timeout])%list.
Proof.
  intros Hrun Hvalid.
  destruct input as [s|]; [|vm_compute in Hrun; injection Hrun as <- _; discriminate Hvalid].
  destruct (Js.truthy s) eqn:Hs.
  2: { unfold verifyUrl, bind, modify in Hrun. rewrite Hs in Hrun. simpl in Hrun.
       injection Hrun as <- _. discriminate Hvalid. }
  destruct (newURL P (urlToCheck s)) as [u|] eqn:Hp.
  2: { unfold verifyUrl, bind, modify in Hrun. rewrite Hs, Hp in Hrun. simpl in Hrun.
       injection Hrun as <- _. discriminate Hvalid. }
  destruct (Z.ltb_spec timeout 0) as [Hneg | Ht];
    [rewrite (verifyUrl_rejects P s timeout w u Hneg Hs Hp) in Hrun; discriminate Hrun|].
  rewrite (verifyUrl_parsed P s timeout w u Ht Hs Hp) in Hrun.
  injection Hrun as <- <-.
  destruct (network P (List.length (httpLog w)) (requestOptions P u timeout))
    as [status|code message|] eqn:Hn; simpl in Hvalid; try discriminate Hvalid.
  exists s, u, status. apply truthy_nonempty in Hs.
  apply andb_prop in Hvalid. destruct Hvalid as (Hlo & Hhi).
  apply Z.leb_le in Hlo. apply Z.ltb_lt in Hhi.
  repeat split; auto.
Qed.

Lemma verifyUrl_valid_only_after_response_witness :
  exists s u status,
    Some "example.org/course" = Some s /\ s <> "" /\
    newURL (nodePlatform (always (OnResponse 301)) "production") (urlToCheck s) = Some u /\
    network (nodePlatform (always (OnResponse 301)) "production")
            (List.length (httpLog emptyWorld))
            (requestOptions (nodePlatform (always (OnResponse 301)) "production")
                            u defaultTimeout)
    = OnResponse status /\
    (200 <= status < 400)%Z /\
    statusCode {| isValid := true; statusCode := Some 301%Z; error := None |} = Some status /\
    httpLog (snd (verifyUrl (nodePlatform (always (OnResponse 301)) "production")
                            (Some "example.org/course") defaultTimeout emptyWorld))
    = (httpLog emptyWorld ++
       [requestOptions (nodePlatform (always (OnResponse 301)) "production")
                       u defaultTimeout])%list.
Proof.
  apply (verifyUrl_valid_only_after_response
           (nodePlatform (always (OnResponse 301)) "production")
           (Some "example.org/course") defaultTimeout emptyWorld
           (snd (verifyUrl (nodePlatform (always (OnResponse 301)) "production")
                           (Some "example.org/course") defaultTimeout emptyWorld))).
  - vm_compute. reflexivity.
  - reflexivity.
Defined.

Section StringFacts.

Lemma prefix_append (p s : string) : String.prefix p (p ++ s) = true.
Proof.
  induction p as [|c p IH]; simpl; [now destruct s|].
  destruct (ascii_dec c c) as [_|N]; [exact IH | congruence].
Qed.

Lemma includes_append (a d b : string) : Js.includes (a ++ d ++ b) d = true.
Proof.
  assert (H : forall x, String.prefix d x = true -> Js.includes x d = true)
    by (intros x Hx; destruct x; cbn [Js.includes]; rewrite Hx; reflexivity).
  induction a as [|c a IH].
  - change ("" ++ d ++ b) with (d ++ b). apply H. apply (prefix_append d b).
  - cbn [append Js.includes]. rewrite IH. apply orb_true_r.
Qed.

Lemma toLowerCase_append (a b : string) :
  Js.toLowerCase (a ++ b) = Js.toLowerCase a ++ Js.toLowerCase b.
Proof. induction a as [|c a IH]; simpl; [reflexivity | now rewrite IH]. Qed.

(** The allow-list is written in lower case. *)
Lemma authenticDomains_lower (d : string) :
  List.In d authenticDomains -> Js.toLowerCase d = d.
Proof.
  unfold authenticDomains. simpl.
  intros H. repeat (destruct H as [<- | H]; [reflexivity|]). destruct H.
Qed.

Lemma substring_all (x : string) : String.substring 0 (String.length x) x = x.
Proof. induction x as [|c x IH]; simpl; [reflexivity | now rewrite IH]. Qed.

Lemma replace_leading_www_strips (x : string) :
  Js.replace_leading_www ("www." ++ x) = x.
Proof.
  unfold Js.replace_leading_www, Js.startsWith.
  rewrite (prefix_append "www." x). unfold Js.drop.
  change (String.length ("www." ++ x)) with (4 + String.length x).
  replace (4 + String.length x - 4) with (String.length x) by lia.
  change (String.substring 4 (String.length x) ("www." ++ x))
    with (String.substring 0 (String.length x) x).
  apply substring_all.
Qed.

Lemma prefix_cons (a c : ascii) (x y : string) :
  String.prefix (String a x) (String c y) = true -> a = c /\ String.prefix x y = true.
Proof.
  cbn [String.prefix]. destruct (ascii_dec a c) as [-> | _]; [auto | discriminate].
Qed.

(** No allow-listed domain begins inside a leading "www.": none starts
    with "www.", "ww.", "w." or ".". *)
Lemma domain_not_inside_www (d post x : string) :
  List.In d authenticDomains ->
  List.In x ["www."; "ww."; "w."; "."] ->
  String.prefix x (d ++ post) = false.
Proof.
  unfold authenticDomains. intros Hd Hx. simpl in Hd, Hx.
  repeat (destruct Hd as [<- | Hd];
          [repeat (destruct Hx as [<- | Hx]; [reflexivity|]); destruct Hx|]).
  destruct Hd.
Qed.

(** When a host that contains an allow-listed domain begins with "www.",
    the domain lies behind these four characters. *)
Lemma www_in_front (pre d post : string) :
  List.In d authenticDomains ->
  String.prefix "www." (pre ++ d ++ post) = true ->
  exists pre', pre = "www." ++ pre'.
Proof.
  intros Hd Hp.
  destruct pre as [|c1 [|c2 [|c3 [|c4 pre']]]]; cbn [append] in Hp.
  - rewrite (domain_not_inside_www d post "www." Hd) in Hp by (simpl; auto).
    discriminate Hp.
  - apply prefix_cons in Hp as [_ Hp].
    rewrite (domain_not_inside_www d post "ww." Hd) in Hp by (simpl; auto).
    discriminate Hp.
  - apply prefix_cons in Hp as [_ Hp]. apply prefix_cons in Hp as [_ Hp].
    rewrite (domain_not_inside_www d post "w." Hd) in Hp by (simpl; auto).
    discriminate Hp.
  - apply prefix_cons in Hp as [_ Hp]. apply prefix_cons in Hp as [_ Hp].
    apply prefix_cons in Hp as [_ Hp].
    rewrite (domain_not_inside_www d post "." Hd) in Hp by (simpl; auto).
    discriminate Hp.
  - apply prefix_cons in Hp as [<- Hp]. apply prefix_cons in Hp as [<- Hp].
    apply prefix_cons in Hp as [<- Hp]. apply prefix_cons in Hp as [<- _].
    now exists pre'.
Qed.

End StringFacts.

(** The allow-list test is a substring test on the host name: a URL
    whose host merely contains an allow-listed domain, in any letter
    case and at any position, is taken for a known platform.  The hosts
    "youtube.com.example.net", "notyoutube.com" and "www.notyoutube.com"
    are; stripping a leading "www." never cuts into the domain. *)
Theorem isKnownAuthenticPlatform_substring_match
    (P : Platform) (s : string) (u : URL) (pre d post : string) :
  s <> "" ->
  newURL P s = Some u ->
  List.In d authenticDomains ->
  Js.toLowerCase (hostname u) = pre ++ d ++ post ->
  isKnownAuthenticPlatform P s = true.
Proof.
  intros Hs Hp Hd Hhost. apply truthy_nonempty in Hs.
  unfold isKnownAuthenticPlatform. rewrite Hs, Hp. cbn [negb].
  apply List.existsb_exists. exists d. split; [exact Hd|].
  rewrite Hhost.
  destruct (Js.startsWith (pre ++ d ++ post) "www.") eqn:Hw.
  - destruct (www_in_front pre d post Hd Hw) as (pre' & ->).
    change (("www." ++ pre') ++ d ++ post) with ("www." ++ (pre' ++ d ++ post)).
    rewrite replace_leading_www_strips. apply includes_append.
  - unfold Js.replace_leading_www. rewrite Hw. apply includes_append.
Qed.

Lemma isKnownAuthenticPlatform_substring_match_witness :
  isKnownAuthenticPlatform (nodePlatform (always OnTimeout) "production")
                           "https://www.NotYouTube.com/watch" = true.
Proof.
  apply (isKnownAuthenticPlatform_substring_match
           (nodePlatform (always OnTimeout) "production")
           "https://www.NotYouTube.com/watch"
           (mkURL "https:" "www.notyoutube.com" "" "/watch" "")
           "www.not" "youtube.com" "").
  - discriminate.
  - vm_compute. reflexivity.
  - vm_compute. tauto.
  - vm_compute. reflexivity.
Defined.

(* ================================================================== *)
(** * Further properties of the Resource schema *)
(* ================================================================== *)

Section UrlPatternFacts.
Import Resource.UrlPattern.

Lemma forallb_weaken (p q : ascii -> bool) (s : string) :
  (forall c, p c = true -> q c = true) ->
  Js.forallb p s = true -> Js.forallb q s = true.
Proof.
  intros Hpq. induction s as [|c s IH]; simpl; [reflexivity|].
  intros H. apply andb_prop in H. destruct H as (Hc & Hs).
  now rewrite (Hpq c Hc), (IH Hs).
Qed.

Lemma forallb_append (p : ascii -> bool) (a b : string) :
  Js.forallb p (a ++ b) = Js.forallb p a && Js.forallb p b.
Proof.
  induction a as [|c a IH]; simpl; [reflexivity|].
  now rewrite IH, andb_assoc.
Qed.

Lemma forallb_take_drop (p : ascii -> bool) (u : string) (k : nat) :
  Js.forallb p (String.substring 0 k u) = true ->
  Js.forallb p (Js.drop k u) = true ->
  Js.forallb p u = true.
Proof.
  revert k. induction u as [|c u IH]; intros k Ht Hd; [reflexivity|].
  destruct k as [|k].
  - unfold Js.drop in Hd. rewrite Nat.sub_0_r, substring_all in Hd. exact Hd.
  - simpl in Ht. apply andb_prop in Ht. destruct Ht as (Hc & Ht).
    simpl. rewrite Hc. simpl. apply (IH k Ht). exact Hd.
Qed.

Lemma startsWith_split (p v : string) :
  Js.startsWith v p = true -> v = p ++ Js.drop (String.length p) v.
Proof.
  unfold Js.startsWith. revert v. induction p as [|a p IH]; intros v H.
  - unfold Js.drop. simpl. now rewrite Nat.sub_0_r, substring_all.
  - destruct v as [|b v]; simpl in H; [discriminate H|].
    destruct (ascii_dec a b) as [<-|]; [|discriminate H].
    simpl. f_equal. exact (IH v H).
Qed.

Lemma hostChar_pathChar (c : ascii) : hostChar c = true -> pathChar c = true.
Proof.
  unfold hostChar, pathChar, Js.isAlnum, Js.isAlpha.
  destruct (Js.isDigit c), (Js.isLower c), (Js.isChar c "."), (Js.isChar c "-"),
    (Js.isChar c "/"), (Js.isUpper c), (Js.isChar c "_"), (Js.isChar c " ");
    simpl; congruence.
Qed.

Lemma tldChar_pathChar (c : ascii) : tldChar c = true -> pathChar c = true.
Proof.
  unfold tldChar, pathChar, Js.isAlnum, Js.isAlpha.
  destruct (Js.isDigit c), (Js.isLower c), (Js.isChar c "."), (Js.isChar c "-"),
    (Js.isChar c "/"), (Js.isUpper c), (Js.isChar c "_"), (Js.isChar c " ");
    simpl; congruence.
Qed.

Lemma tldThenPath_chars (u : string) :
  tldThenPath u = true -> Js.forallb pathChar u = true.
Proof.
  unfold tldThenPath. intros H. apply List.existsb_exists in H.
  destruct H as (k & _ & H).
  apply andb_prop in H. destruct H as (H & Hpath).
  apply andb_prop in H. destruct H as (_ & Htld).
  apply (forallb_take_drop pathChar u k); [|exact Hpath].
  exact (forallb_weaken tldChar pathChar _ tldChar_pathChar Htld).
Qed.

Lemma hostThenRest_chars (u : string) (seen : bool) :
  hostThenRest u seen = true -> Js.forallb pathChar u = true.
Proof.
  revert seen. induction u as [|c u IH]; intros seen H; [reflexivity|].
  simpl in H. apply orb_prop in H. destruct H as [H | H].
  - apply andb_prop in H. destruct H as (H & Htail).
    apply andb_prop in H. destruct H as (_ & Hdot).
    simpl. rewrite (tldThenPath_chars u Htail), andb_true_r.
    unfold pathChar. rewrite Hdot. now rewrite !orb_true_r.
  - apply andb_prop in H. destruct H as (Hc & Hrest).
    simpl. now rewrite (hostChar_pathChar c Hc), (IH true Hrest).
Qed.

End UrlPatternFacts.

(** The [url] validator of the Resource schema only accepts strings made
    of letters, digits, "_", " ", ".", "-", "/" and ":".  A URL with a
    query string, a fragment or a percent-escape ("?", "=", "&", "#",
    "%") is rejected. *)
Theorem url_validator_rejects_other_characters (v : string) :
  Js.existsb
    (fun c => negb (Resource.UrlPattern.pathChar c || Js.isChar c ":")) v = true ->
  Resource.UrlPattern.test v = false.
Proof.
  intros Hbad. destruct (Resource.UrlPattern.test v) eqn:Ht; [|reflexivity].
  exfalso.
  assert (Hall : Js.forallb (fun c => Resource.UrlPattern.pathChar c || Js.isChar c ":") v
                 = true).
  { unfold Resource.UrlPattern.test in Ht. apply List.existsb_exists in Ht.
    destruct Ht as (u & Hin & Hu).
    apply hostThenRest_chars in Hu.
    assert (Hu' : Js.forallb
                    (fun c => Resource.UrlPattern.pathChar c || Js.isChar c ":") u = true)
      by (apply (forallb_weaken Resource.UrlPattern.pathChar); [|exact Hu];
          intros c Hc; now rewrite Hc).
    unfold Resource.UrlPattern.withoutScheme in Hin.
    apply List.in_app_or in Hin. destruct Hin as [Hin | Hin].
    - destruct (Js.startsWith v "https://") eqn:Hs; [|destruct Hin].
      destruct Hin as [<- | []].
      rewrite (startsWith_split "https://" v Hs), forallb_append.
      change (String.length "https://") with 8. now rewrite Hu'.
    - apply List.in_app_or in Hin. destruct Hin as [Hin | Hin].
      + destruct (Js.startsWith v "http://") eqn:Hs; [|destruct Hin].
        destruct Hin as [<- | []].
        rewrite (startsWith_split "http://" v Hs), forallb_append.
        change (String.length "http://") with 7. now rewrite Hu'.
      + destruct Hin as [<- | []]. exact Hu'. }
  clear Ht. induction v as [|c v IH]; simpl in *; [discriminate Hbad|].
  apply andb_prop in Hall. destruct Hall as (Hc & Hv).
  rewrite Hc in Hbad. simpl in Hbad. exact (IH Hbad Hv).
Qed.

Lemma url_validator_rejects_other_characters_witness :
  Resource.UrlPattern.test "https://www.coursera.org/learn/ml?specialization=ai" = false.
Proof.
  apply (url_validator_rejects_other_characters
           "https://www.coursera.org/learn/ml?specialization=ai").
  vm_compute. reflexivity.
Defined.

(* ================================================================== *)
(** * Further properties of the admin routes *)
(* ================================================================== *)

Lemma validate_needs_url_pattern (r : Resource.t) :
  Resource.UrlPattern.test (Resource.url r) = false -> Resource.validate r = false.
Proof.
  intros H. unfold Resource.validate. rewrite H.
  now rewrite andb_false_r.
Qed.

(** A creation request whose URL the schema's [url] validator rejects
    never stores anything, allow-listed or not: both collections are left
    as they were, and the answer is 404 (unknown skill), 400 (URL already
    in the catalog) or 500 (the rejected [save()]). *)
Theorem createResource_rejected_url_stores_nothing
    (P : Platform) (body : CreateReq.t) (w : World) :
  Resource.UrlPattern.test (CreateReq.url body) = false ->
  resourceDocs (snd (createResource P body w)) = resourceDocs w /\
  skillDocs (snd (createResource P body w)) = skillDocs w /\
  (status_of (fst (createResource P body w)) = Some 404 \/
   status_of (fst (createResource P body w)) = Some 400 \/
   status_of (fst (createResource P body w)) = Some 500).
Proof.
  intros Hurl.
  pose proof (createResource_cases P body w) as H. unfold wp, createOutcome in H.
  destruct (Store.findSkill (CreateReq.skill body) (skillDocs w)) as [sk|].
  2: { destruct H as (-> & ->). repeat split. now left. }
  destruct (Store.findByUrl (CreateReq.url body) (resourceDocs w)).
  { destruct H as (-> & ->). repeat split. right. now left. }
  destruct H as (v & w1 & Hv & H). cbv zeta in H.
  rewrite validate_needs_url_pattern in H by exact Hurl.
  destruct H as (-> & resp & -> & Hs).
  destruct (verifyNewUrl_total P (CreateReq.url body) w) as (v' & w1' & Hv' & Hd & Hk).
  rewrite Hv in Hv'. injection Hv' as <- <-.
  repeat split; try assumption. right. right. simpl. now rewrite Hs.
Qed.

Lemma createResource_rejected_url_stores_nothing_witness :
  let body := CreateReq.mk "https://www.youtube.com/watch?v=x" 7 free None None None None in
  resourceDocs (snd (createResource offline body oneCourseWorld))
  = resourceDocs oneCourseWorld /\
  skillDocs (snd (createResource offline body oneCourseWorld)) = skillDocs oneCourseWorld /\
  (status_of (fst (createResource offline body oneCourseWorld)) = Some 404 \/
   status_of (fst (createResource offline body oneCourseWorld)) = Some 400 \/
   status_of (fst (createResource offline body oneCourseWorld)) = Some 500).
Proof.
  apply (createResource_rejected_url_stores_nothing offline
           (CreateReq.mk "https://www.youtube.com/watch?v=x" 7 free None None None None)
           oneCourseWorld).
  vm_compute. reflexivity.
Defined.

(** No route lets an exception escape: whatever the store or the network
    does, every route of the model answers with a response. *)
Theorem routes_always_respond (P : Platform) (a : Action) (w : World) :
  exists resp, fst (run P a w) = Ok resp.
Proof.
  assert (H : forall (body : M Response) (message : string),
             exists resp, fst (tryCatch body (serverError P message) w) = Ok resp).
  { intros body message. unfold tryCatch.
    destruct (body w) as [[resp|e] w1]; simpl; eexists; reflexivity. }
  destruct a as [body|id body|id|id|id|id|ids|ids|id].
  7: { rewrite run_BulkVerify. eexists. reflexivity. }
  7: { rewrite run_BulkDelete. eexists. reflexivity. }
  all: to_handler;
    unfold createResource, updateResource, verifyResource, toggleActive, deleteResource,
      restoreResource, postUpdateStatistics;
    apply H.
Qed.

(* ================================================================== *)
(** * Further properties of the skill methods *)
(* ================================================================== *)

Section SkillMethodFacts.

Lemma findSkill_replace_other (id : ObjectId) (doc : Skill.t) (docs : list Skill.t) :
  id <> Skill._id doc ->
  Store.findSkill id (Store.replaceSkill doc docs) = Store.findSkill id docs.
Proof.
  intros Hne. unfold Store.findSkill, Store.replaceSkill.
  induction docs as [|d docs IH]; simpl; [reflexivity|].
  destruct (Skill._id d =? Skill._id doc) eqn:Ed.
  - apply Nat.eqb_eq in Ed.
    assert (E1 : (Skill._id doc =? id) = false) by (apply Nat.eqb_neq; congruence).
    assert (E2 : (Skill._id d =? id) = false) by (apply Nat.eqb_neq; congruence).
    now rewrite E1, E2.
  - destruct (Skill._id d =? id); [reflexivity | exact IH].
Qed.

Lemma updateStatistics_result (this saved : Skill.t) (w w' : World) :
  updateStatistics this w = (Ok saved, w') ->
  saved = Skill.set_statistics
            (assignStatistics (Store.countable (Skill._id this) (resourceDocs w))
                              (Skill.statistics this)) this /\
  w' = set_skillDocs (Store.replaceSkill saved (skillDocs w)) w.
Proof.
  intros H.
  destruct (Skill.validate
              (Skill.set_statistics
                 (assignStatistics (Store.countable (Skill._id this) (resourceDocs w))
                                   (Skill.statistics this)) this)) eqn:Hv.
  - rewrite (updateStatistics_saves this w Hv) in H. injection H as <- <-. now split.
  - rewrite (updateStatistics_rejects this w Hv) in H. discriminate H.
Qed.

Lemma existsb_eqb_In (id : ObjectId) (l : list ObjectId) :
  List.existsb (Nat.eqb id) l = true <-> List.In id l.
Proof.
  rewrite List.existsb_exists. split.
  - intros (x & Hin & Hx). apply Nat.eqb_eq in Hx. now subst.
  - intros Hin. exists id. split; [exact Hin | apply Nat.eqb_refl].
Qed.

Lemma filter_out_In (id x : ObjectId) (l : list ObjectId) :
  List.In x (List.filter (fun y => negb (y =? id)) l) <-> List.In x l /\ x <> id.
Proof.
  rewrite List.filter_In. split; intros (Hin & H); split; try exact Hin.
  - apply negb_true_iff, Nat.eqb_neq in H. exact H.
  - apply negb_true_iff, Nat.eqb_neq. exact H.
Qed.

Lemma filter_out_append (id : ObjectId) (l : list ObjectId) :
  ~ List.In id l ->
  List.filter (fun y => negb (y =? id)) (l ++ [id]) = l.
Proof.
  intros Hn. rewrite List.filter_app. simpl. rewrite Nat.eqb_refl. simpl.
  rewrite List.app_nil_r. induction l as [|x l IH]; simpl; [reflexivity|].
  destruct (x =? id) eqn:E.
  - apply Nat.eqb_eq in E. subst. exfalso. apply Hn. now left.
  - simpl. f_equal. apply IH. intros H. apply Hn. now right.
Qed.

End SkillMethodFacts.

(** [addResource] keeps the membership list free of duplicates: an id
    already listed changes nothing (no save, no statistics refresh);
    otherwise the id is appended once, the members already there stay,
    and the stored skill document is the one answered. *)
Theorem addResource_membership
    (this saved : Skill.t) (id : ObjectId) (w w' : World) :
  addResource this id w = (Ok saved, w') ->
  List.In id (Skill.resources saved) /\
  (forall x, List.In x (Skill.resources saved) <->
             List.In x (Skill.resources this) \/ x = id) /\
  (List.NoDup (Skill.resources this) -> List.NoDup (Skill.resources saved)) /\
  (List.In id (Skill.resources this) -> saved = this /\ w' = w) /\
  (~ List.In id (Skill.resources this) ->
   Skill.resources saved = (Skill.resources this ++ [id])%list /\
   (Store.findSkill (Skill._id this) (skillDocs w) <> None ->
    Store.findSkill (Skill._id this) (skillDocs w') = Some saved)).
Proof.
  unfold addResource. intros H.
  destruct (List.existsb (Nat.eqb id) (Skill.resources this)) eqn:E; simpl in H.
  - injection H as <- <-. apply existsb_eqb_In in E.
    split; [exact E|]. split; [|split; [auto|split; [auto|]]].
    + intros x. split; [now left | intros [Hx | ->]; assumption].
    + intros Hn. contradiction.
  - assert (Hn : ~ List.In id (Skill.resources this))
      by (intros Hin; apply existsb_eqb_In in Hin; congruence).
    unfold bind, Skill_save in H.
    destruct (Skill.validate
                (Skill.set_resources (Skill.resources this ++ [id])%list this));
      [|discriminate H].
    apply updateStatistics_result in H. destruct H as (-> & ->). simpl.
    split; [apply List.in_or_app; right; now left|].
    split; [|split; [|split]].
    + intros x. split.
      * intros Hx. apply List.in_app_or in Hx. destruct Hx as [Hx | [<- | []]]; auto.
      * intros [Hx | ->]; apply List.in_or_app; [now left | right; now left].
    + intros Hnd. apply List.NoDup_app; [exact Hnd | repeat constructor; auto |].
      intros a Ha [<- | []]. contradiction.
    + intros Hin. contradiction.
    + intros _. split; [reflexivity|]. intros Hstored.
      match goal with
      | |- Store.findSkill _ (Store.replaceSkill ?doc _) = _ =>
          apply (findSkill_replace doc)
      end.
      simpl.
      rewrite (findSkill_replace
                 (Skill.set_resources (Skill.resources this ++ [id])%list this))
        by exact Hstored.
      discriminate.
Qed.

Lemma addResource_membership_witness :
  let this := freshSkill 7 [1; 2] in
  let saved := Skill.mk 7 [1; 2; 3] (mkStatistics 5 5 0 4 1000 140) true None in
  let w' := snd (addResource this 3 fiveCoursesWorld) in
  List.In 3 (Skill.resources saved) /\
  (forall x, List.In x (Skill.resources saved) <->
             List.In x (Skill.resources this) \/ x = 3) /\
  (List.NoDup (Skill.resources this) -> List.NoDup (Skill.resources saved)) /\
  (List.In 3 (Skill.resources this) -> saved = this /\ w' = fiveCoursesWorld) /\
  (~ List.In 3 (Skill.resources this) ->
   Skill.resources saved = (Skill.resources this ++ [3])%list /\
   (Store.findSkill (Skill._id this) (skillDocs fiveCoursesWorld) <> None ->
    Store.findSkill (Skill._id this) (skillDocs w') = Some saved)).
Proof.
  apply (addResource_membership (freshSkill 7 [1; 2])
           (Skill.mk 7 [1; 2; 3] (mkStatistics 5 5 0 4 1000 140) true None)
           3 fiveCoursesWorld
           (snd (addResource (freshSkill 7 [1; 2]) 3 fiveCoursesWorld))).
  vm_compute. reflexivity.
Defined.

Lemma removeResource_result (this saved : Skill.t) (id : ObjectId) (w w' : World) :
  removeResource this id w = (Ok saved, w') ->
  let this1 :=
    Skill.set_resources
      (List.filter (fun x => negb (x =? id)) (Skill.resources this)) this in
  saved = Skill.set_statistics
            (assignStatistics (Store.countable (Skill._id this) (resourceDocs w))
                              (Skill.statistics this)) this1 /\
  w' = set_skillDocs
         (Store.replaceSkill saved (Store.replaceSkill this1 (skillDocs w))) w.
Proof.
  unfold removeResource, bind, Skill_save. intros H.
  destruct (Skill.validate
              (Skill.set_resources
                 (List.filter (fun x => negb (x =? id)) (Skill.resources this)) this));
    [|discriminate H].
  apply updateStatistics_result in H. destruct H as (E & ->). simpl in *.
  split; [exact E | reflexivity].
Qed.

(** [removeResource] removes every occurrence of the id from the
    membership list and nothing else: the other members stay, in their
    order, and the stored skill document is the one answered. *)
Theorem removeResource_membership
    (this saved : Skill.t) (id : ObjectId) (w w' : World) :
  removeResource this id w = (Ok saved, w') ->
  ~ List.In id (Skill.resources saved) /\
  (forall x, List.In x (Skill.resources saved) <->
             List.In x (Skill.resources this) /\ x <> id) /\
  Skill.resources saved
  = List.filter (fun x => negb (x =? id)) (Skill.resources this) /\
  (List.NoDup (Skill.resources this) -> List.NoDup (Skill.resources saved)) /\
  (Store.findSkill (Skill._id this) (skillDocs w) <> None ->
   Store.findSkill (Skill._id this) (skillDocs w') = Some saved).
Proof.
  intros H. apply removeResource_result in H. cbv zeta in H.
  destruct H as (-> & ->). simpl.
  split; [intros Hin; apply filter_out_In in Hin; destruct Hin as (_ & Hne); congruence|].
  split; [intros x; apply filter_out_In|].
  split; [reflexivity|].
  split; [apply List.NoDup_filter|].
  intros Hstored.
  match goal with
  | |- Store.findSkill _ (Store.replaceSkill ?doc _) = _ =>
      apply (findSkill_replace doc)
  end.
  simpl.
  rewrite (findSkill_replace
             (Skill.set_resources
                (List.filter (fun x => negb (x =? id)) (Skill.resources this)) this))
    by exact Hstored.
  discriminate.
Qed.

Lemma removeResource_membership_witness :
  let this := freshSkill 7 [1; 2; 1; 3] in
  let saved := Skill.mk 7 [2; 3] (mkStatistics 5 5 0 4 1000 140) true None in
  let w' := snd (removeResource this 1 fiveCoursesWorld) in
  ~ List.In 1 (Skill.resources saved) /\
  (forall x, List.In x (Skill.resources saved) <->
             List.In x (Skill.resources this) /\ x <> 1) /\
  Skill.resources saved
  = List.filter (fun x => negb (x =? 1)) (Skill.resources this) /\
  (List.NoDup (Skill.resources this) -> List.NoDup (Skill.resources saved)) /\
  (Store.findSkill (Skill._id this) (skillDocs fiveCoursesWorld) <> None ->
   Store.findSkill (Skill._id this) (skillDocs w') = Some saved).
Proof.
  apply (removeResource_membership (freshSkill 7 [1; 2; 1; 3])
           (Skill.mk 7 [2; 3] (mkStatistics 5 5 0 4 1000 140) true None)
           1 fiveCoursesWorld
           (snd (removeResource (freshSkill 7 [1; 2; 1; 3]) 1 fiveCoursesWorld))).
  vm_compute. reflexivity.
Defined.

(** Removing a resource right after adding it gives back the membership
    list the skill had, when the id was not listed before; the document
    answered is the original one with refreshed statistics. *)
Theorem removeResource_undoes_addResource
    (this added removed : Skill.t) (id : ObjectId) (w w1 w2 : World) :
  ~ List.In id (Skill.resources this) ->
  addResource this id w = (Ok added, w1) ->
  removeResource added id w1 = (Ok removed, w2) ->
  Skill.resources removed = Skill.resources this /\
  removed = Skill.set_statistics
              (assignStatistics (Store.countable (Skill._id this) (resourceDocs w))
                                (Skill.statistics this)) this.
Proof.
  intros Hn Hadd Hrem.
  pose proof (skillOnly_addResource this id w) as Hframe.
  rewrite Hadd in Hframe. destruct Hframe as (Hdocs & _). simpl in Hdocs.
  unfold addResource in Hadd.
  assert (E : List.existsb (Nat.eqb id) (Skill.resources this) = false).
  { destruct (List.existsb (Nat.eqb id) (Skill.resources this)) eqn:E; [|reflexivity].
    apply existsb_eqb_In in E. contradiction. }
  rewrite E in Hadd. simpl in Hadd. unfold bind, Skill_save in Hadd.
  destruct (Skill.validate
              (Skill.set_resources (Skill.resources this ++ [id])%list this));
    [|discriminate Hadd].
  apply updateStatistics_result in Hadd. destruct Hadd as (-> & Hw1).
  apply removeResource_result in Hrem. cbv zeta in Hrem. destruct Hrem as (-> & _).
  simpl. rewrite Hdocs. simpl. rewrite filter_out_append by exact Hn.
  rewrite assignStatistics_idem. split; [reflexivity|].
  destruct this; reflexivity.
Qed.

Lemma removeResource_undoes_addResource_witness :
  let this := freshSkill 7 [1; 2] in
  let removed := Skill.mk 7 [1; 2] (mkStatistics 5 5 0 4 1000 140) true None in
  Skill.resources removed = Skill.resources this /\
  removed = Skill.set_statistics
              (assignStatistics
                 (Store.countable (Skill._id this) (resourceDocs fiveCoursesWorld))
                 (Skill.statistics this)) this.
Proof.
  apply (removeResource_undoes_addResource (freshSkill 7 [1; 2])
           (Skill.mk 7 [1; 2; 3] (mkStatistics 5 5 0 4 1000 140) true None)
           (Skill.mk 7 [1; 2] (mkStatistics 5 5 0 4 1000 140) true None)
           3 fiveCoursesWorld
           (snd (addResource (freshSkill 7 [1; 2]) 3 fiveCoursesWorld))
           (snd (removeResource
                   (Skill.mk 7 [1; 2; 3] (mkStatistics 5 5 0 4 1000 140) true None) 3
                   (snd (addResource (freshSkill 7 [1; 2]) 3 fiveCoursesWorld))))).
  - vm_compute. intros [H | [H | []]]; discriminate H.
  - vm_compute. reflexivity.
  - vm_compute. reflexivity.
Defined.




(** [updateStatistics] writes to one skill document only: whatever its
    outcome, no resource document changes, no request is issued, and
    every skill with another id is stored exactly as before. *)
Theorem updateStatistics_touches_one_skill (this : Skill.t) (w : World) :
  let w' := snd (updateStatistics this w) in
  resourceDocs w' = resourceDocs w /\
  httpLog w' = httpLog w /\
  verifyCalls w' = verifyCalls w /\
  forall id, id <> Skill._id this ->
             Store.findSkill id (skillDocs w') = Store.findSkill id (skillDocs w).
Proof.
  cbv zeta.
  destruct (skillOnly_updateStatistics this w) as (Hd & Hl & _ & _ & Hc).
  split; [exact Hd|]. split; [exact Hl|]. split; [exact Hc|].
  intros id Hne.
  destruct (updateStatistics this w) as [[saved|e] w'] eqn:E; simpl.
  - apply updateStatistics_result in E. destruct E as (Hs & ->). simpl.
    apply findSkill_replace_other. rewrite Hs. exact Hne.
  - destruct (Skill.validate
                (Skill.set_statistics
                   (assignStatistics (Store.countable (Skill._id this) (resourceDocs w))
                                     (Skill.statistics this)) this)) eqn:Hv.
    + rewrite (updateStatistics_saves this w Hv) in E. discriminate E.
    + rewrite (updateStatistics_rejects this w Hv) in E. now injection E as _ <-.
Qed.

(* ================================================================== *)
(** * What every route does to the resource collection *)
(* ================================================================== *)

(** A relation between worlds that holds across saving a loaded
    document back, inserting a document under a new id, and rewriting
    documents in place holds across every route. *)
Section StructuralRoutes.

Variable P : Platform.
Variable R : World -> World -> Prop.

Hypothesis R_refl : forall w, R w w.
Hypothesis R_trans : forall w1 w2 w3, R w1 w2 -> R w2 w3 -> R w1 w3.
Hypothesis R_docs :
  forall w w1 w2, resourceDocs w2 = resourceDocs w1 -> R w w1 -> R w w2.
Hypothesis R_replace :
  forall w old doc,
    Store.findResource (Resource._id doc) (resourceDocs w) = Some old ->
    R w (set_resourceDocs (Store.replaceResource doc (resourceDocs w)) w).
Hypothesis R_append :
  forall w doc,
    Store.findResource (Resource._id doc) (resourceDocs w) = None ->
    R w (set_resourceDocs (resourceDocs w ++ [doc])%list w).
Hypothesis R_map :
  forall w f,
    (forall d, Resource._id (f d) = Resource._id d) ->
    R w (set_resourceDocs (List.map f (resourceDocs w)) w).

Lemma structural_same_docs (w w1 : World) :
  resourceDocs w1 = resourceDocs w -> R w w1.
Proof. intros H. exact (R_docs w w w1 H (R_refl w)). Qed.

Lemma structural_save_tail (w0 w : World) (old doc : Resource.t)
    (tail : M Response) (message : string) :
  R w0 w ->
  Store.findResource (Resource._id doc) (resourceDocs w) = Some old ->
  skillOnly tail ->
  wp (bind (Resource_save doc) (fun _ => tail))
     (fun o w1 => match o with
                  | Ok _ => R w0 w1
                  | Throw e => wp (serverError P message e) (fun _ w2 => R w0 w2) w1
                  end) w.
Proof.
  intros K Hold Ht. apply wp_bind.
  apply (wp_save_loaded old); [exact Hold | |].
  - apply (wp_skill_tail P tail message (R w0)); [exact Ht|].
    intros w1 Hd. apply (R_trans w0 w); [exact K|].
    apply (R_docs w _ w1 Hd). now apply (R_replace w old).
  - intros e. apply wp_serverError. intros _. exact K.
Qed.

Lemma structural_toggleActive (id : ObjectId) (w : World) :
  R w (snd (toggleActive P id w)).
Proof.
  change (wp (toggleActive P id) (fun _ w1 => R w w1) w).
  unfold toggleActive. apply wp_tryCatch, wp_bind.
  unfold wp at 1, Resource_findById; simpl.
  destruct (Store.findResource id (resourceDocs w)) as [r|] eqn:F; [|apply R_refl].
  pose proof (findResource_id _ _ _ F) as Hid.
  apply (structural_save_tail w w r);
    [apply R_refl | simpl; now rewrite Hid | skill_only].
Qed.

Lemma structural_deleteResource (id : ObjectId) (w : World) :
  R w (snd (deleteResource P id w)).
Proof.
  change (wp (deleteResource P id) (fun _ w1 => R w w1) w).
  unfold deleteResource. apply wp_tryCatch, wp_bind.
  unfold wp at 1, Resource_findById; simpl.
  destruct (Store.findResource id (resourceDocs w)) as [r|] eqn:F; [|apply R_refl].
  pose proof (findResource_id _ _ _ F) as Hid.
  apply wp_bind. unfold wp at 1, newDate; simpl.
  apply (structural_save_tail w w r);
    [apply R_refl | simpl; now rewrite Hid | skill_only].
Qed.

Lemma structural_restoreResource (id : ObjectId) (w : World) :
  R w (snd (restoreResource P id w)).
Proof.
  change (wp (restoreResource P id) (fun _ w1 => R w w1) w).
  unfold restoreResource. apply wp_tryCatch, wp_bind.
  unfold wp at 1, Resource_findById; simpl.
  destruct (Store.findResource id (resourceDocs w)) as [r|] eqn:F; [|apply R_refl].
  pose proof (findResource_id _ _ _ F) as Hid.
  apply (structural_save_tail w w r);
    [apply R_refl | simpl; now rewrite Hid | skill_only].
Qed.

Lemma structural_bulkVerify (ids : list ObjectId) (w : World) :
  R w (snd (bulkVerify P ids w)).
Proof.
  change (wp (bulkVerify P ids) (fun _ w1 => R w w1) w).
  unfold bulkVerify. apply wp_tryCatch, wp_bind.
  unfold wp at 1, Resource_updateMany_in; simpl. apply wp_ret.
  apply R_map. intros d.
  destruct (List.existsb (Nat.eqb (Resource._id d)) ids); reflexivity.
Qed.

Lemma structural_bulkDelete (ids : list ObjectId) (w : World) :
  R w (snd (bulkDelete P ids w)).
Proof.
  change (wp (bulkDelete P ids) (fun _ w1 => R w w1) w).
  unfold bulkDelete. apply wp_tryCatch, wp_bind.
  unfold wp at 1, newDate; simpl. apply wp_bind.
  unfold wp at 1, Resource_updateMany_in; simpl. apply wp_bind.
  unfold wp at 1, Resource_find_in; simpl.
  match goal with
  | |- wp _ _ ?w1 => assert (K : R w w1)
  end.
  { apply R_map. intros d.
    destruct (List.existsb (Nat.eqb (Resource._id d)) ids); reflexivity. }
  apply (wp_skill_tail P _ _ (R w)); [skill_only|].
  intros w2 Hd. exact (R_docs w _ w2 Hd K).
Qed.

Lemma structural_postUpdateStatistics (id : ObjectId) (w : World) :
  R w (snd (postUpdateStatistics P id w)).
Proof.
  change (wp (postUpdateStatistics P id) (fun _ w1 => R w w1) w).
  unfold postUpdateStatistics. apply wp_tryCatch.
  apply (wp_skill_tail P _ _ (R w)); [skill_only|].
  intros w1 Hd. now apply structural_same_docs.
Qed.

Lemma structural_createResource (body : CreateReq.t) (w : World) :
  R w (snd (createResource P body w)).
Proof.
  pose proof (createResource_cases P body w) as H. unfold wp, createOutcome in H.
  destruct (Store.findSkill (CreateReq.skill body) (skillDocs w));
    [|destruct H as (_ & ->); apply R_refl].
  destruct (Store.findByUrl (CreateReq.url body) (resourceDocs w));
    [destruct H as (_ & ->); apply R_refl|].
  destruct H as (v & w1 & Hv & H). cbv zeta in H.
  destruct (verifyNewUrl_total P (CreateReq.url body) w) as (v' & w1' & Hv' & Hd & _).
  rewrite Hv in Hv'. injection Hv' as <- <-.
  destruct (Resource.validate _).
  - destruct H as (Hdocs & _).
    eapply (R_docs w (set_resourceDocs _ w)); [exact Hdocs|].
    apply R_append. apply freshId_not_found.
  - destruct H as (-> & _). now apply structural_same_docs.
Qed.

Lemma structural_verifyResource (id : ObjectId) (w : World) :
  R w (snd (verifyResource P id w)).
Proof.
  change (wp (verifyResource P id) (fun _ w1 => R w w1) w).
  unfold verifyResource. apply wp_tryCatch, wp_bind.
  unfold wp at 1, Resource_findById; simpl.
  destruct (Store.findResource id (resourceDocs w)) as [r|] eqn:F; [|apply R_refl].
  pose proof (findResource_id _ _ _ F) as Hid.
  apply wp_bind. unfold wp at 1.
  assert (Hcases : exists ve w1, verifyStoredUrl P (Resource.url r) w = (Ok ve, w1) /\
                                 resourceDocs w1 = resourceDocs w).
  { destruct (verifyStoredUrl_cases P (Resource.url r) w)
      as [(_ & E) | (_ & vr & w1 & _ & (Hd & _) & E)];
      rewrite E; eexists _, _; split; try reflexivity. exact Hd. }
  destruct Hcases as ([verified verificationError] & w1 & E & Hd). rewrite E. simpl.
  assert (K : R w w1) by now apply structural_same_docs.
  apply wp_bind. apply (wp_save_loaded r); [simpl; now rewrite Hd, Hid | |].
  - assert (K2 : R w (set_resourceDocs
                        (Store.replaceResource (Resource.set_verified verified r)
                                               (resourceDocs w1)) w1)).
    { apply (R_trans w w1); [exact K|].
      apply (R_replace w1 r). simpl. now rewrite Hd, Hid. }
    destruct verified; apply wp_ret; exact K2.
  - intros e. apply wp_serverError. intros _. exact K.
Qed.

Lemma structural_updateResource (id : ObjectId) (body : UpdateReq.t) (w : World) :
  R w (snd (updateResource P id body w)).
Proof.
  change (wp (updateResource P id body) (fun _ w1 => R w w1) w).
  unfold updateResource. apply wp_tryCatch, wp_bind.
  unfold wp at 1, Resource_findById; simpl.
  destruct (Store.findResource id (resourceDocs w)) as [old|] eqn:F; [|apply R_refl].
  pose proof (findResource_id _ _ _ F) as Hid.
  destruct (update_body_cases P old body w) as (body' & w1 & E & (Hd & Hs) & _).
  apply wp_bind. unfold wp at 1. rewrite E. simpl.
  apply wp_bind. apply wp_skillOnly; [apply skillOnly_moveToSkill|].
  intros o w2 (Hd2 & _).
  assert (K2 : R w w2) by (apply structural_same_docs; congruence).
  destruct o as [[response|]|e].
  - apply wp_ret. exact K2.
  - apply wp_bind. unfold wp at 1, Resource_findByIdAndUpdate.
    destruct (UpdateReq.validate body'); simpl.
    + rewrite Hd2, Hd, F. simpl.
      apply (wp_skill_tail P _ _ (R w)); [skill_only|].
      intros w3 Hd3. simpl in Hd3.
      apply (R_docs w (set_resourceDocs
                         (Store.replaceResource (UpdateReq.apply body' old)
                                                (resourceDocs w)) w) w3 Hd3).
      apply (R_replace w old). simpl. now rewrite Hid.
    + apply wp_serverError. intros _. exact K2.
  - apply wp_serverError. intros _. exact K2.
Qed.

Lemma structural_run (a : Action) (w : World) : R w (snd (run P a w)).
Proof.
  destruct a as [body|id body|id|id|id|id|ids|ids|id].
  7: { rewrite run_BulkVerify. apply R_refl. }
  7: { rewrite run_BulkDelete. apply R_refl. }
  all: to_handler;
    auto using structural_createResource, structural_updateResource,
      structural_verifyResource, structural_toggleActive, structural_deleteResource,
      structural_restoreResource, structural_postUpdateStatistics.
Qed.

End StructuralRoutes.

Section StoredIds.

Lemma findResource_None_not_In (id : ObjectId) (docs : list Resource.t) :
  Store.findResource id docs = None -> ~ List.In id (List.map Resource._id docs).
Proof.
  unfold Store.findResource. intros H Hin. apply List.in_map_iff in Hin.
  destruct Hin as (d & Hid & Hd).
  apply (List.find_none _ _ H) in Hd. apply Nat.eqb_neq in Hd. congruence.
Qed.

Lemma replaceResource_ids (doc : Resource.t) (docs : list Resource.t) :
  List.map Resource._id (Store.replaceResource doc docs) = List.map Resource._id docs.
Proof.
  unfold Store.replaceResource. rewrite List.map_map. apply List.map_ext.
  intros d. destruct (Resource._id d =? Resource._id doc) eqn:E; [|reflexivity].
  apply Nat.eqb_eq in E. congruence.
Qed.

Lemma idsExtend_same (w w' : World) : storedIds w' = storedIds w -> idsExtend w w'.
Proof.
  intros H. exists []. rewrite List.app_nil_r.
  split; [exact H|]. split; [constructor | intros id []].
Qed.

Lemma idsExtend_refl (w : World) : idsExtend w w.
Proof. now apply idsExtend_same. Qed.

Lemma idsExtend_trans (w1 w2 w3 : World) :
  idsExtend w1 w2 -> idsExtend w2 w3 -> idsExtend w1 w3.
Proof.
  intros (e1 & H1 & N1 & F1) (e2 & H2 & N2 & F2).
  exists (e1 ++ e2)%list. split; [now rewrite H2, H1, List.app_assoc|].
  split.
  - apply List.NoDup_app; [exact N1 | exact N2 |].
    intros a Ha1 Ha2. apply (F2 a Ha2). rewrite H1. apply List.in_or_app. now right.
  - intros id Hin Hw. apply List.in_app_or in Hin. destruct Hin as [Hin | Hin].
    + exact (F1 id Hin Hw).
    + apply (F2 id Hin). rewrite H1. apply List.in_or_app. now left.
Qed.

Lemma idsExtend_docs (w w1 w2 : World) :
  resourceDocs w2 = resourceDocs w1 -> idsExtend w w1 -> idsExtend w w2.
Proof.
  intros Hd (e & H & N & F). exists e. unfold storedIds in *. rewrite Hd. auto.
Qed.

Lemma idsExtend_NoDup (w w' : World) :
  idsExtend w w' -> List.NoDup (storedIds w) -> List.NoDup (storedIds w').
Proof.
  intros (e & H & N & F) Hnd. rewrite H.
  apply List.NoDup_app; [exact Hnd | exact N |].
  intros a Ha He. exact (F a He Ha).
Qed.

Lemma idsExtend_run (P : Platform) (a : Action) (w : World) :
  idsExtend w (snd (run P a w)).
Proof.
  apply (structural_run P idsExtend idsExtend_refl idsExtend_trans idsExtend_docs).
  - intros w0 old doc _. apply idsExtend_same. unfold storedIds. simpl.
    apply replaceResource_ids.
  - intros w0 doc Hnew. exists [Resource._id doc]. unfold storedIds. simpl.
    rewrite List.map_app. split; [reflexivity|].
    split; [repeat constructor; auto|].
    intros id [<- | []]. now apply findResource_None_not_In.
Qed.

End StoredIds.

(** Resources are never physically removed, re-identified or
    reordered: after any sequence of requests to the routes, the stored
    ids are the previous ones in the same order, followed by the ids of
    newly created resources; and if the ids were pairwise distinct they
    still are. *)
Theorem routes_never_remove_resources
    (P : Platform) (actions : list Action) (w : World) :
  (exists created,
      storedIds (runAll P actions w) = (storedIds w ++ created)%list) /\
  (List.NoDup (storedIds w) -> List.NoDup (storedIds (runAll P actions w))).
Proof.
  assert (H : idsExtend w (runAll P actions w)).
  { revert w. induction actions as [|a rest IH]; intros w; simpl.
    - apply idsExtend_refl.
    - apply (idsExtend_trans w (snd (run P a w))); [apply idsExtend_run | apply IH]. }
  split; [|now apply idsExtend_NoDup].
  destruct H as (e & He & _). now exists e.
Qed.

Lemma routes_never_remove_resources_witness :
  List.NoDup (storedIds (runAll offline
                           [Create youtubeCourse; Delete 1; Update 2 moveToUnreachable]
                           oneCourseWorld)).
Proof.
  apply (proj2 (routes_never_remove_resources offline
                  [Create youtubeCourse; Delete 1; Update 2 moveToUnreachable]
                  oneCourseWorld)).
  vm_compute. repeat constructor; simpl; intuition discriminate.
Defined.

(* ================================================================== *)
(** * Soft delete, restore and toggle *)
(* ================================================================== *)

Section SaveRoutes.

Variable P : Platform.

(** Validation does not look at the activity flags. *)
Lemma validate_flags (r : Resource.t) (a : bool) (d : option Date) :
  Resource.validate (Resource.set_deletedAt d (Resource.set_isActive a r))
  = Resource.validate r.
Proof. reflexivity. Qed.

Lemma findResource_replace_back (id : ObjectId) (r r' : Resource.t)
    (docs : list Resource.t) :
  Store.findResource (Resource._id r) docs = Some r ->
  Resource._id r' = Resource._id r ->
  Store.findResource id (Store.replaceResource r (Store.replaceResource r' docs))
  = Store.findResource id docs.
Proof.
  intros Hr Hid. rewrite !findResource_replace, Hid.
  destruct (id =? Resource._id r) eqn:E; [|reflexivity].
  apply Nat.eqb_eq in E. subst id. now rewrite Hr.
Qed.

(** A valid loaded document saved back, followed by skill work only:
    the resource collection ends as the save left it. *)
Lemma wp_save_tail_docs (w : World) (old doc : Resource.t)
    (tail : M Response) (message : string) :
  Store.findResource (Resource._id doc) (resourceDocs w) = Some old ->
  Resource.validate doc = true ->
  skillOnly tail ->
  wp (bind (Resource_save doc) (fun _ => tail))
     (fun o w1 =>
        match o with
        | Ok _ => resourceDocs w1 = Store.replaceResource doc (resourceDocs w)
        | Throw e =>
            wp (serverError P message e)
               (fun _ w2 => resourceDocs w2 = Store.replaceResource doc (resourceDocs w))
               w1
        end) w.
Proof.
  intros Hold Hval Ht. apply wp_bind.
  unfold wp at 1, Resource_save. rewrite Hval, Hold. simpl.
  apply (wp_skill_tail P tail message
           (fun w1 => resourceDocs w1 = Store.replaceResource doc (resourceDocs w)));
    [exact Ht|].
  intros w1 Hd. exact Hd.
Qed.

Lemma toggleActive_docs (id : ObjectId) (w : World) (r : Resource.t) :
  Store.findResource id (resourceDocs w) = Some r ->
  Resource.validate r = true ->
  resourceDocs (snd (toggleActive P id w))
  = Store.replaceResource (Resource.set_isActive (negb (Resource.isActive r)) r)
                          (resourceDocs w).
Proof.
  intros F Hv. pose proof (findResource_id _ _ _ F) as Hid.
  change (wp (toggleActive P id)
            (fun _ w1 => resourceDocs w1
                         = Store.replaceResource
                             (Resource.set_isActive (negb (Resource.isActive r)) r)
                             (resourceDocs w)) w).
  unfold toggleActive. apply wp_tryCatch, wp_bind.
  unfold wp at 1, Resource_findById; simpl. rewrite F.
  apply (wp_save_tail_docs w r); [simpl; now rewrite Hid | exact Hv | skill_only].
Qed.

Lemma deleteResource_docs (id : ObjectId) (w : World) (r : Resource.t) :
  Store.findResource id (resourceDocs w) = Some r ->
  Resource.validate r = true ->
  resourceDocs (snd (deleteResource P id w))
  = Store.replaceResource
      (Resource.set_deletedAt (Some (clock w)) (Resource.set_isActive false r))
      (resourceDocs w).
Proof.
  intros F Hv. pose proof (findResource_id _ _ _ F) as Hid.
  change (wp (deleteResource P id)
            (fun _ w1 => resourceDocs w1
                         = Store.replaceResource
                             (Resource.set_deletedAt (Some (clock w))
                                (Resource.set_isActive false r))
                             (resourceDocs w)) w).
  unfold deleteResource. apply wp_tryCatch, wp_bind.
  unfold wp at 1, Resource_findById; simpl. rewrite F.
  apply wp_bind. unfold wp at 1, newDate; simpl.
  apply (wp_save_tail_docs w r); [simpl; now rewrite Hid | exact Hv | skill_only].
Qed.

Lemma restoreResource_docs (id : ObjectId) (w : World) (r : Resource.t) :
  Store.findResource id (resourceDocs w) = Some r ->
  Resource.validate r = true ->
  resourceDocs (snd (restoreResource P id w))
  = Store.replaceResource
      (Resource.set_deletedAt None (Resource.set_isActive true r))
      (resourceDocs w).
Proof.
  intros F Hv. pose proof (findResource_id _ _ _ F) as Hid.
  change (wp (restoreResource P id)
            (fun _ w1 => resourceDocs w1
                         = Store.replaceResource
                             (Resource.set_deletedAt None (Resource.set_isActive true r))
                             (resourceDocs w)) w).
  unfold restoreResource. apply wp_tryCatch, wp_bind.
  unfold wp at 1, Resource_findById; simpl. rewrite F.
  apply (wp_save_tail_docs w r); [simpl; now rewrite Hid | exact Hv | skill_only].
Qed.

End SaveRoutes.

(** [DELETE /resources/:id] is a soft delete: the document stays in the
    store with [isActive = false] and [deletedAt] set to the current
    time, every other field (the [verified] flag included) and every
    other resource are as before, and no document with that id is counted
    by a statistics refresh any more. *)
Theorem deleteResource_soft_deletes
    (P : Platform) (id : ObjectId) (w : World) (r : Resource.t) :
  Store.findResource id (resourceDocs w) = Some r ->
  Resource.validate r = true ->
  let w' := snd (deleteResource P id w) in
  Store.findResource id (resourceDocs w')
  = Some (Resource.mk id (Resource.url r) (Resource.learningType r) (Resource.skill r)
            (Resource.verified r) (Resource.rating r) (Resource.enrollmentCount r)
            false (Some (clock w))) /\
  (forall id', id' <> id ->
               Store.findResource id' (resourceDocs w')
               = Store.findResource id' (resourceDocs w)) /\
  (forall skillId d, List.In d (Store.countable skillId (resourceDocs w')) ->
                     Resource._id d <> id).
Proof.
  intros F Hv w'. pose proof (findResource_id _ _ _ F) as Hid.
  unfold w'. rewrite (deleteResource_docs P id w r F Hv).
  split; [|split].
  - rewrite findResource_replace. simpl. rewrite Hid, Nat.eqb_refl, F.
    now rewrite <- Hid.
  - intros id' Hne. rewrite findResource_replace. simpl. rewrite Hid.
    apply Nat.eqb_neq in Hne. now rewrite Hne.
  - intros skillId d Hin Hd. unfold Store.countable in Hin.
    apply List.filter_In in Hin. destruct Hin as (Hin & Hc).
    unfold Store.replaceResource in Hin. apply List.in_map_iff in Hin.
    destruct Hin as (d0 & Hd0 & _). simpl in Hd0. rewrite Hid in Hd0.
    destruct (Resource._id d0 =? id) eqn:E.
    + subst d. simpl in Hc. rewrite !andb_false_r in Hc. discriminate Hc.
    + subst d. apply Nat.eqb_neq in E. contradiction.
Qed.

Lemma deleteResource_soft_deletes_witness :
  let r := course 1 7 "intro" 4.5%float (Some 300%float) in
  let w' := snd (deleteResource offline 1 oneCourseWorld) in
  Store.findResource 1 (resourceDocs w')
  = Some (Resource.mk 1 (Resource.url r) (Resource.learningType r) (Resource.skill r)
            (Resource.verified r) (Resource.rating r) (Resource.enrollmentCount r)
            false (Some (clock oneCourseWorld))) /\
  (forall id', id' <> 1 ->
               Store.findResource id' (resourceDocs w')
               = Store.findResource id' (resourceDocs oneCourseWorld)) /\
  (forall skillId d, List.In d (Store.countable skillId (resourceDocs w')) ->
                     Resource._id d <> 1).
Proof.
  apply (deleteResource_soft_deletes offline 1 oneCourseWorld
           (course 1 7 "intro" 4.5%float (Some 300%float))).
  - vm_compute. reflexivity.
  - vm_compute. reflexivity.
Defined.

(** Restoring a resource right after deleting it puts back what was
    stored: a resource that was active and not deleted is found again
    exactly as it was, and no other resource has changed. *)
Theorem restoreResource_undoes_deleteResource
    (P : Platform) (id : ObjectId) (w : World) (r : Resource.t) :
  Store.findResource id (resourceDocs w) = Some r ->
  Resource.validate r = true ->
  Resource.isActive r = true ->
  Resource.deletedAt r = None ->
  forall id',
    Store.findResource id'
      (resourceDocs (snd (restoreResource P id (snd (deleteResource P id w)))))
    = Store.findResource id' (resourceDocs w).
Proof.
  intros F Hv Ha Hd id'. pose proof (findResource_id _ _ _ F) as Hid.
  set (deleted := Resource.set_deletedAt (Some (clock w)) (Resource.set_isActive false r)).
  assert (F1 : Store.findResource id (resourceDocs (snd (deleteResource P id w)))
               = Some deleted).
  { rewrite (deleteResource_docs P id w r F Hv), findResource_replace. fold deleted.
    simpl. now rewrite Hid, Nat.eqb_refl, F. }
  rewrite (restoreResource_docs P id _ deleted F1 Hv).
  rewrite (deleteResource_docs P id w r F Hv). fold deleted.
  assert (Hback : Resource.set_deletedAt None (Resource.set_isActive true deleted) = r).
  { destruct r. simpl in *. now subst. }
  rewrite Hback. apply findResource_replace_back; [now rewrite Hid | now rewrite Hid].
Qed.

Lemma restoreResource_undoes_deleteResource_witness :
  Store.findResource 1
    (resourceDocs (snd (restoreResource offline 1
                          (snd (deleteResource offline 1 oneCourseWorld)))))
  = Store.findResource 1 (resourceDocs oneCourseWorld).
Proof.
  apply (restoreResource_undoes_deleteResource offline 1 oneCourseWorld
           (course 1 7 "intro" 4.5%float (Some 300%float)));
    vm_compute; reflexivity.
Defined.

(** Toggling the activity flag twice gives back the stored resources. *)
Theorem toggleActive_twice
    (P : Platform) (id : ObjectId) (w : World) (r : Resource.t) :
  Store.findResource id (resourceDocs w) = Some r ->
  Resource.validate r = true ->
  (Store.findResource id (resourceDocs (snd (toggleActive P id w)))
   = Some (Resource.set_isActive (negb (Resource.isActive r)) r)) /\
  forall id',
    Store.findResource id'
      (resourceDocs (snd (toggleActive P id (snd (toggleActive P id w)))))
    = Store.findResource id' (resourceDocs w).
Proof.
  intros F Hv. pose proof (findResource_id _ _ _ F) as Hid.
  set (toggled := Resource.set_isActive (negb (Resource.isActive r)) r).
  assert (F1 : Store.findResource id (resourceDocs (snd (toggleActive P id w)))
               = Some toggled).
  { rewrite (toggleActive_docs P id w r F Hv), findResource_replace. fold toggled.
    simpl. now rewrite Hid, Nat.eqb_refl, F. }
  split; [exact F1|]. intros id'.
  rewrite (toggleActive_docs P id _ toggled F1 Hv).
  rewrite (toggleActive_docs P id w r F Hv). fold toggled.
  assert (Hback : Resource.set_isActive (negb (Resource.isActive toggled)) toggled = r).
  { destruct r. simpl. now rewrite negb_involutive. }
  rewrite Hback. apply findResource_replace_back; [now rewrite Hid | now rewrite Hid].
Qed.

Lemma toggleActive_twice_witness :
  (Store.findResource 1 (resourceDocs (snd (toggleActive offline 1 oneCourseWorld)))
   = Some (Resource.set_isActive
             (negb (Resource.isActive (course 1 7 "intro" 4.5%float (Some 300%float))))
             (course 1 7 "intro" 4.5%float (Some 300%float)))) /\
  forall id',
    Store.findResource id'
      (resourceDocs (snd (toggleActive offline 1
                            (snd (toggleActive offline 1 oneCourseWorld)))))
    = Store.findResource id' (resourceDocs oneCourseWorld).
Proof.
  apply (toggleActive_twice offline 1 oneCourseWorld
           (course 1 7 "intro" 4.5%float (Some 300%float)));
    vm_compute; reflexivity.
Defined.

(* ================================================================== *)
(** * Verification routes and the statistics cache *)
(* ================================================================== *)

(** The handler of the bulk verification, were it called: it marks
    every listed stored resource as verified without probing anything;
    resources not listed are untouched, [modifiedCount] is the number of
    listed stored documents, and no skill document is written. *)
Lemma bulkVerify_handler_effect (P : Platform) (ids : list ObjectId) (w : World) :
  let w' := snd (bulkVerify P ids w) in
  let listed id := List.existsb (Nat.eqb id) ids in
  (forall id,
      Store.findResource id (resourceDocs w')
      = option_map (fun d => if listed id then Resource.set_verified true d else d)
                   (Store.findResource id (resourceDocs w))) /\
  skillDocs w' = skillDocs w /\
  httpLog w' = httpLog w /\
  verifyCalls w' = verifyCalls w /\
  exists resp,
    fst (bulkVerify P ids w) = Ok resp /\ status resp = 200 /\
    data resp = DataModifiedCount
                  (List.length
                     (List.filter (fun d => listed (Resource._id d)) (resourceDocs w))).
Proof.
  cbv zeta. unfold bulkVerify, tryCatch, bind, Resource_updateMany_in, ret. simpl.
  split; [|split; [reflexivity | split; [reflexivity | split; [reflexivity|]]]].
  - intros id.
    rewrite (findResource_map
               (fun d => if List.existsb (Nat.eqb (Resource._id d)) ids
                         then Resource.set_verified true d else d)).
    + destruct (Store.findResource id (resourceDocs w)) as [d|] eqn:F; [|reflexivity].
      simpl. now rewrite (findResource_id _ _ _ F).
    + intros d. destruct (List.existsb (Nat.eqb (Resource._id d)) ids); reflexivity.
  - eexists. split; [reflexivity|]. split; reflexivity.
Qed.

(** [POST /resources/bulk-verify] never reaches its handler.  The custom
    validator of [resourceIds] names [mongoose], which the routes file
    does not declare, so it throws, and thereby fails, on every array
    that is not empty; [isArray({ min: 1 })] refuses the empty one.
    Every request is answered 400 "Validation failed" by the [validate]
    helper: no resource is marked verified, nothing is written and
    nothing is probed. *)
Theorem bulkVerify_always_fails_validation
    (P : Platform) (ids : list ObjectId) (w : World) :
  Router.dispatch Router.POST (req_path (request (BulkVerify ids)))
  = Some (Router.BulkVerifyResources, None) /\
  exists errors,
    run P (BulkVerify ids) w
    = (Ok (mkResponse 400 false "Validation failed" NoData None None errors), w) /\
    errors = match ids with
             | [] => ["resourceIds must be a non-empty array"]
             | _ :: _ => ["All resourceIds must be valid MongoDB ObjectIds"]
             end.
Proof.
  split; [reflexivity|].
  exists (bulkVerifyErrors ids). rewrite run_BulkVerify.
  split; [reflexivity | destruct ids; reflexivity].
Qed.

Section VerifyRouteSkills.

Variable P : Platform.

Lemma verifyResource_skillDocs (id : ObjectId) (w : World) :
  wp (verifyResource P id)
     (fun _ w' => skillDocs w' = skillDocs w /\ consoleWarn w' = consoleWarn w) w.
Proof.
  unfold verifyResource. apply wp_tryCatch, wp_bind.
  unfold wp at 1, Resource_findById; simpl.
  destruct (Store.findResource id (resourceDocs w)) as [r|] eqn:F; [|now split].
  apply wp_bind. unfold wp at 1.
  assert (Hcases : exists ve w1, verifyStoredUrl P (Resource.url r) w = (Ok ve, w1) /\
                                 skillDocs w1 = skillDocs w /\
                                 consoleWarn w1 = consoleWarn w).
  { destruct (verifyStoredUrl_cases P (Resource.url r) w)
      as [(_ & E) | (_ & vr & w1 & Hv & (_ & Hs) & E)];
      rewrite E; eexists _, _; split; try reflexivity; try now split.
    split; [exact Hs|]. exact (verifyUrl_keeps_console P _ _ w w1 vr Hv). }
  destruct Hcases as ([verified verificationError] & w1 & E & Hs & Hc). rewrite E. simpl.
  apply wp_bind. unfold wp at 1, Resource_save.
  destruct (Resource.validate (Resource.set_verified verified r));
    [|apply wp_serverError; intros _; now split].
  destruct (Store.findResource (Resource._id (Resource.set_verified verified r))
                               (resourceDocs w1));
    simpl; destruct verified; apply wp_ret; now split.
Qed.

End VerifyRouteSkills.

(** [PATCH /resources/:id/verify] never writes a skill document: the
    re-verification may change the resource's [verified] flag, and with
    it the set a refresh would count, but the statistics of the owning
    skill are left as they were. *)
Theorem verifyResource_leaves_statistics (P : Platform) (id : ObjectId) (w : World) :
  skillDocs (snd (verifyResource P id w)) = skillDocs w.
Proof. exact (proj1 (verifyResource_skillDocs P id w)). Qed.

(** Creation checks the skill and the duplicate URL before it verifies
    anything: for an unknown skill the answer is 404, for a URL already
    stored on a resource that is not soft-deleted it is 400, and in both
    cases the world is left untouched: nothing is stored, [verifyUrl] is
    not called and no request is issued. *)
Theorem createResource_guards_come_first
    (P : Platform) (body : CreateReq.t) (w : World) :
  (Store.findSkill (CreateReq.skill body) (skillDocs w) = None ->
   createResource P body w = (Ok (respond 404 false "Skill not found" NoData), w)) /\
  (forall sk existing,
      Store.findSkill (CreateReq.skill body) (skillDocs w) = Some sk ->
      Store.findByUrl (CreateReq.url body) (resourceDocs w) = Some existing ->
      createResource P body w
      = (Ok (respond 400 false "A resource with this URL already exists" NoData), w)).
Proof.
  pose proof (createResource_cases P body w) as H. unfold wp, createOutcome in H.
  destruct (createResource P body w) as [o w'] eqn:E. simpl in H.
  split.
  - intros Hs. rewrite Hs in H. destruct H as (-> & ->). reflexivity.
  - intros sk existing Hs Hu. rewrite Hs, Hu in H. destruct H as (-> & ->). reflexivity.
Qed.

Lemma createResource_guards_come_first_witness :
  createResource offline (CreateReq.mk "https://www.example.org/intro" 7 free
                                       None None None None) oneCourseWorld
  = (Ok (respond 400 false "A resource with this URL already exists" NoData),
     oneCourseWorld).
Proof.
  eapply (proj2 (createResource_guards_come_first offline
                   (CreateReq.mk "https://www.example.org/intro" 7 free
                                 None None None None) oneCourseWorld)).
  - vm_compute. reflexivity.
  - vm_compute. reflexivity.
Defined.

Section BulkDeleteMembership.

Variable P : Platform.

(** The loop body of the bulk delete: load a skill, refresh it. *)
Lemma refresh_keeps_membership (skillId : ObjectId) (w : World) (id : ObjectId) :
  membershipOf id
    (snd ((skill <- Skill_findById skillId ;;
           match skill with
           | Some skill => updateStatistics skill ;;; ret tt
           | None => ret tt
           end) w))
  = membershipOf id w.
Proof.
  unfold bind at 1, Skill_findById.
  destruct (Store.findSkill skillId (skillDocs w)) as [sk|] eqn:F; [|reflexivity].
  pose proof (findSkill_id _ _ _ F) as Hid.
  unfold bind.
  destruct (updateStatistics sk w) as [[saved|e] w'] eqn:E; simpl.
  - apply updateStatistics_result in E. destruct E as (Hs & ->).
    unfold membershipOf. simpl.
    destruct (Nat.eq_dec id (Skill._id saved)) as [-> | Hne].
    + rewrite findSkill_replace.
      * rewrite Hs at 2. simpl. rewrite Hs. simpl. rewrite Hid, F. reflexivity.
      * rewrite Hs. simpl. rewrite Hid, F. discriminate.
    + now rewrite findSkill_replace_other.
  - destruct (Skill.validate
                (Skill.set_statistics
                   (assignStatistics (Store.countable (Skill._id sk) (resourceDocs w))
                                     (Skill.statistics sk)) sk)) eqn:Hv.
    + rewrite (updateStatistics_saves sk w Hv) in E. discriminate E.
    + rewrite (updateStatistics_rejects sk w Hv) in E. now injection E as _ <-.
Qed.

Lemma forEach_keeps_membership (skillIds : list ObjectId) (w : World) (id : ObjectId) :
  membershipOf id
    (snd (forEach skillIds
            (fun skillId =>
               skill <- Skill_findById skillId ;;
               match skill with
               | Some skill => updateStatistics skill ;;; ret tt
               | None => ret tt
               end) w))
  = membershipOf id w.
Proof.
  revert w. induction skillIds as [|s rest IH]; intros w; [reflexivity|].
  cbn [forEach]. unfold bind at 1.
  pose proof (refresh_keeps_membership s w id) as Hstep.
  destruct ((skill <- Skill_findById s ;;
             match skill with
             | Some skill => updateStatistics skill ;;; ret tt
             | None => ret tt
             end) w) as [[u|e] w1]; simpl in Hstep |- *.
  - rewrite IH. exact Hstep.
  - exact Hstep.
Qed.

Lemma bulkDelete_membership (ids : list ObjectId) (w : World) (id : ObjectId) :
  membershipOf id (snd (bulkDelete P ids w)) = membershipOf id w.
Proof.
  change (wp (bulkDelete P ids) (fun _ w' => membershipOf id w' = membershipOf id w) w).
  unfold bulkDelete. apply wp_tryCatch, wp_bind.
  unfold wp at 1, newDate; simpl. apply wp_bind.
  unfold wp at 1, Resource_updateMany_in; simpl. apply wp_bind.
  unfold wp at 1, Resource_find_in; simpl.
  apply wp_bind. unfold wp at 1.
  match goal with
  | |- context [forEach ?l ?f ?w1] =>
      pose proof (forEach_keeps_membership l w1 id) as Hloop;
      destruct (forEach l f w1) as [[u|e] w2]
  end; simpl in Hloop |- *.
  - apply wp_ret. rewrite Hloop. reflexivity.
  - apply wp_serverError. intros _. rewrite Hloop. reflexivity.
Qed.

End BulkDeleteMembership.

(** The handler of the bulk deletion, were it called: it soft-deletes
    every listed stored resource but, unlike the single delete, edits no
    membership list. *)
Lemma bulkDelete_handler_keeps_membership_lists
    (P : Platform) (ids : list ObjectId) (w : World) :
  let w' := snd (bulkDelete P ids w) in
  (forall skillId, membershipOf skillId w' = membershipOf skillId w) /\
  (forall id,
      Store.findResource id (resourceDocs w')
      = option_map
          (fun d => if List.existsb (Nat.eqb id) ids
                    then Resource.set_deletedAt (Some (clock w))
                           (Resource.set_isActive false d)
                    else d)
          (Store.findResource id (resourceDocs w))).
Proof.
  cbv zeta. split; [intros skillId; apply bulkDelete_membership|].
  intros id.
  assert (Hdocs : resourceDocs (snd (bulkDelete P ids w))
                  = List.map (fun d => if List.existsb (Nat.eqb (Resource._id d)) ids
                                       then Resource.set_deletedAt (Some (clock w))
                                              (Resource.set_isActive false d)
                                       else d) (resourceDocs w)).
  { change (wp (bulkDelete P ids)
              (fun _ w' =>
                 resourceDocs w'
                 = List.map (fun d => if List.existsb (Nat.eqb (Resource._id d)) ids
                                      then Resource.set_deletedAt (Some (clock w))
                                             (Resource.set_isActive false d)
                                      else d) (resourceDocs w)) w).
    unfold bulkDelete. apply wp_tryCatch, wp_bind.
    unfold wp at 1, newDate; simpl. apply wp_bind.
    unfold wp at 1, Resource_updateMany_in; simpl. apply wp_bind.
    unfold wp at 1, Resource_find_in; simpl.
    apply (wp_skill_tail P _ _
             (fun w' =>
                resourceDocs w'
                = List.map (fun d => if List.existsb (Nat.eqb (Resource._id d)) ids
                                     then Resource.set_deletedAt (Some (clock w))
                                            (Resource.set_isActive false d)
                                     else d) (resourceDocs w))); [skill_only|].
    intros w1 Hd. exact Hd. }
  rewrite Hdocs, findResource_map.
  - destruct (Store.findResource id (resourceDocs w)) as [d|] eqn:F; [|reflexivity].
    simpl. now rewrite (findResource_id _ _ _ F).
  - intros d. destruct (List.existsb (Nat.eqb (Resource._id d)) ids); reflexivity.
Qed.

(** [DELETE /resources/bulk-delete] never reaches its handler: its path
    also matches [DELETE /resources/:id], which is registered first, and
    the validator of that route refuses "bulk-delete" as an id.  Every
    request is answered 400 "Validation failed" with "Invalid resource
    ID"; nothing is soft-deleted, and resources, skills and their
    membership lists are as they were. *)
Theorem bulkDelete_is_shadowed (P : Platform) (ids : list ObjectId) (w : World) :
  Router.dispatch Router.DELETE (req_path (request (BulkDelete ids)))
  = Some (Router.DeleteResource, Some (Router.Word "bulk-delete")) /\
  Router.isMongoIdString "bulk-delete" = false /\
  Router.mongoId (Some (Router.Word "bulk-delete")) = None /\
  run P (BulkDelete ids) w
  = (Ok (mkResponse 400 false "Validation failed" NoData None None
           ["Invalid resource ID"]), w).
Proof. split; [reflexivity | split; [reflexivity | split; reflexivity]]. Qed.

(* ================================================================== *)
(** * Moving a resource between skills *)
(* ================================================================== *)

Section MoveFacts.

Lemma addResource_result (this saved : Skill.t) (id : ObjectId) (w w' : World) :
  addResource this id w = (Ok saved, w') ->
  (List.In id (Skill.resources this) /\ saved = this /\ w' = w) \/
  (let this1 := Skill.set_resources (Skill.resources this ++ [id])%list this in
   saved = Skill.set_statistics
             (assignStatistics (Store.countable (Skill._id this) (resourceDocs w))
                               (Skill.statistics this)) this1 /\
   w' = set_skillDocs
          (Store.replaceSkill saved (Store.replaceSkill this1 (skillDocs w))) w).
Proof.
  unfold addResource. intros H.
  destruct (List.existsb (Nat.eqb id) (Skill.resources this)) eqn:E; simpl in H.
  - left. injection H as <- <-. apply existsb_eqb_In in E. auto.
  - right. unfold bind, Skill_save in H.
    destruct (Skill.validate
                (Skill.set_resources (Skill.resources this ++ [id])%list this));
      [|discriminate H].
    apply updateStatistics_result in H. destruct H as (Hs & ->). simpl in *.
    split; [exact Hs | reflexivity].
Qed.

Lemma findSkill_after_two_saves (id : ObjectId) (a b : Skill.t) (docs : list Skill.t) :
  Skill._id a = id -> Skill._id b = id ->
  Store.findSkill id docs <> None ->
  Store.findSkill id (Store.replaceSkill a (Store.replaceSkill b docs)) = Some a.
Proof.
  intros Ha Hb Hfound. rewrite <- Ha. apply findSkill_replace.
  rewrite Ha, <- Hb, findSkill_replace; [discriminate | now rewrite Hb].
Qed.

Lemma findSkill_other_two_saves (id : ObjectId) (a b : Skill.t) (docs : list Skill.t) :
  id <> Skill._id a -> id <> Skill._id b ->
  Store.findSkill id (Store.replaceSkill a (Store.replaceSkill b docs))
  = Store.findSkill id docs.
Proof. intros Ha Hb. now rewrite !findSkill_replace_other. Qed.

End MoveFacts.

(** When an update moves a resource to another skill and both skill
    documents are saved, the resource id is listed by the stored new
    skill and no longer by the stored old one. *)
Theorem moveToSkill_transfers_membership
    (oldResource : Resource.t) (body : UpdateReq.t) (s : ObjectId) (w w' : World) :
  UpdateReq.skill body = Some s ->
  s <> Resource.skill oldResource ->
  moveToSkill oldResource body w = (Ok None, w') ->
  (exists newSkill,
      Store.findSkill s (skillDocs w') = Some newSkill /\
      List.In (Resource._id oldResource) (Skill.resources newSkill)) /\
  (Store.findSkill (Resource.skill oldResource) (skillDocs w) <> None ->
   exists oldSkill,
     Store.findSkill (Resource.skill oldResource) (skillDocs w') = Some oldSkill /\
     ~ List.In (Resource._id oldResource) (Skill.resources oldSkill)).
Proof.
  intros Hs Hne H. unfold moveToSkill in H. rewrite Hs in H.
  assert (E : negb (s =? Resource.skill oldResource) = true)
    by (apply negb_true_iff, Nat.eqb_neq; exact Hne).
  rewrite E in H. unfold bind at 1, Skill_findById in H.
  destruct (Store.findSkill s (skillDocs w)) as [newSkill|] eqn:Fn;
    [|discriminate H].
  pose proof (findSkill_id _ _ _ Fn) as Hnid.
  unfold bind at 1 in H.
  set (id := Resource._id oldResource) in *.
  set (o := Resource.skill oldResource) in *.
  assert (Hstep :
            exists w1 added,
              addResource newSkill id w1 = (Ok added, w') /\
              Store.findSkill s (skillDocs w1) = Some newSkill /\
              (Store.findSkill o (skillDocs w) <> None ->
               exists oldSkill, Store.findSkill o (skillDocs w1) = Some oldSkill /\
                                ~ List.In id (Skill.resources oldSkill))).
  { unfold bind at 1, Skill_findById in H.
    destruct (Store.findSkill o (skillDocs w)) as [oldSkill|] eqn:Fo.
    - pose proof (findSkill_id _ _ _ Fo) as Hoid.
      unfold bind at 1 in H.
      destruct (removeResource oldSkill id w) as [[removed|e] w1] eqn:Er;
        [|discriminate H].
      simpl in H. unfold bind in H.
      destruct (addResource newSkill id w1) as [[added|e] w2] eqn:Ea; [|discriminate H].
      simpl in H. injection H as <-. exists w1, added.
      apply removeResource_result in Er. cbv zeta in Er. destruct Er as (Hr & Hw1).
      assert (Hrid : Skill._id removed = o) by (rewrite Hr; simpl; exact Hoid).
      split; [exact Ea|]. split.
      + rewrite Hw1. simpl. rewrite findSkill_other_two_saves; [exact Fn | |].
        * rewrite Hrid. exact Hne.
        * simpl. rewrite Hoid. exact Hne.
      + intros _. exists removed. split.
        * rewrite Hw1. simpl. apply findSkill_after_two_saves;
            [exact Hrid | simpl; exact Hoid | rewrite Fo; discriminate].
        * rewrite Hr. simpl. intros Hin. apply filter_out_In in Hin.
          destruct Hin as (_ & Hx). congruence.
    - simpl in H. unfold bind in H.
      destruct (addResource newSkill id w) as [[added|e] w2] eqn:Ea; [|discriminate H].
      simpl in H. injection H as <-. exists w, added.
      split; [exact Ea|]. split; [exact Fn|]. intros Hfound. congruence. }
  destruct Hstep as (w1 & added & Hadd & Fn1 & Hold).
  apply addResource_result in Hadd.
  destruct Hadd as [(Hin & Hsv & ->) | (Hsv & ->)].
  - split; [exists newSkill; now split | exact Hold].
  - cbv zeta in Hsv. split.
    + eexists. split.
      * simpl. apply findSkill_after_two_saves;
          [rewrite Hsv; simpl; exact Hnid | simpl; exact Hnid | rewrite Fn1; discriminate].
      * rewrite Hsv. simpl. apply List.in_or_app. right. now left.
    + intros Hfound. destruct (Hold Hfound) as (oldSkill & Fo1 & Hnot).
      exists oldSkill. split; [|exact Hnot].
      simpl. rewrite findSkill_other_two_saves; [exact Fo1 | |].
      * rewrite Hsv. simpl. rewrite Hnid. congruence.
      * simpl. rewrite Hnid. congruence.
Qed.

Lemma moveToSkill_transfers_membership_witness :
  let r := course 1 7 "intro" 4.5%float (Some 300%float) in
  let w' := snd (moveToSkill r moveToSkill8 twoSkillsWorld) in
  (exists newSkill,
      Store.findSkill 8 (skillDocs w') = Some newSkill /\
      List.In (Resource._id r) (Skill.resources newSkill)) /\
  (Store.findSkill (Resource.skill r) (skillDocs twoSkillsWorld) <> None ->
   exists oldSkill,
     Store.findSkill (Resource.skill r) (skillDocs w') = Some oldSkill /\
     ~ List.In (Resource._id r) (Skill.resources oldSkill)).
Proof.
  apply (moveToSkill_transfers_membership
           (course 1 7 "intro" 4.5%float (Some 300%float)) moveToSkill8 8 twoSkillsWorld).
  - reflexivity.
  - vm_compute. discriminate.
  - vm_compute. reflexivity.
Defined.

(* ================================================================== *)
(** * Updates: explicit flags and probing *)
(* ================================================================== *)

Section UpdateFacts.

Variable P : Platform.

Lemma verifyChangedUrl_explicit (u : string) (body : UpdateReq.t) (b : bool) (w : World) :
  UpdateReq.verified body = Some b ->
  exists w1,
    verifyChangedUrl P u body w = (Ok body, w1) /\ sameStore w w1.
Proof.
  intros Hb.
  destruct (verifyChangedUrl_cases P u body w) as (body' & w1 & E & Hs & _).
  exists w1. split; [|exact Hs].
  rewrite E. f_equal. f_equal.
  unfold verifyChangedUrl, bind in E.
  destruct (isKnownAuthenticPlatform P u).
  - simpl in E. rewrite Hb in E. now injection E as <- _.
  - destruct (verifyUrl P (Some u) defaultTimeout w) as [[r|e] w2]; [|discriminate E].
    destruct (isValid r); simpl in E; rewrite Hb in E; simpl in E;
      rewrite ?Hb in E; now injection E as <- _.
Qed.

Lemma update_body_explicit (old : Resource.t) (body : UpdateReq.t) (b : bool) (w : World) :
  UpdateReq.verified body = Some b ->
  exists w1,
    match UpdateReq.url body with
    | Some u =>
        if Js.truthy u && negb (String.eqb u (Resource.url old))
        then verifyChangedUrl P u body
        else ret body
    | None => ret body
    end w = (Ok body, w1) /\
    sameStore w w1.
Proof.
  intros Hb. destruct (UpdateReq.url body) as [u|].
  - destruct (Js.truthy u && negb (String.eqb u (Resource.url old))).
    + exact (verifyChangedUrl_explicit u body b w Hb).
    + exists w. split; [reflexivity | apply sameStore_refl].
  - exists w. split; [reflexivity | apply sameStore_refl].
Qed.

Lemma bind_Ok_inv {A B} (m : M A) (k : A -> M B) (w w' : World) (b : B) :
  bind m k w = (Ok b, w') ->
  exists a w1, m w = (Ok a, w1) /\ k a w1 = (Ok b, w').
Proof.
  unfold bind. destruct (m w) as [[a|e] w1]; intros H; [eauto | discriminate H].
Qed.

(** An early response of the skill-change block is the 404 for an
    unknown new skill. *)
Lemma moveToSkill_early (old : Resource.t) (body : UpdateReq.t) (w w' : World)
    (response : Response) :
  moveToSkill old body w = (Ok (Some response), w') -> status response = 404.
Proof.
  intros Hm. unfold moveToSkill in Hm.
  destruct (UpdateReq.skill body) as [s|]; [|discriminate Hm].
  destruct (negb (s =? Resource.skill old)); [|discriminate Hm].
  apply bind_Ok_inv in Hm. destruct Hm as (newSkill & w1 & _ & Hm).
  destruct newSkill as [newSkill|].
  - apply bind_Ok_inv in Hm. destruct Hm as (oldSkill & w2 & _ & Hm).
    apply bind_Ok_inv in Hm. destruct Hm as (u & w3 & _ & Hm).
    apply bind_Ok_inv in Hm. destruct Hm as (x & w4 & _ & Hm).
    unfold ret in Hm. discriminate Hm.
  - injection Hm as <- _. reflexivity.
Qed.

Lemma wp_serverError_500 (message e : string) (Q : Outcome Response -> World -> Prop)
    (w : World) :
  Q (Ok (mkResponse 500 false message NoData None
           (if String.eqb (NODE_ENV P) "development" then Some e else None) [])) w ->
  wp (serverError P message e) Q w.
Proof. exact (fun H => H). Qed.

Lemma updateResource_explicit (id : ObjectId) (body : UpdateReq.t) (b : bool) (w : World) :
  UpdateReq.verified body = Some b ->
  wp (updateResource P id body)
     (fun o w' => forall resp, o = Ok resp -> status resp = 200 ->
                               verifiedAt id w' = Some b) w.
Proof.
  intros Hb. unfold updateResource. apply wp_tryCatch, wp_bind.
  unfold wp at 1, Resource_findById; simpl.
  destruct (Store.findResource id (resourceDocs w)) as [old|] eqn:F.
  2: { intros resp Hr Hs. injection Hr as <-. discriminate Hs. }
  pose proof (findResource_id _ _ _ F) as Hid.
  destruct (update_body_explicit old body b w Hb) as (w1 & E & (Hd & Hs)).
  apply wp_bind. unfold wp at 1. rewrite E. simpl.
  apply wp_bind. unfold wp at 1.
  pose proof (skillOnly_moveToSkill old body w1) as Hframe.
  destruct (moveToSkill old body w1) as [[[response|]|e] w2] eqn:Em;
    simpl in Hframe |- *; destruct Hframe as (Hd2 & _).
  - apply wp_ret. intros resp Hr Hst. injection Hr as <-.
    rewrite (moveToSkill_early old body w1 w2 response Em) in Hst. discriminate Hst.
  - apply wp_bind. unfold wp at 1, Resource_findByIdAndUpdate.
    destruct (UpdateReq.validate body); simpl.
    + rewrite Hd2, Hd, F. simpl.
      apply wp_skillOnly; [skill_only|].
      intros o w3 (Hd3 & _). simpl in Hd3. destruct o as [u|e].
      * intros resp _ _. unfold verifiedAt. rewrite Hd3.
        rewrite findResource_replace. simpl. rewrite Hid, Nat.eqb_refl, F. simpl.
        now rewrite Hb.
      * apply wp_serverError_500. intros resp Hr Hst. injection Hr as <-. discriminate Hst.
    + apply wp_serverError_500. intros resp Hr Hst. injection Hr as <-. discriminate Hst.
  - apply wp_serverError_500. intros resp Hr Hst. injection Hr as <-. discriminate Hst.
Qed.

End UpdateFacts.

(** An explicit [verified] in the body of an update always wins: when
    the update answers 200, the stored flag is the one the body carries,
    whatever the allow-list and the probe say about a changed URL. *)
Theorem updateResource_explicit_verified_wins
    (P : Platform) (id : ObjectId) (body : UpdateReq.t) (b : bool) (w : World) :
  UpdateReq.verified body = Some b ->
  status_of (fst (updateResource P id body w)) = Some 200 ->
  verifiedAt id (snd (updateResource P id body w)) = Some b.
Proof.
  intros Hb Hst. pose proof (updateResource_explicit P id body b w Hb) as H.
  unfold wp in H. destruct (fst (updateResource P id body w)) as [resp|e];
    [|discriminate Hst].
  simpl in Hst. injection Hst as Hst. exact (H resp eq_refl Hst).
Qed.

Lemma updateResource_explicit_verified_wins_witness :
  verifiedAt 1 (snd (updateResource offline 1 insistVerified oneCourseWorld)) = Some true.
Proof.
  apply (updateResource_explicit_verified_wins offline 1 insistVerified true oneCourseWorld).
  - reflexivity.
  - vm_compute. reflexivity.
Defined.

(* ================================================================== *)
(** * Which routes probe *)
(* ================================================================== *)

Section Traces.

Variable P : Platform.

Lemma sameTraces_refl (w : World) : sameTraces w w.
Proof. repeat split. Qed.

Lemma wp_traces_tail (w0 w : World) (tail : M Response) (message : string) :
  sameTraces w0 w ->
  skillOnly tail ->
  wp tail (fun o w1 => match o with
                       | Ok _ => sameTraces w0 w1
                       | Throw e =>
                           wp (serverError P message e) (fun _ w2 => sameTraces w0 w2) w1
                       end) w.
Proof.
  intros (T1 & T2 & T3) Ht. apply wp_skillOnly; [exact Ht|].
  intros o w1 (_ & H1 & H2 & _ & H3).
  assert (K : sameTraces w0 w1) by (repeat split; congruence).
  destruct o; [exact K | apply wp_serverError; intros _; exact K].
Qed.

Lemma wp_traces_save_tail (w0 w : World) (doc : Resource.t)
    (tail : M Response) (message : string) :
  sameTraces w0 w ->
  skillOnly tail ->
  wp (bind (Resource_save doc) (fun _ => tail))
     (fun o w1 => match o with
                  | Ok _ => sameTraces w0 w1
                  | Throw e =>
                      wp (serverError P message e) (fun _ w2 => sameTraces w0 w2) w1
                  end) w.
Proof.
  intros K Ht. apply wp_bind. unfold wp at 1, Resource_save.
  destruct (Resource.validate doc);
    [|apply wp_serverError; intros _; exact K].
  destruct (Store.findResource (Resource._id doc) (resourceDocs w)); simpl;
    apply wp_traces_tail; auto.
Qed.

Lemma traces_toggleActive (id : ObjectId) (w : World) :
  sameTraces w (snd (toggleActive P id w)).
Proof.
  change (wp (toggleActive P id) (fun _ w1 => sameTraces w w1) w).
  unfold toggleActive. apply wp_tryCatch, wp_bind.
  unfold wp at 1, Resource_findById; simpl.
  destruct (Store.findResource id (resourceDocs w)); [|apply sameTraces_refl].
  apply wp_traces_save_tail; [apply sameTraces_refl | skill_only].
Qed.

Lemma traces_deleteResource (id : ObjectId) (w : World) :
  sameTraces w (snd (deleteResource P id w)).
Proof.
  change (wp (deleteResource P id) (fun _ w1 => sameTraces w w1) w).
  unfold deleteResource. apply wp_tryCatch, wp_bind.
  unfold wp at 1, Resource_findById; simpl.
  destruct (Store.findResource id (resourceDocs w)); [|apply sameTraces_refl].
  apply wp_bind. unfold wp at 1, newDate; simpl.
  apply wp_traces_save_tail; [apply sameTraces_refl | skill_only].
Qed.

Lemma traces_restoreResource (id : ObjectId) (w : World) :
  sameTraces w (snd (restoreResource P id w)).
Proof.
  change (wp (restoreResource P id) (fun _ w1 => sameTraces w w1) w).
  unfold restoreResource. apply wp_tryCatch, wp_bind.
  unfold wp at 1, Resource_findById; simpl.
  destruct (Store.findResource id (resourceDocs w)); [|apply sameTraces_refl].
  apply wp_traces_save_tail; [apply sameTraces_refl | skill_only].
Qed.

Lemma traces_bulkVerify (ids : list ObjectId) (w : World) :
  sameTraces w (snd (bulkVerify P ids w)).
Proof. repeat split. Qed.

Lemma traces_bulkDelete (ids : list ObjectId) (w : World) :
  sameTraces w (snd (bulkDelete P ids w)).
Proof.
  change (wp (bulkDelete P ids) (fun _ w1 => sameTraces w w1) w).
  unfold bulkDelete. apply wp_tryCatch, wp_bind.
  unfold wp at 1, newDate; simpl. apply wp_bind.
  unfold wp at 1, Resource_updateMany_in; simpl. apply wp_bind.
  unfold wp at 1, Resource_find_in; simpl.
  apply wp_traces_tail; [repeat split | skill_only].
Qed.

Lemma traces_postUpdateStatistics (id : ObjectId) (w : World) :
  sameTraces w (snd (postUpdateStatistics P id w)).
Proof.
  change (wp (postUpdateStatistics P id) (fun _ w1 => sameTraces w w1) w).
  unfold postUpdateStatistics. apply wp_tryCatch.
  apply wp_traces_tail; [apply sameTraces_refl | skill_only].
Qed.

(** An update whose body leaves the URL alone. *)
Lemma traces_updateResource (id : ObjectId) (body : UpdateReq.t) (w : World) :
  (forall u old, UpdateReq.url body = Some u ->
                 Store.findResource id (resourceDocs w) = Some old ->
                 u = "" \/ u = Resource.url old) ->
  sameTraces w (snd (updateResource P id body w)).
Proof.
  intros Hsame.
  change (wp (updateResource P id body) (fun _ w1 => sameTraces w w1) w).
  unfold updateResource. apply wp_tryCatch, wp_bind.
  unfold wp at 1, Resource_findById; simpl.
  destruct (Store.findResource id (resourceDocs w)) as [old|] eqn:F;
    [|apply sameTraces_refl].
  assert (E : match UpdateReq.url body with
              | Some u =>
                  if Js.truthy u && negb (String.eqb u (Resource.url old))
                  then verifyChangedUrl P u body
                  else ret body
              | None => ret body
              end = ret body).
  { destruct (UpdateReq.url body) as [u|] eqn:Hu; [|reflexivity].
    destruct (Hsame u old eq_refl eq_refl) as [-> | ->]; [reflexivity|].
    now rewrite String.eqb_refl, andb_false_r. }
  rewrite E. apply wp_bind. apply wp_ret.
  apply wp_bind. apply wp_skillOnly; [apply skillOnly_moveToSkill|].
  intros o w2 (_ & H1 & H2 & _ & H3).
  assert (K : sameTraces w w2) by (repeat split; assumption).
  destruct o as [[response|]|e].
  - apply wp_ret. exact K.
  - apply wp_bind. unfold wp at 1, Resource_findByIdAndUpdate.
    destruct (UpdateReq.validate body); simpl.
    + destruct (Store.findResource id (resourceDocs w2)); simpl.
      * apply wp_traces_tail; [exact K | skill_only].
      * apply wp_serverError. intros _. exact K.
    + apply wp_serverError. intros _. exact K.
  - apply wp_serverError. intros _. exact K.
Qed.

End Traces.

(** Only three routes ever probe: when a request changes the request
    log, the trace of [verifyUrl] calls or the console warnings, it is a creation,
    an explicit re-verification, or an update whose body carries a
    non-empty URL different from the stored one.  Toggling, deleting,
    restoring, the bulk routes, the statistics refresh and updates that
    leave the URL alone never reach the network. *)
Theorem only_create_verify_and_url_updates_probe
    (P : Platform) (a : Action) (w : World) :
  ~ sameTraces w (snd (run P a w)) ->
  (exists body, a = Create body) \/
  (exists id, a = Verify id) \/
  (exists id body u old,
      a = Update id body /\ UpdateReq.url body = Some u /\
      Store.findResource id (resourceDocs w) = Some old /\
      u <> "" /\ u <> Resource.url old).
Proof.
  intros Hn. destruct a as [body|id body|id|id|id|id|ids|ids|id].
  7: { exfalso. apply Hn. rewrite run_BulkVerify. apply sameTraces_refl. }
  7: { exfalso. apply Hn. rewrite run_BulkDelete. apply sameTraces_refl. }
  all: to_handler_in Hn.
  - left. now exists body.
  - right. right.
    destruct (UpdateReq.url body) as [u|] eqn:Hu.
    2: { exfalso. apply Hn. apply traces_updateResource. intros u old H. congruence. }
    destruct (Store.findResource id (resourceDocs w)) as [old|] eqn:F.
    2: { exfalso. apply Hn. apply traces_updateResource. intros u' old H H'. congruence. }
    destruct (string_dec u "") as [-> | Hne1].
    { exfalso. apply Hn. apply traces_updateResource. intros u' old' H H'.
      left. congruence. }
    destruct (string_dec u (Resource.url old)) as [-> | Hne2].
    { exfalso. apply Hn. apply traces_updateResource. intros u' old' H H'.
      right. congruence. }
    exists id, body, u, old. auto.
  - right. left. now exists id.
  - exfalso. apply Hn, traces_toggleActive.
  - exfalso. apply Hn, traces_deleteResource.
  - exfalso. apply Hn, traces_restoreResource.
  - exfalso. apply Hn, traces_postUpdateStatistics.
Qed.

Lemma only_create_verify_and_url_updates_probe_witness :
  (exists body, Update 1 moveToUnreachable = Create body) \/
  (exists id, Update 1 moveToUnreachable = Verify id) \/
  (exists id body u old,
      Update 1 moveToUnreachable = Update id body /\ UpdateReq.url body = Some u /\
      Store.findResource id (resourceDocs oneCourseWorld) = Some old /\
      u <> "" /\ u <> Resource.url old).
Proof.
  apply (only_create_verify_and_url_updates_probe offline (Update 1 moveToUnreachable)
           oneCourseWorld).
  intros (H & _). vm_compute in H. discriminate H.
Defined.

(* ================================================================== *)
(** * Deleting and restoring a skill *)
(* ================================================================== *)

Section SkillRouteFacts.

Variable P : Platform.

(** The documents [countDocuments] counts for the skill-deletion guard. *)
Lemma active_count_positive (skillId : ObjectId) (docs : list Resource.t) (r : Resource.t) :
  List.In r docs ->
  Resource.skill r = skillId ->
  Resource.isActive r = true ->
  Resource.deletedAt r = None ->
  (0 <? List.length
          (List.filter (fun d => (Resource.skill d =? skillId) &&
                                 Resource.isActive d &&
                                 Store.isNull (Resource.deletedAt d)) docs)) = true.
Proof.
  intros Hin Hs Ha Hd. apply Nat.ltb_lt.
  assert (Hf : List.In r
                 (List.filter (fun d => (Resource.skill d =? skillId) &&
                                        Resource.isActive d &&
                                        Store.isNull (Resource.deletedAt d)) docs)).
  { apply List.filter_In. split; [exact Hin|].
    rewrite Hs, Ha, Hd, Nat.eqb_refl. reflexivity. }
  destruct (List.filter _ docs); [destruct Hf | simpl; lia].
Qed.

Lemma active_count_zero (skillId : ObjectId) (docs : list Resource.t) :
  (0 <? List.length
          (List.filter (fun d => (Resource.skill d =? skillId) &&
                                 Resource.isActive d &&
                                 Store.isNull (Resource.deletedAt d)) docs)) = false ->
  forall r, List.In r docs -> Resource.skill r = skillId ->
            Resource.isActive r = false \/ Resource.deletedAt r <> None.
Proof.
  intros Hz r Hin Hs.
  destruct (Resource.isActive r) eqn:Ha; [|now left].
  destruct (Resource.deletedAt r) eqn:Hd; [right; discriminate|].
  rewrite (active_count_positive skillId docs r Hin Hs Ha Hd) in Hz. discriminate Hz.
Qed.

Lemma findSkill_replace_at (id : ObjectId) (doc : Skill.t) (docs : list Skill.t) :
  Skill._id doc = id ->
  Store.findSkill id docs <> None ->
  Store.findSkill id (Store.replaceSkill doc docs) = Some doc.
Proof. intros <-. apply findSkill_replace. Qed.

(** What a 200 of the skill deletion tells. *)
Lemma deleteSkill_answered_200 (id : ObjectId) (w : World) :
  SkillRoute.status_of (fst (SkillRoute.deleteSkill P id w)) = Some 200 ->
  exists sk,
    Store.findSkill id (skillDocs w) = Some sk /\
    Skill.validate sk = true /\
    (0 <? List.length
            (List.filter (fun d => (Resource.skill d =? id) &&
                                   Resource.isActive d &&
                                   Store.isNull (Resource.deletedAt d))
                         (resourceDocs w))) = false /\
    snd (SkillRoute.deleteSkill P id w)
    = set_skillDocs
        (Store.replaceSkill
           (Skill.mk id (Skill.resources sk) (Skill.statistics sk) false
              (Some (clock w)))
           (skillDocs w)) w.
Proof.
  unfold SkillRoute.deleteSkill, tryCatch, bind, Skill_findById,
    Resource_countDocuments_active, newDate, Skill_save.
  destruct (Store.findSkill id (skillDocs w)) as [sk|] eqn:F; cbn [fst snd];
    [|intros H; discriminate H].
  pose proof (findSkill_id _ _ _ F) as Hid. rewrite Hid.
  destruct (0 <? _) eqn:Hz; cbn [fst snd]; [intros H; discriminate H|].
  destruct (Skill.validate _) eqn:V; cbn [fst snd]; [|intros H; discriminate H].
  intros _. exists sk. split; [reflexivity|]. split; [exact V|].
  split; [reflexivity|].
  unfold SkillRoute.set_deletedAt, SkillRoute.set_isActive; cbn. now rewrite Hid.
Qed.

End SkillRouteFacts.

(** [DELETE /skills/:id] refuses a skill that still has a resource which
    is active and not soft-deleted, verified or not: the answer is 400
    with the number of such resources, and nothing is written. *)
Theorem deleteSkill_refuses_skill_in_use
    (P : Platform) (id : ObjectId) (w : World) (sk : Skill.t) (r : Resource.t) :
  Store.findSkill id (skillDocs w) = Some sk ->
  List.In r (resourceDocs w) ->
  Resource.skill r = id ->
  Resource.isActive r = true ->
  Resource.deletedAt r = None ->
  exists n resp,
    SkillRoute.deleteSkill P id w = (Ok resp, w) /\
    SkillRoute.status resp = 400 /\
    SkillRoute.data resp = SkillRoute.ActiveResourcesCount n /\
    0 < n /\
    n = List.length
          (List.filter (fun d => (Resource.skill d =? id) && Resource.isActive d &&
                                 Store.isNull (Resource.deletedAt d))
                       (resourceDocs w)).
Proof.
  intros F Hin Hs Ha Hd.
  pose proof (findSkill_id _ _ _ F) as Hid.
  pose proof (active_count_positive id (resourceDocs w) r Hin Hs Ha Hd) as Hpos.
  unfold SkillRoute.deleteSkill, tryCatch, bind, Skill_findById,
    Resource_countDocuments_active.
  rewrite F. cbn [fst snd]. rewrite Hid, Hpos. unfold ret.
  eexists _, _. split; [reflexivity|]. cbn.
  split; [reflexivity|]. split; [reflexivity|].
  split; [now apply Nat.ltb_lt | reflexivity].
Qed.

Lemma deleteSkill_refuses_skill_in_use_witness :
  exists n resp,
    SkillRoute.deleteSkill offline 7 oneCourseWorld = (Ok resp, oneCourseWorld) /\
    SkillRoute.status resp = 400 /\
    SkillRoute.data resp = SkillRoute.ActiveResourcesCount n /\
    0 < n /\
    n = List.length
          (List.filter (fun d => (Resource.skill d =? 7) && Resource.isActive d &&
                                 Store.isNull (Resource.deletedAt d))
                       (resourceDocs oneCourseWorld)).
Proof.
  apply (deleteSkill_refuses_skill_in_use offline 7 oneCourseWorld
           (Skill.mk 7 [1] (mkStatistics 1 1 0 4.5 300 103) true None)
           (course 1 7 "intro" 4.5%float (Some 300%float))).
  - reflexivity.
  - simpl. left. reflexivity.
  - reflexivity.
  - reflexivity.
  - reflexivity.
Defined.

(** When [DELETE /skills/:id] answers 200, the skill was stored and is
    now stored soft-deleted: inactive, [deletedAt] set to the current
    time, membership list and statistics as before.  No resource of the
    skill is active and undeleted, no resource document was written (the
    resources of the skill are not cascaded), and the other skills are
    untouched. *)
Theorem deleteSkill_soft_deletes
    (P : Platform) (id : ObjectId) (w : World) :
  SkillRoute.status_of (fst (SkillRoute.deleteSkill P id w)) = Some 200 ->
  let w' := snd (SkillRoute.deleteSkill P id w) in
  exists sk,
    Store.findSkill id (skillDocs w) = Some sk /\
    Store.findSkill id (skillDocs w')
    = Some (Skill.mk id (Skill.resources sk) (Skill.statistics sk) false
              (Some (clock w))) /\
    (forall id', id' <> id ->
                 Store.findSkill id' (skillDocs w') = Store.findSkill id' (skillDocs w)) /\
    resourceDocs w' = resourceDocs w /\
    (forall r, List.In r (resourceDocs w) -> Resource.skill r = id ->
               Resource.isActive r = false \/ Resource.deletedAt r <> None).
Proof.
  intros H200. cbv zeta.
  destruct (deleteSkill_answered_200 P id w H200) as (sk & F & _ & Hz & ->).
  exists sk. split; [exact F|].
  unfold set_skillDocs; cbn [skillDocs resourceDocs].
  split.
  - apply findSkill_replace_at; [reflexivity|]. rewrite F. discriminate.
  - split; [|split; [reflexivity|]].
    + intros id' Hne. apply findSkill_replace_other. cbn. congruence.
    + apply active_count_zero. exact Hz.
Qed.

Lemma deleteSkill_soft_deletes_witness :
  exists sk,
    Store.findSkill 9 (skillDocs idleSkillWorld) = Some sk /\
    Store.findSkill 9 (skillDocs (snd (SkillRoute.deleteSkill offline 9 idleSkillWorld)))
    = Some (Skill.mk 9 (Skill.resources sk) (Skill.statistics sk) false
              (Some (clock idleSkillWorld))) /\
    (forall id', id' <> 9 ->
                 Store.findSkill id'
                   (skillDocs (snd (SkillRoute.deleteSkill offline 9 idleSkillWorld)))
                 = Store.findSkill id' (skillDocs idleSkillWorld)) /\
    resourceDocs (snd (SkillRoute.deleteSkill offline 9 idleSkillWorld))
    = resourceDocs idleSkillWorld /\
    (forall r, List.In r (resourceDocs idleSkillWorld) -> Resource.skill r = 9 ->
               Resource.isActive r = false \/ Resource.deletedAt r <> None).
Proof.
  apply (deleteSkill_soft_deletes offline 9 idleSkillWorld).
  vm_compute. reflexivity.
Defined.

(** Restoring a skill right after deleting it puts back what was stored:
    when the deletion of an active, never deleted skill answered 200,
    every skill is found again exactly as it was before. *)
Theorem restoreSkill_undoes_deleteSkill
    (P : Platform) (id : ObjectId) (w : World) (sk : Skill.t) :
  Store.findSkill id (skillDocs w) = Some sk ->
  Skill.isActive sk = true ->
  Skill.deletedAt sk = None ->
  SkillRoute.status_of (fst (SkillRoute.deleteSkill P id w)) = Some 200 ->
  let w1 := snd (SkillRoute.deleteSkill P id w) in
  SkillRoute.status_of (fst (SkillRoute.restoreSkill P id w1)) = Some 200 /\
  forall id',
    Store.findSkill id' (skillDocs (snd (SkillRoute.restoreSkill P id w1)))
    = Store.findSkill id' (skillDocs w).
Proof.
  intros F Ha Hd H200.
  destruct (deleteSkill_answered_200 P id w H200) as (sk' & F' & V & _ & Ew).
  rewrite F in F'. injection F' as <-.
  pose proof (findSkill_id _ _ _ F) as Hid.
  set (w1 := snd (SkillRoute.deleteSkill P id w)) in *.
  assert (F1 : Store.findSkill id (skillDocs w1)
               = Some (Skill.mk id (Skill.resources sk) (Skill.statistics sk) false
                         (Some (clock w)))).
  { rewrite Ew. unfold set_skillDocs; cbn [skillDocs].
    apply findSkill_replace_at; [reflexivity|]. rewrite F. discriminate. }
  assert (Fo : forall id', id' <> id ->
                 Store.findSkill id' (skillDocs w1) = Store.findSkill id' (skillDocs w)).
  { intros id' Hne. rewrite Ew. unfold set_skillDocs; cbn [skillDocs].
    apply findSkill_replace_other. cbn. congruence. }
  assert (E : SkillRoute.set_deletedAt None
                (SkillRoute.set_isActive true
                   (Skill.mk id (Skill.resources sk) (Skill.statistics sk) false
                      (Some (clock w)))) = sk).
  { destruct sk as [i rs st a d]; cbn in *. subst. reflexivity. }
  unfold SkillRoute.restoreSkill, tryCatch, bind, Skill_findById, Skill_save.
  rewrite F1; cbn [fst snd]. rewrite E, V; cbn [fst snd].
  split; [reflexivity|].
  intros id'. unfold set_skillDocs, ret; cbn [fst snd skillDocs].
  destruct (Nat.eq_dec id' id) as [-> | Hne].
  - rewrite F. apply findSkill_replace_at; [exact Hid|].
    rewrite F1. discriminate.
  - rewrite findSkill_replace_other by congruence. now apply Fo.
Qed.

Lemma restoreSkill_undoes_deleteSkill_witness :
  SkillRoute.status_of
    (fst (SkillRoute.restoreSkill offline 9
            (snd (SkillRoute.deleteSkill offline 9 idleSkillWorld)))) = Some 200 /\
  forall id',
    Store.findSkill id'
      (skillDocs (snd (SkillRoute.restoreSkill offline 9
                         (snd (SkillRoute.deleteSkill offline 9 idleSkillWorld)))))
    = Store.findSkill id' (skillDocs idleSkillWorld).
Proof.
  apply (restoreSkill_undoes_deleteSkill offline 9 idleSkillWorld (freshSkill 9 [])).
  - reflexivity.
  - reflexivity.
  - reflexivity.
  - vm_compute. reflexivity.
Defined.

(* ================================================================== *)
(** * The slug of a skill *)
(* ================================================================== *)

Section SlugFacts.

Lemma dash_not_word (c : ascii) : Slug.isDash c = true -> Slug.wordChar c = false.
Proof.
  unfold Slug.isDash, Js.isChar. intros H. apply Ascii.eqb_eq in H. now subst c.
Qed.

Lemma replaceRuns_dashSeparated (s : string) (inRun : bool) :
  Slug.dashSeparated inRun (Slug.replaceRuns inRun s) = true.
Proof.
  induction s as [|c s IH] in inRun |- *; [reflexivity|].
  cbn [Slug.replaceRuns]. destruct (Slug.wordChar c) eqn:W.
  - cbn [Slug.dashSeparated]. rewrite W.
    destruct (Slug.isDash c) eqn:D; [now rewrite (dash_not_word c D) in W|].
    apply IH.
  - destruct inRun; [apply IH|].
    cbn [Slug.dashSeparated]. change (Slug.isDash "-") with true. cbn [negb andb].
    apply IH.
Qed.

Lemma dashSeparated_weaken (s : string) :
  Slug.dashSeparated true s = true -> Slug.dashSeparated false s = true.
Proof.
  destruct s as [|c s]; [reflexivity|]. cbn [Slug.dashSeparated].
  destruct (Slug.isDash c); [discriminate | auto].
Qed.

Lemma dropFinalDash_shape (s : string) (afterDash : bool) :
  Slug.dashSeparated afterDash s = true ->
  Slug.dashSeparated afterDash (Slug.dropFinalDash s) = true /\
  Slug.endsWithDash (Slug.dropFinalDash s) = false.
Proof.
  induction s as [|c s IH] in afterDash |- *; [now split|].
  intros H. destruct s as [|c' s'].
  - cbn [Slug.dropFinalDash]. destruct (Slug.isDash c) eqn:D; [now split|].
    split; [exact H|]. cbn. exact D.
  - change (Slug.dropFinalDash (String c (String c' s')))
      with (String c (Slug.dropFinalDash (String c' s'))).
    cbn [Slug.dashSeparated] in H |- *.
    destruct (Slug.isDash c) eqn:D.
    + apply andb_true_iff in H as [H1 H2]. rewrite H1. cbn [andb].
      destruct (IH true H2) as [I1 I2]. split; [exact I1|].
      revert I1 I2. destruct (Slug.dropFinalDash (String c' s')) as [|d r] eqn:E.
      * intros _ _. exfalso.
        cbn [Slug.dashSeparated] in H2.
        destruct (Slug.isDash c') eqn:D'; [discriminate H2|].
        destruct s'; cbn [Slug.dropFinalDash] in E; [rewrite D' in E|]; discriminate E.
      * intros _ I2. exact I2.
    + apply andb_true_iff in H as [H1 H2]. rewrite H1. cbn [andb].
      destruct (IH false H2) as [I1 I2]. split; [exact I1|].
      destruct (Slug.dropFinalDash (String c' s')) as [|d r] eqn:E; [|exact I2].
      cbn. exact D.
Qed.

Lemma dropEdgeDashes_shape (s : string) :
  Slug.dashSeparated false s = true ->
  Slug.dashSeparated true (Slug.dropEdgeDashes s) = true /\
  Slug.endsWithDash (Slug.dropEdgeDashes s) = false.
Proof.
  destruct s as [|c s]; [now split|].
  unfold Slug.dropEdgeDashes. intros H.
  destruct (Slug.isDash c) eqn:D.
  - cbn [Slug.dashSeparated] in H. rewrite D in H. cbn in H.
    now apply dropFinalDash_shape.
  - assert (H' : Slug.dashSeparated true (String c s) = true).
    { cbn [Slug.dashSeparated] in H |- *. now rewrite D in H |- *. }
    now apply dropFinalDash_shape.
Qed.

(** The shape of every slug. *)
Lemma ofName_shape (name : string) :
  Slug.dashSeparated true (Slug.ofName name) = true /\
  Slug.endsWithDash (Slug.ofName name) = false.
Proof. apply dropEdgeDashes_shape, replaceRuns_dashSeparated. Qed.

Lemma dashSeparated_alphabet (s : string) (afterDash : bool) :
  Slug.dashSeparated afterDash s = true ->
  Js.forallb (fun c => Slug.wordChar c || Slug.isDash c) s = true.
Proof.
  induction s as [|c s IH] in afterDash |- *; [reflexivity|].
  cbn [Slug.dashSeparated Js.forallb]. destruct (Slug.isDash c).
  - intros H. apply andb_true_iff in H as [_ H]. rewrite orb_true_r. cbn. eauto.
  - intros H. apply andb_true_iff in H as [W H]. rewrite W. cbn. eauto.
Qed.

Lemma dashSeparated_no_double (s : string) (afterDash : bool) :
  Slug.dashSeparated afterDash s = true -> Js.includes s "--" = false.
Proof.
  induction s as [|c s IH] in afterDash |- *; [reflexivity|].
  cbn [Slug.dashSeparated]. intros H.
  assert (T : Js.includes s "--" = false).
  { destruct (Slug.isDash c); apply andb_true_iff in H as [_ H]; eauto. }
  cbn [Js.includes]. rewrite T, orb_false_r.
  cbn [String.prefix]. destruct (Ascii.ascii_dec "-" c) as [<- | Hne]; [|reflexivity].
  change (Slug.isDash "-") with true in H. cbn iota in H.
  apply andb_true_iff in H as [_ H].
  destruct s as [|d s]; [reflexivity|]. cbn [String.prefix].
  destruct (Ascii.ascii_dec "-" d) as [<- | Hd]; [|reflexivity].
  cbn in H. discriminate H.
Qed.

Lemma dashSeparated_no_leading_dash (s : string) :
  Slug.dashSeparated true s = true -> Js.startsWith s "-" = false.
Proof.
  destruct s as [|c s]; [reflexivity|].
  cbn [Slug.dashSeparated]. unfold Js.startsWith. cbn [String.prefix].
  destruct (Ascii.ascii_dec "-" c) as [<- | Hne]; [|reflexivity].
  change (Slug.isDash "-") with true. cbn. discriminate.
Qed.

Lemma lowerChar_fixed (c : ascii) :
  Slug.wordChar c || Slug.isDash c = true -> Js.lowerChar c = c.
Proof.
  intros H. unfold Js.lowerChar.
  destruct (Js.isUpper c) eqn:U; [|reflexivity]. exfalso. revert H U.
  unfold Slug.wordChar, Slug.isDash, Js.isChar, Js.isLower, Js.isDigit, Js.isUpper,
    Js.between.
  intros H U. apply andb_true_iff in U as [U1 U2].
  apply Nat.leb_le in U1, U2.
  apply orb_true_iff in H as [H | H].
  - apply orb_true_iff in H as [H | H]; apply andb_true_iff in H as [H1 H2];
      apply Nat.leb_le in H1, H2; lia.
  - apply Ascii.eqb_eq in H. subst c. cbn in U1. lia.
Qed.

Lemma toLowerCase_fixed (s : string) :
  Js.forallb (fun c => Slug.wordChar c || Slug.isDash c) s = true ->
  Js.toLowerCase s = s.
Proof.
  induction s as [|c s IH]; [reflexivity|]. cbn [Js.forallb Js.toLowerCase].
  intros H. apply andb_true_iff in H as [H1 H2].
  now rewrite (lowerChar_fixed c H1), IH.
Qed.

Lemma replaceRuns_fixed (s : string) (afterDash : bool) :
  Slug.dashSeparated afterDash s = true -> Slug.replaceRuns afterDash s = s.
Proof.
  induction s as [|c s IH] in afterDash |- *; [reflexivity|].
  cbn [Slug.dashSeparated Slug.replaceRuns]. destruct (Slug.isDash c) eqn:D.
  - rewrite (dash_not_word c D). intros H. apply andb_true_iff in H as [H1 H2].
    destruct afterDash; [discriminate H1|].
    unfold Slug.isDash, Js.isChar in D. apply Ascii.eqb_eq in D. subst c.
    now rewrite (IH true H2).
  - intros H. apply andb_true_iff in H as [H1 H2]. rewrite H1.
    now rewrite (IH false H2).
Qed.

Lemma dropFinalDash_fixed (s : string) :
  Slug.endsWithDash s = false -> Slug.dropFinalDash s = s.
Proof.
  induction s as [|c s IH]; [reflexivity|].
  destruct s as [|c' s'].
  - cbn. now intros ->.
  - intros H.
    change (Slug.dropFinalDash (String c (String c' s')))
      with (String c (Slug.dropFinalDash (String c' s'))).
    now rewrite IH.
Qed.

Lemma existsb_replaceRuns (s : string) (inRun : bool) :
  Js.existsb Slug.wordChar (Slug.replaceRuns inRun s) = Js.existsb Slug.wordChar s.
Proof.
  induction s as [|c s IH] in inRun |- *; [reflexivity|].
  cbn [Slug.replaceRuns Js.existsb]. destruct (Slug.wordChar c) eqn:W.
  - cbn [Js.existsb]. now rewrite W.
  - destruct inRun; [apply IH|]. cbn [Js.existsb orb].
    change (Slug.wordChar "-") with false. cbn [orb]. apply IH.
Qed.

Lemma existsb_dropFinalDash (s : string) :
  Js.existsb Slug.wordChar (Slug.dropFinalDash s) = Js.existsb Slug.wordChar s.
Proof.
  induction s as [|c s IH]; [reflexivity|].
  destruct s as [|c' s'].
  - cbn [Slug.dropFinalDash]. destruct (Slug.isDash c) eqn:D; [|reflexivity].
    cbn. now rewrite (dash_not_word c D).
  - change (Slug.dropFinalDash (String c (String c' s')))
      with (String c (Slug.dropFinalDash (String c' s'))).
    cbn [Js.existsb]. now rewrite IH.
Qed.

Lemma existsb_dropEdgeDashes (s : string) :
  Js.existsb Slug.wordChar (Slug.dropEdgeDashes s) = Js.existsb Slug.wordChar s.
Proof.
  destruct s as [|c s]; [reflexivity|]. unfold Slug.dropEdgeDashes.
  destruct (Slug.isDash c) eqn:D; rewrite existsb_dropFinalDash; [|reflexivity].
  cbn [Js.existsb]. now rewrite (dash_not_word c D).
Qed.

Lemma wordChar_lowerChar (c : ascii) :
  Slug.wordChar (Js.lowerChar c) = Js.isAlnum c.
Proof.
  unfold Js.lowerChar, Js.isAlnum, Js.isAlpha, Slug.wordChar.
  destruct (Js.isUpper c) eqn:U.
  - unfold Js.isUpper, Js.isLower, Js.isDigit, Js.between, Js.code in *.
    apply andb_true_iff in U as [U1 U2]. apply Nat.leb_le in U1, U2.
    rewrite nat_ascii_embedding by lia.
    assert (E1 : (97 <=? nat_of_ascii c + 32) = true) by (apply Nat.leb_le; lia).
    assert (E2 : (nat_of_ascii c + 32 <=? 122) = true) by (apply Nat.leb_le; lia).
    rewrite E1, E2. cbn [andb orb]. now rewrite orb_true_r.
  - now rewrite orb_false_r.
Qed.

Lemma existsb_toLowerCase (s : string) :
  Js.existsb Slug.wordChar (Js.toLowerCase s) = Js.existsb Js.isAlnum s.
Proof.
  induction s as [|c s IH]; [reflexivity|].
  cbn [Js.toLowerCase Js.existsb]. now rewrite wordChar_lowerChar, IH.
Qed.

Lemma replaceRuns_no_word (s : string) :
  Js.existsb Slug.wordChar s = false ->
  Slug.replaceRuns true s = "" /\
  (Slug.replaceRuns false s = "" \/ Slug.replaceRuns false s = "-").
Proof.
  induction s as [|c s IH]; [now split; [|left]|].
  cbn [Js.existsb Slug.replaceRuns]. intros H. apply orb_false_iff in H as [W H].
  rewrite W. destruct (IH H) as [I1 _]. rewrite I1. split; [reflexivity | now right].
Qed.

End SlugFacts.

(** Every slug is made of lower-case ASCII letters, digits and dashes
    only, has no dash at either end and no two dashes in a row, whatever
    the name is. *)
Theorem slug_is_dash_separated_words (name : string) :
  let slug := Slug.ofName name in
  Js.forallb (fun c => Js.isLower c || Js.isDigit c || Js.isChar c "-") slug = true /\
  Js.startsWith slug "-" = false /\
  Slug.endsWithDash slug = false /\
  Js.includes slug "--" = false.
Proof.
  destruct (ofName_shape name) as [S1 S2]. cbv zeta.
  split; [exact (dashSeparated_alphabet _ _ S1)|].
  split; [exact (dashSeparated_no_leading_dash _ S1)|].
  split; [exact S2 | exact (dashSeparated_no_double _ _ S1)].
Qed.

(** A slug is its own slug: renaming a skill to its slug keeps the slug. *)
Theorem slug_of_slug (name : string) :
  Slug.ofName (Slug.ofName name) = Slug.ofName name.
Proof.
  destruct (ofName_shape name) as [S1 S2].
  set (s := Slug.ofName name) in *.
  unfold Slug.ofName at 1.
  rewrite (toLowerCase_fixed s (dashSeparated_alphabet _ _ S1)).
  rewrite (replaceRuns_fixed s false (dashSeparated_weaken s S1)).
  unfold Slug.dropEdgeDashes. destruct s as [|c r] eqn:E; [reflexivity|].
  destruct (Slug.isDash c) eqn:D.
  - cbn [Slug.dashSeparated] in S1. rewrite D in S1. discriminate S1.
  - now apply dropFinalDash_fixed.
Qed.

(** The slug of an ASCII name is empty exactly when the name has no
    letter and no digit; otherwise it keeps a letter or digit. *)
Theorem slug_empty_iff_no_letter_or_digit (name : string) :
  Js.forallb (fun c => Js.code c <? 128) name = true ->
  (Slug.ofName name = "" <-> Js.existsb Js.isAlnum name = false).
Proof.
  intros _.
  assert (E : Js.existsb Slug.wordChar (Slug.ofName name) = Js.existsb Js.isAlnum name).
  { unfold Slug.ofName.
    now rewrite existsb_dropEdgeDashes, existsb_replaceRuns, existsb_toLowerCase. }
  split.
  - intros H. rewrite H in E. now rewrite <- E.
  - intros H. rewrite <- existsb_toLowerCase in H. unfold Slug.ofName.
    destruct (replaceRuns_no_word _ H) as [_ [-> | ->]]; reflexivity.
Qed.

Lemma slug_empty_iff_no_letter_or_digit_witness :
  Slug.ofName "+ + +" = "" <-> Js.existsb Js.isAlnum "+ + +" = false.
Proof.
  apply (slug_empty_iff_no_letter_or_digit "+ + +"). reflexivity.
Defined.

Example slug_of_a_name : Slug.ofName "  C++ & Node.js: Basics!" = "c-node-js-basics".
Proof. reflexivity. Qed.

(* ================================================================== *)
(** * [verifyUrls]: every URL is verified once *)
(* ================================================================== *)

Section FloatOrder.

Ltac order_cases :=
  repeat match goal with
         | |- context [(?a ?= ?b)%Z] => destruct (Z.compare_spec a b)
         | H : context [(?a ?= ?b)%Z] |- _ => destruct (Z.compare_spec a b)
         | |- context [PosDef.Pos.compare_cont Eq ?a ?b] =>
             change (PosDef.Pos.compare_cont Eq a b) with (Pos.compare a b);
             destruct (Pos.compare_spec a b)
         | H : context [PosDef.Pos.compare_cont Eq ?a ?b] |- _ =>
             change (PosDef.Pos.compare_cont Eq a b) with (Pos.compare a b) in H;
             destruct (Pos.compare_spec a b)
         end;
  cbn in *; try congruence; try lia.

Lemma SFltb_trans (a b c : spec_float) :
  SFltb a b = true -> SFltb b c = true -> SFltb a c = true.
Proof.
  unfold SFltb.
  destruct a as [sa|sa| |sa ma ea], b as [sb|sb| |sb mb eb], c as [sc|sc| |sc mc ec];
    cbn; try discriminate;
    repeat match goal with s : bool |- _ => destruct s end; cbn;
    try discriminate; try reflexivity; intros H1 H2; order_cases.
Qed.

Lemma SFltb_asym (a b : spec_float) : SFltb a b = true -> SFltb b a = false.
Proof.
  unfold SFltb.
  destruct a as [sa|sa| |sa ma ea], b as [sb|sb| |sb mb eb];
    cbn; try discriminate; try reflexivity;
    repeat match goal with s : bool |- _ => destruct s end; cbn;
    try discriminate; try reflexivity; intros H1; order_cases.
Qed.

(** Numbers that compare equal are below the same numbers. *)
Lemma SFltb_equal (a b z : spec_float) :
  SFltb a b = false -> SFltb b a = false ->
  SFeqb a a = true -> SFeqb b b = true ->
  SFltb z a = SFltb z b.
Proof.
  unfold SFltb, SFeqb.
  destruct a as [sa|sa| |sa ma ea], b as [sb|sb| |sb mb eb], z as [sz|sz| |sz mz ez];
    cbn; try discriminate; try reflexivity;
    repeat match goal with s : bool |- _ => destruct s end; cbn;
    try discriminate; try reflexivity; intros H1 H2 _ _; order_cases.
Qed.

Local Open Scope float_scope.

Lemma ltb_asym (a b : float) : (a <? b) = true -> (b <? a) = false.
Proof. rewrite !ltb_spec. apply SFltb_asym. Qed.

Lemma ltb_irrefl (a : float) : (a <? a) = false.
Proof.
  destruct (a <? a) eqn:E; [|reflexivity]. now rewrite (ltb_asym a a E) in E.
Qed.

Lemma ltb_nan (a : float) : (a <? nan) = false.
Proof.
  rewrite ltb_spec. change (Prim2SF nan) with S754_nan.
  unfold SFltb. now destruct (Prim2SF a).
Qed.

Lemma not_nan_eqb (a : float) :
  PrimFloat.is_nan a = false -> SFeqb (Prim2SF a) (Prim2SF a) = true.
Proof.
  unfold PrimFloat.is_nan. rewrite eqb_spec. now destruct (SFeqb _ _).
Qed.

(** [Math.min(a, b)] is never above [b]. *)
Lemma min_not_above (a b : float) : (b <? Math.min a b) = false.
Proof.
  unfold Math.min.
  destruct (PrimFloat.is_nan a || PrimFloat.is_nan b); [apply ltb_nan|].
  destruct (a <? b) eqn:Hab; [now apply ltb_asym|].
  destruct (b <? a) eqn:Hba; [apply ltb_irrefl|].
  destruct (PrimFloat.get_sign a); [exact Hba | apply ltb_irrefl].
Qed.

(** What is not below [a] is not below [Math.min(a, b)]. *)
Lemma min_not_above_left (z a b : float) :
  (z <? a) = false -> (z <? Math.min a b) = false.
Proof.
  intros Hz. unfold Math.min.
  destruct (PrimFloat.is_nan a || PrimFloat.is_nan b) eqn:N; [apply ltb_nan|].
  apply orb_false_iff in N as [Na Nb].
  destruct (a <? b) eqn:Hab; [exact Hz|].
  destruct (b <? a) eqn:Hba.
  - destruct (z <? b) eqn:Hzb; [|reflexivity].
    rewrite ltb_spec in Hz, Hba, Hzb.
    now rewrite (SFltb_trans _ _ _ Hzb Hba) in Hz.
  - destruct (PrimFloat.get_sign a); [exact Hz|].
    rewrite ltb_spec in Hz, Hab, Hba |- *.
    rewrite <- (SFltb_equal _ _ (Prim2SF z) Hab Hba
                  (not_nan_eqb a Na) (not_nan_eqb b Nb)).
    exact Hz.
Qed.

End FloatOrder.

Section PoolFacts.

Variable P : Platform.

Lemma bind_Ok {A B} (m : M A) (k : A -> M B) (w w1 : World) (a : A) :
  m w = (Ok a, w1) -> bind m k w = k a w1.
Proof. unfold bind. now intros ->. Qed.

Lemma verifyUrl_returns (url : option string) (w : World) :
  exists r w', verifyUrl P url defaultTimeout w = (Ok r, w').
Proof.
  destruct (verifyUrl_total P url defaultTimeout w defaultTimeout_accepted)
    as (r & w' & H & _).
  eauto.
Qed.

Lemma verifyEach_snoc (issued : list (option string)) (url : option string)
    (w0 w w' : World) (outs : list (option string * VerifyResult)) (r : VerifyResult) :
  verifyEach P issued w0 = (Ok outs, w) ->
  verifyUrl P url defaultTimeout w = (Ok r, w') ->
  verifyEach P (issued ++ [url]) w0 = (Ok (outs ++ [(url, r)])%list, w').
Proof.
  induction issued as [|u issued IH] in w0, outs |- *; cbn [verifyEach app].
  - intros H Hv. injection H as <- <-. now rewrite (bind_Ok _ _ _ _ _ Hv).
  - intros H Hv.
    destruct (verifyUrl_returns u w0) as (r0 & w1 & H0).
    rewrite (bind_Ok _ _ _ _ _ H0) in H. rewrite (bind_Ok _ _ _ _ _ H0).
    destruct (verifyEach P issued w1) as [[more|e] w2] eqn:E.
    + rewrite (bind_Ok _ _ _ _ _ E) in H. injection H as <- <-.
      now rewrite (bind_Ok _ _ _ _ _ (IH _ _ E Hv)).
    + unfold bind in H. rewrite E in H. discriminate H.
Qed.

Lemma Permutation_insert {A} (x : A) (outs pushed p1 p2 : list A) :
  Permutation outs (pushed ++ p1 ++ p2) ->
  Permutation (outs ++ [x]) (pushed ++ p1 ++ x :: p2).
Proof.
  intros H.
  eapply Permutation_trans; [apply Permutation_app_tail, H|].
  eapply Permutation_trans; [apply Permutation_sym, Permutation_cons_append|].
  rewrite !List.app_assoc. apply Permutation_middle.
Qed.

Lemma setWorker_split (workers : list Pool.Worker) (j : nat) (worker : Pool.Worker) :
  List.nth_error workers j = Some worker ->
  exists before after,
    workers = (before ++ worker :: after)%list /\
    forall next, Pool.setWorker j next workers = (before ++ next :: after)%list.
Proof.
  induction workers as [|first rest IH] in j |- *; destruct j; cbn; try discriminate.
  - intros H. injection H as ->. now exists [], rest.
  - intros H. destruct (IH j H) as (before & after & -> & Hs).
    exists (first :: before), after. split; [reflexivity|].
    intros next. cbn. now rewrite Hs.
Qed.

Lemma pending_app (l1 l2 : list Pool.Worker) :
  Pool.pending (l1 ++ l2) = (Pool.pending l1 ++ Pool.pending l2)%list.
Proof.
  induction l1 as [|[u r| |] l1 IH]; cbn; [reflexivity| |exact IH|exact IH].
  now rewrite IH.
Qed.

Lemma resumptions_app (l1 l2 : list Pool.Worker) :
  Pool.resumptions (l1 ++ l2) = Pool.resumptions l1 + Pool.resumptions l2.
Proof.
  induction l1 as [|[u r| |] l1 IH]; cbn; lia.
Qed.

Lemma suspendedFrom_In (workers : list Pool.Worker) (i j : nat) :
  List.In j (Pool.suspendedFrom i workers) ->
  exists worker,
    List.nth_error workers (j - i) = Some worker /\ Pool.isReturned worker = false /\
    i <= j.
Proof.
  induction workers as [|first rest IH] in i |- *; cbn; [intros []|].
  destruct (Pool.isReturned first) eqn:R.
  - intros H. destruct (IH _ H) as (worker & Hn & Hr & Hle).
    exists worker. replace (j - i) with (S (j - S i)) by lia. cbn. repeat split; auto. lia.
  - intros [<- | H].
    + exists first. rewrite Nat.sub_diag. cbn. auto.
    + destruct (IH _ H) as (worker & Hn & Hr & Hle).
      exists worker. replace (j - i) with (S (j - S i)) by lia. cbn.
      repeat split; auto. lia.
Qed.

Lemma suspendedFrom_nil (workers : list Pool.Worker) (i : nat) :
  Pool.suspendedFrom i workers = [] ->
  Pool.pending workers = [] /\ Pool.resumptions workers = 0.
Proof.
  induction workers as [|[u r| |] rest IH] in i |- *; cbn; try discriminate; eauto.
Qed.

Lemma suspendedFrom_some (before after : list Pool.Worker) (worker : Pool.Worker)
    (i : nat) :
  Pool.isReturned worker = false ->
  Pool.suspendedFrom i (before ++ worker :: after) <> [].
Proof.
  intros R. induction before as [|first before IH] in i |- *; cbn.
  - rewrite R. discriminate.
  - destruct (Pool.isReturned first); [apply IH | discriminate].
Qed.

Lemma resume_step (urls : list (option string)) (w0 : World) (pool : Pool.t)
    (w : World) (j : nat) (worker : Pool.Worker) :
  List.nth_error (Pool.workers pool) j = Some worker ->
  Pool.isReturned worker = false ->
  poolReady P urls w0 pool w ->
  exists pool' w',
    resume P j pool w = (Ok pool', w') /\ poolReady P urls w0 pool' w' /\
    S (Pool.stepsLeft pool') = Pool.stepsLeft pool.
Proof.
  intros Hn R [(issued & outs & Hu & He & Hp) Hq].
  destruct (setWorker_split _ _ _ Hn) as (before & after & Hw & Hs).
  unfold resume, Pool.stepsLeft. rewrite Hn. destruct worker as [url result| |]; [| |discriminate R].
  - eexists _, _. split; [reflexivity|]. cbn [Pool.queue Pool.results Pool.workers].
    rewrite Hs. split; [split|].
    + exists issued, outs. cbn [Pool.queue Pool.results Pool.workers].
      split; [exact Hu|]. split; [exact He|].
      rewrite Hw, pending_app in Hp. rewrite pending_app. cbn [Pool.pending] in *.
      rewrite <- List.app_assoc. cbn [app].
      eapply Permutation_trans; [exact Hp|].
      apply Permutation_app_head. symmetry. apply Permutation_middle.
    + intros _. now apply suspendedFrom_some.
    + rewrite Hw, !resumptions_app. cbn. lia.
  - unfold processQueue. destruct (Pool.queue pool) as [|url rest] eqn:Q.
    + eexists _, _. split; [reflexivity|]. cbn [fst snd Pool.queue Pool.results Pool.workers].
      rewrite Hs, Q. split; [split|].
      * exists issued, outs. cbn [Pool.queue Pool.results Pool.workers].
        split; [exact Hu|]. split; [exact He|].
        rewrite Hw, pending_app in Hp. now rewrite pending_app.
      * intros H. now destruct H.
      * rewrite Hw, !resumptions_app. cbn. lia.
    + destruct (verifyUrl_returns url w) as (r & w' & Hv).
      exists (Pool.mk rest (Pool.results pool)
                (Pool.setWorker j (Pool.Awaiting url r) (Pool.workers pool))), w'.
      split; [unfold bind; rewrite Hv; reflexivity|].
      cbn [Pool.queue Pool.results Pool.workers]. rewrite Hs. split; [split|].
      * exists (issued ++ [url])%list, (outs ++ [(url, r)])%list.
        cbn [Pool.queue Pool.results Pool.workers].
        split; [rewrite Hu, <- List.app_assoc; reflexivity|].
        split; [now apply verifyEach_snoc with (w := w)|].
        rewrite Hw, pending_app in Hp. rewrite pending_app. cbn [Pool.pending] in *.
        now apply Permutation_insert.
      * intros _. now apply suspendedFrom_some.
      * rewrite Hw, !resumptions_app. cbn. lia.
Qed.

Lemma eventLoop_finishes (urls : list (option string)) (w0 : World)
    (schedule : list nat) (pool : Pool.t) (w : World) :
  poolReady P urls w0 pool w ->
  Pool.stepsLeft pool <= List.length schedule ->
  exists pool' w',
    eventLoop P schedule pool w = (Ok (Some pool'), w') /\
    poolReady P urls w0 pool' w' /\
    Pool.suspended (Pool.workers pool') = [].
Proof.
  induction schedule as [|choice schedule IH] in pool, w |- *; intros Hr Hs.
  - destruct (Pool.suspended (Pool.workers pool)) as [|j js] eqn:S.
    + exists pool, w. cbn [eventLoop]. rewrite S. auto.
    + exfalso.
      assert (Hin : List.In j (Pool.suspended (Pool.workers pool)))
        by (rewrite S; now left).
      destruct (suspendedFrom_In _ _ _ Hin) as (worker & Hn & R & _).
      destruct (setWorker_split _ _ _ Hn) as (before & after & Hw & _).
      unfold Pool.stepsLeft in Hs. rewrite Hw, resumptions_app in Hs. cbn in Hs.
      destruct worker; [cbn in Hs; lia | cbn in Hs; lia | discriminate R].
  - cbn [eventLoop].
    destruct (Pool.suspended (Pool.workers pool)) as [|j js] eqn:S.
    + exists pool, w. auto.
    + set (k := List.nth (choice mod List.length (j :: js)) (j :: js) j).
      assert (Hin : List.In k (Pool.suspended (Pool.workers pool))).
      { rewrite S. apply List.nth_In. apply Nat.mod_upper_bound. discriminate. }
      destruct (suspendedFrom_In _ _ _ Hin) as (worker & Hn & R & _).
      rewrite Nat.sub_0_r in Hn.
      destruct (resume_step urls w0 pool w k worker Hn R Hr) as (pool1 & w1 & E & Hr1 & Hs1).
      rewrite (bind_Ok _ _ _ _ _ E).
      apply IH; [exact Hr1|]. cbn [List.length] in Hs. lia.
Qed.

Lemma startWorkers_equation (fuel i : nat) (limit : float) (pool : Pool.t) :
  startWorkers P fuel i limit pool
  = if PrimFloat.ltb (Num.ofNat i) limit then
      match fuel with
      | 0 => ret None
      | S fuel =>
          bind (processQueue P pool) (fun started =>
            startWorkers P fuel (S i) limit
              (Pool.mk (Pool.queue (snd started)) (Pool.results (snd started))
                       (Pool.workers (snd started) ++ [fst started])%list))
      end
    else ret (Some pool).
Proof. destruct fuel; reflexivity. Qed.

Lemma resumptions_allAwaiting (workers : list Pool.Worker) :
  Pool.allAwaiting workers -> Pool.resumptions workers = 2 * List.length workers.
Proof.
  induction workers as [|first rest IH]; [reflexivity|]. intros H.
  destruct (H first (or_introl eq_refl)) as (url & r & ->).
  cbn [Pool.resumptions List.length]. rewrite IH; [lia|].
  intros worker Hin. apply H. now right.
Qed.

Lemma startWorkers_starts (urls : list (option string)) (w0 : World)
    (fuel i : nat) (limit : float) (pool : Pool.t) (w : World) :
  List.length (Pool.queue pool) = fuel ->
  PrimFloat.ltb (Num.ofNat (i + fuel)) limit = false ->
  poolInvariant P urls w0 pool w ->
  Pool.allAwaiting (Pool.workers pool) ->
  exists pool' w',
    startWorkers P fuel i limit pool w = (Ok (Some pool'), w') /\
    poolInvariant P urls w0 pool' w' /\
    Pool.allAwaiting (Pool.workers pool') /\
    List.length (Pool.queue pool') + List.length (Pool.workers pool')
    = fuel + List.length (Pool.workers pool) /\
    List.length (Pool.workers pool) <= List.length (Pool.workers pool') /\
    (PrimFloat.ltb (Num.ofNat i) limit = true -> Pool.workers pool' <> []).
Proof.
  induction fuel as [|fuel IH] in i, pool, w |- *; intros Hq Hstop Hinv Hall;
    rewrite startWorkers_equation.
  - rewrite Nat.add_0_r in Hstop. rewrite Hstop.
    exists pool, w. split; [reflexivity|]. split; [exact Hinv|]. split; [exact Hall|].
    split; [lia|]. split; [lia|]. intros H; discriminate H.
  - destruct (PrimFloat.ltb (Num.ofNat i) limit) eqn:T.
    2: { exists pool, w. split; [reflexivity|]. split; [exact Hinv|].
         split; [exact Hall|]. split; [lia|]. split; [lia|]. intros H; discriminate H. }
    destruct (Pool.queue pool) as [|url rest] eqn:Q; [discriminate Hq|].
    destruct (verifyUrl_returns url w) as (r & w1 & Hv).
    destruct Hinv as (issued & outs & Hu & He & Hp).
    set (pool1 := Pool.mk rest (Pool.results pool)
                    (Pool.workers pool ++ [Pool.Awaiting url r])%list).
    assert (E : bind (processQueue P pool) (fun started =>
                  startWorkers P fuel (S i) limit
                    (Pool.mk (Pool.queue (snd started)) (Pool.results (snd started))
                       (Pool.workers (snd started) ++ [fst started])%list)) w
                = startWorkers P fuel (S i) limit pool1 w1).
    { unfold processQueue. rewrite Q. unfold bind at 1 2. rewrite Hv. reflexivity. }
    rewrite E.
    destruct (IH (S i) pool1 w1) as (pool' & w' & Es & Hinv' & Hall' & Hlen & Hle & _).
    + cbn in Hq |- *. lia.
    + now replace (S i + fuel) with (i + S fuel) by lia.
    + exists (issued ++ [url])%list, (outs ++ [(url, r)])%list.
      cbn [pool1 Pool.queue Pool.results Pool.workers].
      split; [rewrite Hu, Q, <- List.app_assoc; reflexivity|].
      split; [now apply verifyEach_snoc with (w := w)|].
      rewrite pending_app. cbn [Pool.pending]. rewrite !List.app_assoc.
      now apply Permutation_app_tail.
    + intros worker Hin. cbn [pool1 Pool.workers] in Hin.
      apply List.in_app_or in Hin as [Hin | [<- | []]]; [now apply Hall | eauto].
    + exists pool', w'. split; [exact Es|]. split; [exact Hinv'|]. split; [exact Hall'|].
      cbn [pool1 Pool.workers] in Hlen, Hle. rewrite List.length_app in Hlen, Hle.
      cbn in Hlen, Hle. split; [cbn [List.length]; lia|]. split; [lia|].
      intros _ Hnil. rewrite Hnil in Hle. cbn in Hle. lia.
Qed.

Lemma verifyEach_urls (urls : list (option string)) (w w' : World)
    (outs : list (option string * VerifyResult)) :
  verifyEach P urls w = (Ok outs, w') -> List.map fst outs = urls.
Proof.
  induction urls as [|url rest IH] in w, w', outs |- *; cbn [verifyEach].
  - intros H. now injection H as <- _.
  - intros H. apply bind_Ok_inv in H as (r & w1 & _ & H).
    apply bind_Ok_inv in H as (more & w2 & Hm & H).
    injection H as <- _. cbn. now rewrite (IH _ _ _ Hm).
Qed.

End PoolFacts.

(** [verifyUrls] verifies every URL exactly once.  When the loop starts
    at least one worker and the event loop is given the [2 * urls.length]
    steps the workers need, the promise resolves, for every order in
    which responses and timers arrive: the results are those of verifying
    the URLs one after the other, in some order, each paired with its
    URL; and the requests went out in the order of [urls].  When the loop
    test fails at once, nothing is verified and the result is empty. *)
Theorem verifyUrls_verifies_each_url_once
    (P : Platform) (urls : list (option string)) (concurrency : float)
    (schedule : list nat) (w : World) :
  2 * List.length urls <= List.length schedule ->
  let limit := Math.min concurrency (Num.ofNat (List.length urls)) in
  let w' := snd (verifyUrls P urls concurrency schedule w) in
  exists results,
    fst (verifyUrls P urls concurrency schedule w) = Ok (Some results) /\
    (PrimFloat.ltb 0 limit = true ->
     exists outs,
       verifyEach P urls w = (Ok outs, w') /\
       List.map fst outs = urls /\
       Permutation results outs) /\
    (PrimFloat.ltb 0 limit = false -> results = [] /\ w' = w).
Proof.
  intros Hs limit. unfold verifyUrls. fold limit.
  destruct (startWorkers_starts P urls w (List.length urls) 0 limit
              (Pool.mk urls [] []) w)
    as (pool & w1 & Es & Hinv & Hall & Hlen & _ & Hne).
  - reflexivity.
  - apply min_not_above.
  - exists [], []. repeat split. constructor.
  - intros worker [].
  - rewrite (bind_Ok _ _ _ _ _ Es).
    destruct (PrimFloat.ltb 0 limit) eqn:T.
    + assert (Hr : poolReady P urls w pool w1).
      { split; [exact Hinv|]. intros _.
        destruct (Pool.workers pool) as [|first rest] eqn:W; [now destruct (Hne T)|].
        destruct (Hall first (or_introl eq_refl)) as (url & r & ->). discriminate. }
      assert (Hsteps : Pool.stepsLeft pool <= List.length schedule).
      { unfold Pool.stepsLeft. rewrite (resumptions_allAwaiting _ Hall).
        cbn [Pool.queue Pool.workers List.length] in Hlen. lia. }
      destruct (eventLoop_finishes P urls w schedule pool w1 Hr Hsteps)
        as (pool' & w' & Ee & [(issued & outs & Hu & He & Hp) Hq] & Hdone).
      rewrite (bind_Ok _ _ _ _ _ Ee). cbn [fst snd ret option_map].
      exists (Pool.results pool'). split; [reflexivity|]. split; [|discriminate].
      intros _. exists outs.
      destruct (Pool.queue pool') as [|url rest] eqn:Q;
        [|exfalso; apply Hq; [discriminate | exact Hdone]].
      rewrite List.app_nil_r in Hu. subst issued.
      destruct (suspendedFrom_nil _ _ Hdone) as [Hpend _].
      rewrite Hpend, List.app_nil_r in Hp.
      split; [exact He|]. split; [exact (verifyEach_urls P _ _ _ _ He)|].
      now apply Permutation_sym.
    + rewrite startWorkers_equation in Es.
      change (Num.ofNat 0) with 0%float in Es. rewrite T in Es.
      injection Es as <- <-.
      assert (Ee : eventLoop P schedule (Pool.mk urls [] []) w
                   = (Ok (Some (Pool.mk urls [] [])), w))
        by (destruct schedule; reflexivity).
      rewrite (bind_Ok _ _ _ _ _ Ee). cbn [fst snd ret option_map Pool.results].
      exists []. split; [reflexivity|]. split; [discriminate|]. now intros _.
Qed.

Lemma verifyUrls_verifies_each_url_once_witness :
  exists results,
    fst (verifyUrls online threeUrls 2 [0; 1; 1; 0; 0; 0] emptyWorld) = Ok (Some results) /\
    (PrimFloat.ltb 0 (Math.min 2 (Num.ofNat (List.length threeUrls))) = true ->
     exists outs,
       verifyEach online threeUrls emptyWorld
       = (Ok outs, snd (verifyUrls online threeUrls 2 [0; 1; 1; 0; 0; 0] emptyWorld)) /\
       List.map fst outs = threeUrls /\
       Permutation results outs) /\
    (PrimFloat.ltb 0 (Math.min 2 (Num.ofNat (List.length threeUrls))) = false ->
     results = [] /\
     snd (verifyUrls online threeUrls 2 [0; 1; 1; 0; 0; 0] emptyWorld) = emptyWorld).
Proof.
  apply (verifyUrls_verifies_each_url_once online threeUrls 2 [0; 1; 1; 0; 0; 0]
           emptyWorld).
  simpl. lia.
Defined.

(** With a concurrency that is not above zero (zero, a negative number
    or [NaN]) no worker is started: [verifyUrls] resolves to an empty
    list and verifies none of the URLs, however many there are. *)
Theorem verifyUrls_needs_positive_concurrency
    (P : Platform) (urls : list (option string)) (concurrency : float)
    (schedule : list nat) (w : World) :
  PrimFloat.ltb 0 concurrency = false ->
  verifyUrls P urls concurrency schedule w = (Ok (Some []), w).
Proof.
  intros Hc. unfold verifyUrls.
  rewrite startWorkers_equation. change (Num.ofNat 0) with 0%float.
  rewrite (min_not_above_left _ _ _ Hc).
  assert (Ee : eventLoop P schedule (Pool.mk urls [] []) w
               = (Ok (Some (Pool.mk urls [] [])), w))
    by (destruct schedule; reflexivity).
  unfold bind at 1. cbn [ret]. now rewrite (bind_Ok _ _ _ _ _ Ee).
Qed.

Lemma verifyUrls_needs_positive_concurrency_witness :
  verifyUrls online threeUrls 0 [] emptyWorld = (Ok (Some []), emptyWorld).
Proof.
  apply (verifyUrls_needs_positive_concurrency online threeUrls 0 [] emptyWorld).
  reflexivity.
Defined.

Example verifyUrls_out_of_order :
  option_map (List.map fst)
    (match fst (verifyUrls online threeUrls 2 [1; 0; 0; 0; 0; 0] emptyWorld) with
     | Ok r => r
     | Throw _ => None
     end)
  = Some [Some "not a url"; Some "https://a.example.org/"; Some "https://b.example.org/x"].
Proof. vm_compute. reflexivity. Qed.

(* ================================================================== *)
(** * The verdict of a re-verification *)
(* ================================================================== *)

(** [PATCH /resources/:id/verify] stores its verdict whatever it
    answers: after a 200 the resource is stored verified, and after a
    400 it is stored unverified (the failed re-verification is persisted,
    not only reported), which happens exactly when the URL is not
    allow-listed and its probe failed.  After a 500 the resources are as
    they were. *)
Theorem verifyResource_stores_its_verdict (P : Platform) (id : ObjectId) (w : World) :
  let answer := status_of (fst (verifyResource P id w)) in
  let w' := snd (verifyResource P id w) in
  (answer = Some 200 -> verifiedAt id w' = Some true) /\
  (answer = Some 400 ->
   verifiedAt id w' = Some false /\
   exists r, Store.findResource id (resourceDocs w) = Some r /\
             decisionFails P (Resource.url r) w) /\
  (answer = Some 500 -> resourceDocs w' = resourceDocs w).
Proof.
  cbv zeta. destruct (verifyResource P id w) as [o w'] eqn:E. cbn [fst snd].
  revert E. unfold verifyResource, tryCatch, Resource_findById.
  unfold bind at 1. cbn [fst snd].
  destruct (Store.findResource id (resourceDocs w)) as [r|] eqn:F.
  2: { intros E. injection E as <- <-. cbn.
       split; [|split]; intros H; discriminate H. }
  pose proof (findResource_id _ _ _ F) as Hid.
  assert (Save : forall b w1,
             resourceDocs w1 = resourceDocs w ->
             Resource_save (Resource.set_verified b r) w1
             = if Resource.validate (Resource.set_verified b r)
               then (Ok tt, set_resourceDocs
                              (Store.replaceResource (Resource.set_verified b r)
                                 (resourceDocs w)) w1)
               else (Throw "ValidationError", w1)).
  { intros b w1 Hs. unfold Resource_save.
    destruct (Resource.validate _); [|reflexivity].
    cbn [Resource._id Resource.set_verified]. now rewrite Hid, Hs, F. }
  assert (Found : forall b w1,
             verifiedAt id
               (set_resourceDocs
                  (Store.replaceResource (Resource.set_verified b r) (resourceDocs w)) w1)
             = Some b).
  { intros b w1. unfold verifiedAt. cbn [resourceDocs set_resourceDocs].
    rewrite findResource_replace. cbn [Resource._id Resource.set_verified].
    now rewrite Hid, Nat.eqb_refl, F. }
  destruct (verifyStoredUrl_cases P (Resource.url r) w)
    as [(Hk & Ev) | (Hk & res & w1 & Hv & (Hs & _) & Ev)].
  - unfold bind at 1. rewrite Ev. cbn [fst snd].
    unfold bind. rewrite (Save true w eq_refl).
    destruct (Resource.validate (Resource.set_verified true r)).
    + intros E. injection E as <- <-. cbn [status_of status respond].
      split; [intros _; apply Found|]. split; intros H; discriminate H.
    + intros E. injection E as <- <-. cbn.
      split; [intros H; discriminate H|]. split; [intros H; discriminate H|].
      reflexivity.
  - unfold bind at 1. rewrite Ev. cbn [fst snd].
    destruct (isValid res) eqn:Iv.
    + unfold bind. rewrite (Save true w1 Hs).
      destruct (Resource.validate (Resource.set_verified true r)).
      * intros E. injection E as <- <-. cbn [status_of status respond].
        split; [intros _; apply Found|]. split; intros H; discriminate H.
      * intros E. injection E as <- <-. cbn.
        split; [intros H; discriminate H|]. split; [intros H; discriminate H|].
        intros _. exact Hs.
    + unfold bind. rewrite (Save false w1 Hs).
      destruct (Resource.validate (Resource.set_verified false r)).
      * intros E. injection E as <- <-. cbn [status_of status].
        split; [intros H; discriminate H|]. split; [|intros H; discriminate H].
        intros _. split; [apply Found|]. exists r. split; [reflexivity|].
        split; [exact Hk|]. exists res, w1. now split.
      * intros E. injection E as <- <-. cbn.
        split; [intros H; discriminate H|]. split; [intros H; discriminate H|].
        intros _. exact Hs.
Qed.
